(** * gitmanager: the build-store-publish pipeline of [builder/builder.py]
      and the git webhook of [builder/views.py].

    The Python code is embedded shallowly.  The functions of
    [builder.py], [views.py] and [models.py] are translated statement by
    statement: state (the table of updates, the update object in memory,
    the log stream, the files) is passed explicitly through a small
    monad whose results tell falling through, [return] and an exception
    apart.  What these functions call outside the sources (git, the
    build module, the configuration loader, HTTP, the clock) is a
    parameter acting on an abstract external world, so that a theorem
    holds whatever those collaborators do; the three helpers [publish]
    depends on are modelled from the specification and marked so. *)

From stdpp Require Import gmap strings list sorting pretty.
From Stdlib Require Import ZArith Ascii.

(** ** Python strings *)

Module Py.

(** The one-character string holding a line feed. *)
Definition nl : string := String (ascii_of_nat 10) "".

(** [str.isspace] on the ASCII range: TAB..CR, FS..US and the blank. *)
Definition isspace (a : ascii) : bool :=
  let n := nat_of_ascii a in
  ((9 <=? n)%nat && (n <=? 13)%nat) || ((28 <=? n)%nat && (n <=? 32)%nat).

Fixpoint lstrip (s : string) : string :=
  match s with
  | String a s' => if isspace a then lstrip s' else s
  | EmptyString => EmptyString
  end.

Definition rstrip (s : string) : string := String.rev (lstrip (String.rev s)).

(** [s.strip()] *)
Definition strip (s : string) : string := rstrip (lstrip s).

(** [sep.join(l)] *)
Definition join (sep : string) (l : list string) : string := String.concat sep l.

(** Truth value of a string: [if s:]. *)
Definition truthy (s : string) : bool :=
  match s with EmptyString => false | _ => true end.

(** [str(x)] for an [Optional[int]]. *)
Definition str_opt_int (x : option Z) : string :=
  match x with None => "None" | Some n => pretty n end.

(** [str(x)] for an [Optional[str]] inside an f-string. *)
Definition str_opt (x : option string) : string :=
  match x with None => "None" | Some s => s end.

(** [s.startswith(c)] for a one-character prefix. *)
Definition starts_with_char (c : ascii) (s : string) : bool :=
  match s with String a _ => bool_decide (a = c) | EmptyString => false end.

(** [s.rpartition(sep)[2]] for a one-character separator: what follows
    the last occurrence of [sep], the whole string when there is none. *)
Fixpoint rpartition_tail (sep : ascii) (s : string) : string :=
  match s with
  | EmptyString => EmptyString
  | String a s' =>
      if existsb (λ c, bool_decide (c = sep)) (String.list_ascii_of_string s')
      then rpartition_tail sep s'
      else if bool_decide (a = sep) then s' else s
  end.

End Py.

(** ** [builder/models.py] *)

Module Models.

(** [CourseUpdate.Status] *)
Inductive Status := PENDING | RUNNING | SUCCESS | FAILED | SKIPPED.

#[global] Instance Status_eq_dec : EqDecision Status.
Proof. solve_decision. Defined.

(** [class Course(models.Model)]: the fields the pipeline and the hook read. *)
Record Course := {
  key : string;
  remote_id : option Z;
  git_origin : string;
  git_branch : string;
  email_on_error : bool;
  update_automatically : bool;
  skip_build_failsafes : bool;
  webhook_secret : option string;
}.

(** [class CourseUpdate(models.Model)]; [pk] is the primary key of the row
    and [course] the key of the owning course. *)
Record CourseUpdate := {
  pk : nat;
  course : string;
  request_ip : option string;
  request_time : Z;
  updated_time : option Z;
  commit_hash : option string;
  status : Status;
  log : option string;
}.

Definition set_status (s : Status) (u : CourseUpdate) : CourseUpdate :=
  {| pk := pk u; course := course u; request_ip := request_ip u;
     request_time := request_time u; updated_time := updated_time u;
     commit_hash := commit_hash u; status := s; log := log u |}.

Definition set_log (l : option string) (u : CourseUpdate) : CourseUpdate :=
  {| pk := pk u; course := course u; request_ip := request_ip u;
     request_time := request_time u; updated_time := updated_time u;
     commit_hash := commit_hash u; status := status u; log := l |}.

Definition set_commit_hash (h : option string) (u : CourseUpdate) : CourseUpdate :=
  {| pk := pk u; course := course u; request_ip := request_ip u;
     request_time := request_time u; updated_time := updated_time u;
     commit_hash := h; status := status u; log := log u |}.

Definition set_updated_time (t : option Z) (u : CourseUpdate) : CourseUpdate :=
  {| pk := pk u; course := course u; request_ip := request_ip u;
     request_time := request_time u; updated_time := t;
     commit_hash := commit_hash u; status := status u; log := log u |}.

(** The table of updates, by primary key. *)
Abbreviation Table := (gmap nat CourseUpdate).

(** The rows of a table, as a query set before any ordering. *)
Definition rows (t : Table) : list CourseUpdate := (map_to_list t).*2.

(** [CourseUpdate.objects.filter(course=c)] *)
Definition filter_course (c : Course) (t : Table) : list CourseUpdate :=
  filter (λ u, course u = key c) (rows t).

(** [CourseUpdate.objects.filter(course=c, status=s)] *)
Definition filter_course_status (c : Course) (s : Status) (t : Table) : list CourseUpdate :=
  filter (λ u, course u = key c ∧ status u = s) (rows t).

(** Ascending and descending order on the request time. *)
Definition time_le (u v : CourseUpdate) : Prop := (request_time u ≤ request_time v)%Z.
Definition time_ge (u v : CourseUpdate) : Prop := (request_time v ≤ request_time u)%Z.

#[global] Instance time_le_dec : RelDecision time_le.
Proof. intros u v. unfold time_le. apply _. Defined.
#[global] Instance time_ge_dec : RelDecision time_ge.
Proof. intros u v. unfold time_ge. apply _. Defined.

(** [.order_by("request_time")] and [.order_by("-request_time")] *)
Definition order_by_request_time (l : list CourseUpdate) : list CourseUpdate :=
  merge_sort time_le l.
Definition order_by_request_time_desc (l : list CourseUpdate) : list CourseUpdate :=
  merge_sort time_ge l.

(** [update.delete()]: the row with this primary key disappears. *)
Definition CourseUpdate_delete (u : CourseUpdate) (t : Table) : Table :=
  delete (pk u) t.

(** [update.save()]: the row with this primary key takes every field of
    the object (Django inserts the row when there is none). *)
Definition CourseUpdate_save (u : CourseUpdate) (t : Table) : Table :=
  <[pk u := u]> t.

(** [update.save(update_fields=["log"])] and
    [update.save(update_fields=["commit_hash"])]: only that column of the
    row is written. *)
Definition CourseUpdate_save_log (u : CourseUpdate) (t : Table) : Table :=
  alter (set_log (log u)) (pk u) t.
Definition CourseUpdate_save_commit_hash (u : CourseUpdate) (t : Table) : Table :=
  alter (set_commit_hash (commit_hash u)) (pk u) t.

(** Every row is stored under its primary key. *)
Definition keyed (t : Table) : Prop := map_Forall (λ i v, pk v = i) t.

(** The number of updates of a list requested later than [v]. *)
Definition later_than (v : CourseUpdate) (l : list CourseUpdate) : nat :=
  length (filter (λ x, (request_time v < request_time x)%Z) l).

End Models.

(** ** [os.walk] and the file tree it visits *)

Module Walk.

(** What [os.scandir] finds under a name.  A symbolic link carries the
    text [os.readlink] returns and whether following it ends in a
    directory ([entry.is_dir()] follows links). *)
#[warnings="-register-all"]
Inductive node :=
| File
| Symlink (target : string) (to_dir : bool)
| Dir (entries : list (string * node)).

(** [entry.is_dir()] *)
Definition is_dir (n : node) : bool :=
  match n with
  | File => false
  | Symlink _ to_dir => to_dir
  | Dir _ => true
  end.

(** [os.path.islink] and [os.readlink] of an entry. *)
Definition islink (n : node) : bool :=
  match n with Symlink _ _ => true | _ => false end.
Definition readlink (n : node) : string :=
  match n with Symlink target _ => target | _ => "" end.

(** [os.path.isabs] on POSIX. *)
Definition isabs (p : string) : bool := Py.starts_with_char "/"%char p.

(** [os.path.join(top, name)] and [Path(root) / name] for a relative
    one-component [name]. *)
Definition path_join (top name : string) : string := top +:+ "/" +:+ name.

(** One element of the walk: [(root, dirs, files)], each entry with the
    node found under its name. *)
Definition step : Type := string * list (string * node) * list (string * node).

(** [os.walk(top)], top-down, [followlinks=False]: the entries for which
    [is_dir()] holds go to [dirs], the others to [files]; the walk then
    descends into the names of [dirs] that are not symbolic links. *)
Fixpoint walk (top : string) (n : node) : list step :=
  match n with
  | Dir entries =>
      (top,
       List.filter (λ e, is_dir e.2) entries,
       List.filter (λ e, negb (is_dir e.2)) entries)
      :: (fix descend (es : list (string * node)) : list step :=
            match es with
            | [] => []
            | (name, child) :: es' =>
                (if is_dir child && negb (islink child)
                 then walk (path_join top name) child
                 else [])
                ++ descend es'
            end) entries
  | _ => []
  end.


Section is_self_contained.

(** [Path.resolve] (the real path of a path) and [util.files.is_subpath]
    are not part of the sources: they are parameters. *)
Variable resolve : string → string.
Variable is_subpath : string → string → bool.

(** The two tests made on one file, in the order of the source. *)
Definition check_file (spath root : string) (file : string * node) : option string :=
  let p := path_join root file.1 in
  if negb (is_subpath (resolve p) spath)
  then Some (p +:+ " links to a path outside the course directory")
  else if islink file.2 && isabs (readlink file.2)
  then Some (p +:+ " is an absolute symlink: this will break the course")
  else None.

(** The inner loop [for file in files]. *)
Fixpoint check_files (spath root : string) (files : list (string * node)) : option string :=
  match files with
  | [] => None
  | f :: files' =>
      match check_file spath root f with
      | Some reason => Some reason
      | None => check_files spath root files'
      end
  end.

(** The outer loop [for root, _, files in os.walk(spath)]. *)
Fixpoint check_steps (spath : string) (steps : list step) : option string :=
  match steps with
  | [] => None
  | (root, _, files) :: steps' =>
      match check_files spath root files with
      | Some reason => Some reason
      | None => check_steps spath steps'
      end
  end.

(** [is_self_contained(path)]; [tree] is what lies at [path]. *)
Definition is_self_contained (spath : string) (tree : node) : bool * option string :=
  match check_steps spath (walk spath tree) with
  | Some reason => (false, Some reason)
  | None => (true, None)
  end.

End is_self_contained.

End Walk.

(** ** [builder/builder.py]: the pipeline *)

Module Builder.
Import Models.

(** [access.config.ConfigSource] *)
Inductive ConfigSource := BUILD | STORE | PUBLISH.

(** The exceptions the code tells apart; every other one is [OtherError]. *)
Inductive Exn :=
| ConfigError (msg : string)
| ValidationError (msg : string)
| DoesNotExist
| OtherError (msg : string).

(** What a call of a collaborator gives: a value or an exception. *)
Inductive Outcome (A : Type) :=
| Ok (a : A)
| Fail (e : Exn).
Arguments Ok {A} a.
Arguments Fail {A} e.

(** How a block of statements ends: it falls through with a value, it
    executes [return] (of [None], in [build_course]), or it raises. *)
Inductive Flow (A : Type) :=
| Next (a : A)
| Return
| Raise (e : Exn).
Arguments Next {A} a.
Arguments Return {A}.
Arguments Raise {A} e.

(** The response of [aplus_auth.requests.post]. *)
Record Response := {
  status_code : Z;
  text : string;
  reason : string;
}.

(** The manifest as [load_meta] returns it: [None], or a dictionary. *)
Abbreviation Meta := (option (gmap string string)).

(** [if meta:] *)
Definition meta_truthy (meta : Meta) : bool :=
  match meta with
  | Some m => negb (bool_decide (m = ∅))
  | None => false
  end.

(** [k in meta] and [meta[k]], for a manifest that is a dictionary. *)
Definition meta_get (meta : Meta) (k : string) : option string :=
  match meta with
  | Some m => m !! k
  | None => None
  end.

(** [django.conf.settings], the values the pipeline reads. *)
Record Settings := {
  DEFAULT_IMAGE : string;
  DEFAULT_CMD : string;
  FRONTEND_URL : option string;
  LOCAL_COURSE_SOURCE_PATH : string;
  META : string;
}.

(** What the run leaves to observe.  [Called_build], [Called_send_error_mail]
    and [Returned_update_from_git] record the entry of (the return from)
    the function of that name; [Execute] is the call of the build module's
    [build] and [Post] an HTTP request of [aplus_auth.requests.post]. *)
Inductive Event :=
| Called_build (image command : option string) (changed_files : list string)
| Execute (image : string) (cmd : option (list string)) (env : list (string * string))
| Returned_update_from_git (ok : bool) (changed_files : option (list string))
| Called_send_error_mail (subject message : string)
| Post (url : string) (data : list (string * string))
| Called_notify_update
| Called_store.

(** The collaborators of the pipeline that are not in the sources.  Each
    acts on the external world [W] (working trees, network, clock) and may
    write to the build logger it is handed; [Config] is the loaded
    [CourseConfig]. *)
Record Collaborators (W Config : Type) := {
  clone_if_doesnt_exist : string → string → string → W → W * string * Outcome (option bool);
  checkout : string → string → string → W → W * string * Outcome bool;
  diff_names : string → string → W → W * string * Outcome (option string * option (list string));
  get_commit_metadata : string → W → W * string * Outcome (bool * string);
  get_commit_hash : string → W → W * string * Outcome string;
  get_commit_hash_or_none : string → W → W * string * Outcome (option string);
  random_choices : W → W * string * Outcome string;
  clean : string → string → string → list string → W → W * string * Outcome bool;
  load_meta : string → W → W * string * Outcome Meta;
  build_module_build :
    string → string → string → option (list string) → list (string * string) →
    W → W * string * Outcome bool;
  copy_local_source : string → string → W → W * string * Outcome unit;
  write_file : string → string → W → W * string * Outcome unit;
  CourseConfig_get : string → ConfigSource → W → W * string * Outcome Config;
  store_files : Config → W → W * string * Outcome bool;
  post : string → list (string * string) → W → W * string * Outcome Response;
  scan : string → W → Walk.node;
  resolve : W → string → string;
  is_subpath : string → string → bool;
  now : W → Z;
  perfmonitor_formatted : W → string;
  shlex_split : string → option (list string);
  static_url_path : string → string;
  static_url : string → string;
  path_to : string → ConfigSource → string;
  local_source_path_to : string → string;
  version_id_path : string → ConfigSource → string;
  urljoin : option string → string → string;
  json_loads_notify : string → option (bool * list string);
  validation_error_str : string → string;
  validation_warning_str : Config → string;
  format_exc : Exn → string;
}.

Arguments clone_if_doesnt_exist {W Config}.
Arguments checkout {W Config}.
Arguments diff_names {W Config}.
Arguments get_commit_metadata {W Config}.
Arguments get_commit_hash {W Config}.
Arguments get_commit_hash_or_none {W Config}.
Arguments random_choices {W Config}.
Arguments clean {W Config}.
Arguments load_meta {W Config}.
Arguments build_module_build {W Config}.
Arguments copy_local_source {W Config}.
Arguments write_file {W Config}.
Arguments CourseConfig_get {W Config}.
Arguments store_files {W Config}.
Arguments post {W Config}.
Arguments scan {W Config}.
Arguments resolve {W Config}.
Arguments is_subpath {W Config}.
Arguments now {W Config}.
Arguments perfmonitor_formatted {W Config}.
Arguments shlex_split {W Config}.
Arguments static_url_path {W Config}.
Arguments static_url {W Config}.
Arguments path_to {W Config}.
Arguments local_source_path_to {W Config}.
Arguments version_id_path {W Config}.
Arguments urljoin {W Config}.
Arguments json_loads_notify {W Config}.
Arguments validation_error_str {W Config}.
Arguments validation_warning_str {W Config}.
Arguments format_exc {W Config}.

(** *** State and control flow *)

(** A block of statements acting on a state [S]. *)
Definition M (S A : Type) : Type := S → S * Flow A.

#[global] Instance M_ret {S} : MRet (M S) := λ A a s, (s, Next a).

#[global] Instance M_bind {S} : MBind (M S) := λ A B f m s,
  match m s with
  | (s', Next a) => f a s'
  | (s', Return) => (s', Return)
  | (s', Raise e) => (s', Raise e)
  end.

(** [return] (of [None]) from the function, and [raise]. *)
Definition do_return {S A} : M S A := λ s, (s, Return).
Definition do_raise {S A} (e : Exn) : M S A := λ s, (s, Raise e).

(** [try: m except: ...] as a value: the exception, if any, is handed over. *)
Definition catch {S A} (m : M S A) : M S (Outcome A) :=
  λ s, match m s with
       | (s', Next a) => (s', Next (Ok a))
       | (s', Return) => (s', Return)
       | (s', Raise e) => (s', Next (Fail e))
       end.

(** [try: body / except: handler / else: orelse / finally: final], with a
    bare [except].  The [finally] block runs on every way out of the
    others; when it falls through, the pending [return] or exception
    resumes, and its own [return] or exception replaces them. *)
Definition try_except_else_finally {S}
    (body : M S unit) (handler : Exn → M S unit) (orelse final : M S unit) : M S unit :=
  λ s,
    let '(s1, pending) :=
      match body s with
      | (s', Next _) => orelse s'
      | (s', Return) => (s', Return)
      | (s', Raise e) => handler e s'
      end in
    match final s1 with
    | (s2, Next _) => (s2, pending)
    | (s2, r) => (s2, r)
    end.

(** The state a run of [build_course] acts on: the external world, the
    table of updates, the [update] object held in memory, the text of
    [log_stream] and the events so far. *)
Record St (W : Type) := {
  world : W;
  table : Table;
  update : CourseUpdate;
  log_stream : string;
  trace : list Event;
}.
Arguments world {W}.
Arguments table {W}.
Arguments update {W}.
Arguments log_stream {W}.
Arguments trace {W}.

Section Pipeline.
Context {W Config : Type}.
Variable X : Collaborators W Config.
Variable settings : Settings.

#[local] Abbreviation M := (M (St W)).

Definition with_world (w : W) (s : St W) : St W :=
  {| world := w; table := table s; update := update s;
     log_stream := log_stream s; trace := trace s |}.
Definition with_table (t : Table) (s : St W) : St W :=
  {| world := world s; table := t; update := update s;
     log_stream := log_stream s; trace := trace s |}.
Definition with_update (u : CourseUpdate) (s : St W) : St W :=
  {| world := world s; table := table s; update := u;
     log_stream := log_stream s; trace := trace s |}.
Definition with_log_stream (l : string) (s : St W) : St W :=
  {| world := world s; table := table s; update := update s;
     log_stream := l; trace := trace s |}.
Definition with_trace (tr : list Event) (s : St W) : St W :=
  {| world := world s; table := table s; update := update s;
     log_stream := log_stream s; trace := tr |}.

(** A record of the build logger ([info], [warning], [error], [debug]):
    the handler on [log_stream] writes the message and a line feed. *)
Definition build_logger (msg : string) : M unit :=
  λ s, (with_log_stream (log_stream s +:+ msg +:+ Py.nl) s, Next ()).

(** [build_logger.exception(msg)]: the message, then the traceback. *)
Definition build_logger_exception (msg : string) (e : Exn) : M unit :=
  build_logger (msg +:+ Py.nl +:+ format_exc X e).

(** The records of a list, one after the other. *)
Fixpoint build_logger_all (msgs : list string) : M unit :=
  match msgs with
  | [] => mret ()
  | msg :: msgs' => build_logger msg;; build_logger_all msgs'
  end.

Definition emit (ev : Event) : M unit :=
  λ s, (with_trace (trace s ++ [ev]) s, Next ()).

(** The call of a collaborator. *)
Definition call {A} (f : W → W * string * Outcome A) : M A :=
  λ s, match f (world s) with
       | (w, out, r) =>
           (with_log_stream (log_stream s +:+ out) (with_world w s),
            match r with Ok a => Next a | Fail e => Raise e end)
       end.

(** The world as it is now. *)
Definition get_world : M W := λ s, (s, Next (world s)).

(** [log_stream.getvalue()] *)
Definition getvalue : M string := λ s, (s, Next (log_stream s)).

(** Reading and assigning the attributes of [update]. *)
Definition get_update : M CourseUpdate := λ s, (s, Next (update s)).
Definition assign (f : CourseUpdate → CourseUpdate) : M unit :=
  λ s, (with_update (f (update s)) s, Next ()).

(** A write to and a query of the table. *)
Definition write_table (f : CourseUpdate → Table → Table) : M unit :=
  λ s, (with_table (f (update s) (table s)) s, Next ()).
Definition query {A} (f : Table → A) : M A := λ s, (s, Next (f (table s))).

Definition banner (msg : string) : string :=
  "------------" +:+ Py.nl +:+ msg +:+ Py.nl +:+ "------------" +:+ Py.nl +:+ Py.nl.

(** *** [_get_version_id], [update_from_git], [log_progress_update] *)

Definition _get_version_id (course_dir : string) : M string :=
  r ← catch (call (get_commit_hash X course_dir));
  match r with
  | Ok h => mret h
  | Fail _ => call (random_choices X)
  end.

(** Lines 103-109: the commit metadata is logged and the result returned. *)
Definition log_commit_metadata (build_path : string)
    (changed_files : option (list string)) : M (bool * option (list string)) :=
  '(log_status, logstr) ← call (get_commit_metadata X build_path);
  (if log_status : bool
   then build_logger logstr
   else build_logger ("Failed to get commit metadata: " +:+ Py.nl +:+ logstr));;
  mret (true, changed_files).

Definition update_from_git_body (build_path : string) (course : Course)
    : M (bool * option (list string)) :=
  clone_status ← call (clone_if_doesnt_exist X build_path (git_origin course) (git_branch course));
  match clone_status with
  | None =>
      checkout_status ← call (checkout X build_path (git_origin course) (git_branch course));
      if negb checkout_status
      then build_logger (banner "Failed to checkout repository");; mret (false, None)
      else
        last_successful_update ←
          query (λ t, head (order_by_request_time_desc (filter_course_status course SUCCESS t)));
        changed_files ←
          match last_successful_update with
          | Some l =>
              match commit_hash l with
              | Some h =>
                  '(diff_error, changed_files) ← call (diff_names X build_path h);
                  match diff_error with
                  | Some e => build_logger e
                  | None => mret ()
                  end;;
                  mret changed_files
              | None => mret None
              end
          | None => mret None
          end;
        log_commit_metadata build_path changed_files
  | Some false =>
      build_logger (banner "Failed to clone repository");; mret (false, None)
  | Some true => log_commit_metadata build_path None
  end.

Definition update_from_git (build_path : string) (course : Course)
    : M (bool * option (list string)) :=
  r ← update_from_git_body build_path course;
  emit (Returned_update_from_git r.1 r.2);;
  mret r.

Definition log_progress_update : M unit :=
  v ← getvalue;
  assign (set_log (Some (v +:+ Py.nl +:+ Py.nl +:+ "...")));;
  write_table CourseUpdate_save_log.

(** *** [build] *)

(** Lines 126-151 of [build]: the image and the command the build uses,
    and the records written to the build logger on the way. *)
Definition resolve_image_command (meta : Meta) (image command : option string)
    : string * option string * list string :=
  match image with
  | Some build_image =>
      (build_image, command,
       ["Build image and command overridden: " +:+ build_image +:+ ", "
          +:+ Py.str_opt command +:+ Py.nl +:+ Py.nl])
  | None =>
      let build_image := DEFAULT_IMAGE settings in
      let build_command := command in
      if meta_truthy meta then
        let '(build_image, m1) :=
          match meta_get meta "build_image" with
          | Some i => (i, "Using build image: " +:+ i)
          | None =>
              (build_image,
               "No build_image in " +:+ META settings +:+ ", using the default: " +:+ build_image)
          end in
        let '(build_command, m2) :=
          match meta_get meta "build_command" with
          | Some c => (Some c, "Using build command: " +:+ c +:+ Py.nl +:+ Py.nl)
          | None =>
              match build_command with
              | Some c => (Some c, "Build command overriden: " +:+ c +:+ Py.nl +:+ Py.nl)
              | None =>
                  if negb (bool_decide (is_Some (meta_get meta "build_image")))
                  then (Some (DEFAULT_CMD settings),
                        "No build_command in " +:+ META settings +:+ ", using the default: "
                          +:+ DEFAULT_CMD settings +:+ Py.nl +:+ Py.nl)
                  else (None,
                        "No build_command in " +:+ META settings
                          +:+ " or service settings, using the image default" +:+ Py.nl +:+ Py.nl)
              end
          end in
        (build_image, build_command, [m1; m2])
      else
        (build_image, build_command,
         ["No " +:+ META settings +:+ " file, using the default build image: "
            +:+ build_image +:+ Py.nl +:+ Py.nl])
  end.

(** The environment handed to the build module. *)
Definition build_env (course : Course) (changed_files : list string) : list (string * string) :=
  [("COURSE_KEY", key course);
   ("COURSE_ID", Py.str_opt_int (remote_id course));
   ("STATIC_URL_PATH", static_url_path X (key course));
   ("STATIC_CONTENT_HOST", static_url X (key course));
   ("CHANGED_FILES", Py.join Py.nl changed_files)].

Definition build (course : Course) (path : string) (image command : option string)
    (changed_files : list string) : M bool :=
  emit (Called_build image command changed_files);;
  meta ← call (load_meta X path);
  let '(build_image, build_command, msgs) := resolve_image_command meta image command in
  build_logger_all msgs;;
  let build_image := Py.strip build_image in
  if negb (Py.truthy build_image)
  then build_logger ("Build image is empty. Assuming no build is needed" +:+ Py.nl +:+ Py.nl);;
       mret true
  else
    let env := build_env course changed_files in
    build_command ←
      match build_command with
      | Some c =>
          match shlex_split X c with
          | Some tokens => mret (Some tokens)
          | None => do_raise (OtherError "ValueError")
          end
      | None => mret None
      end;
    emit (Execute build_image build_command env);;
    call (build_module_build X (key course) path build_image build_command env).

(** *** [send_error_mail] and [notify_update] *)

Definition Exn_str (e : Exn) : string :=
  match e with
  | ConfigError m => m
  | ValidationError m => m
  | DoesNotExist => "DoesNotExist"
  | OtherError m => m
  end.

Definition send_error_mail (course : Course) (subject message : string) : M bool :=
  emit (Called_send_error_mail subject message);;
  match remote_id course with
  | None =>
      build_logger "Remote id not set: cannot send error email";;
      mret false
  | Some rid =>
      let email_url :=
        urljoin X (FRONTEND_URL settings)
          ("api/v2/courses/" +:+ pretty rid +:+ "/send_mail/") in
      let data := [("subject", subject); ("message", message)] in
      r ← catch (emit (Post email_url data);; call (post X email_url data));
      match r with
      | Fail e =>
          build_logger_exception "Failed to send error email" e;;
          mret false
      | Ok response =>
          if negb (bool_decide (status_code response = 200%Z)) || Py.truthy (text response)
          then build_logger ("API failed to send the error email: "
                               +:+ pretty (status_code response) +:+ " " +:+ text response);;
               mret false
          else mret true
      end
  end.

Definition notify_update (course : Course) : M unit :=
  emit Called_notify_update;;
  let notification_url :=
    urljoin X (FRONTEND_URL settings)
      ("api/v2/courses/" +:+ Py.str_opt_int (remote_id course) +:+ "/notify_update/") in
  let data := [("email_on_error", if email_on_error course then "True" else "False")] in
  r ← catch (emit (Post notification_url data);; call (post X notification_url data));
  let '(success, errors) :=
    match r with
    | Fail e => (false, [Exn_str e])
    | Ok response =>
        if negb (bool_decide (status_code response = 200%Z))
        then (false, [reason response])
        else match json_loads_notify X (text response) with
             | None => (false, ["Failed to load notify_update response JSON"])
             | Some (success, response_errors) => (success, response_errors)
             end
    end in
  let errorstr := Py.join Py.nl errors in
  if success && negb (Py.truthy errorstr) then build_logger "Success."
  else if success && Py.truthy errorstr
  then build_logger "Success with warnings:";; build_logger errorstr
  else
    build_logger "Failed:";;
    build_logger errorstr;;
    if email_on_error course
    then send_error_mail course
           ("Failed to notify update of " +:+ key course)
           ("Build succeeded but notifying the frontend of the update failed:"
              +:+ Py.nl +:+ errorstr);;
         mret ()
    else mret ().

(** The events of the error mail. *)
Definition is_mail (ev : Event) : bool :=
  match ev with
  | Called_send_error_mail _ _ | Post _ _ => true
  | _ => false
  end.

Definition mail_events (course : Course) (subject message : string) : list Event :=
  Called_send_error_mail subject message ::
    match remote_id course with
    | Some rid =>
        [Post (urljoin X (FRONTEND_URL settings)
                 ("api/v2/courses/" +:+ pretty rid +:+ "/send_mail/"))
           [("subject", subject); ("message", message)]]
    | None => []
    end.

(** *** [store]

    [store] acts on the working trees only and is taken whole as the
    collaborator [store_files]: it may change the world, write to the
    build logger, and return its boolean or raise. *)
Definition store (config : Config) : M bool :=
  emit Called_store;;
  call (store_files X config).

(** [is_self_contained(build_path)] on the tree the world holds there. *)
Definition is_self_contained (build_path : string) : M (bool * option string) :=
  w ← get_world;
  mret (Walk.is_self_contained (resolve X w) (is_subpath X) build_path (scan X build_path w)).

(** *** [build_course] *)

(** Line 482-484: all but the latest 10 updates of the course are deleted. *)
Definition prune (course : Course) (t : Table) : Table :=
  foldl (λ t update, CourseUpdate_delete update t) t
    (drop 10 (order_by_request_time_desc (filter_course course t))).

(** Line 486-488: the pending updates, oldest first. *)
Definition pending_updates (course : Course) (t : Table) : list CourseUpdate :=
  order_by_request_time (filter_course_status course PENDING t).

(** Line 493-495: [updates[:-1]] are saved as skipped. *)
Definition skip_updates (updates : list CourseUpdate) (t : Table) : Table :=
  foldl (λ t update, CourseUpdate_save (set_status SKIPPED update) t) t
    (take (length updates - 1) updates).

(** Lines 515-535: the git stage; its value is [changed_files]. *)
Definition git_stage (course : Course) (course_key build_path : string) (skip_git : bool)
    : M (option (list string)) :=
  if skip_git then build_logger "Skipping git update.";; mret None
  else if Py.truthy (git_origin course) then
    '(success, changed_files) ← update_from_git build_path course;
    if negb success then do_return else mret changed_files
  else if Py.truthy (LOCAL_COURSE_SOURCE_PATH settings) then
    let path := local_source_path_to X course_key in
    build_logger ("Course origin not set: copying the course sources from " +:+ path
                    +:+ " to the build directory.");;
    call (copy_local_source X path build_path);;
    mret None
  else
    build_logger ("Course origin not set: skipping git update" +:+ Py.nl);;
    mret None.

(** Lines 545-554: the list of changed files the build is given. *)
Definition changed_files_for_build (rebuild_all : bool) (changed_files : option (list string))
    : list string * string :=
  if rebuild_all
  then (["*"], "Rebuild all specified: setting CHANGED_FILES to *" +:+ Py.nl +:+ Py.nl)
  else match changed_files with
       | None => (["*"], "Failed to detect changed files: setting CHANGED_FILES to *"
                           +:+ Py.nl +:+ Py.nl)
       | Some l =>
           if bool_decide (10 < length l)%nat
           then (l, "Detected over 10 changed files (too many to show)" +:+ Py.nl +:+ Py.nl)
           else (l, "Detected changed files: " +:+ Py.join ", " l +:+ Py.nl +:+ Py.nl)
       end.

(** Lines 544-561: the build stage. *)
Definition build_stage (course : Course) (build_path : string) (skip_build rebuild_all : bool)
    (build_image build_command : option string) (changed_files : option (list string))
    : M unit :=
  if negb skip_build then
    let '(changed_files, msg) := changed_files_for_build rebuild_all changed_files in
    build_logger msg;;
    build_status ← build course build_path build_image build_command changed_files;
    if negb build_status then do_return else mret ()
  else build_logger "Skipping build.".

(** Lines 580-589: the configuration is loaded to validate it. *)
Definition load_config_stage (course_key : string) (build_config_source : ConfigSource)
    : M Config :=
  r ← catch (call (CourseConfig_get X course_key build_config_source));
  match r with
  | Ok config => mret config
  | Fail (ConfigError m) =>
      build_logger "Failed to load config";; do_raise (ConfigError m)
  | Fail (ValidationError m) =>
      build_logger (validation_error_str X m);; do_return
  | Fail e => do_raise e
  end.

(** Lines 505-610: the body of the [try]. *)
Definition try_body (course : Course) (course_key : string)
    (skip_git skip_build rebuild_all : bool) (build_image build_command : option string)
    : M unit :=
  assign (set_status RUNNING);;
  write_table CourseUpdate_save;;
  let build_config_source := if skip_build_failsafes course then PUBLISH else BUILD in
  let build_path := path_to X course_key build_config_source in
  changed_files ← git_stage course course_key build_path skip_git;
  h ← call (get_commit_hash_or_none X build_path);
  assign (set_commit_hash h);;
  write_table CourseUpdate_save_commit_hash;;
  log_progress_update;;
  build_stage course build_path skip_build rebuild_all build_image build_command changed_files;;
  log_progress_update;;
  '(value, error) ← is_self_contained build_path;
  if negb value
  then build_logger ("Course " +:+ course_key +:+ " is not self contained: "
                       +:+ Py.str_opt error);;
       do_return
  else
    log_progress_update;;
    let id_path := version_id_path X course_key build_config_source in
    version_id ← _get_version_id build_path;
    call (write_file X id_path version_id);;
    config ← load_config_stage course_key build_config_source;
    log_progress_update;;
    let warning_str := validation_warning_str X config in
    (if Py.truthy warning_str then build_logger (warning_str +:+ Py.nl) else mret ());;
    log_progress_update;;
    stored ←
      (if negb (skip_build_failsafes course) then store config else mret true);
    if negb stored
    then build_logger "Failed to store built course";; do_return
    else
      log_progress_update;;
      assign (set_status SUCCESS).

(** Lines 611-613: the bare [except]. *)
Definition except_handler (e : Exn) : M unit :=
  build_logger ("Build failed." +:+ Py.nl);;
  build_logger (format_exc X e +:+ Py.nl).

(** Lines 614-627: the [else] block. *)
Definition else_block (course : Course) (skip_notify : bool) : M unit :=
  if negb (update_automatically course)
  then build_logger "Configured to not update automatically."
  else match remote_id course with
       | None => build_logger "Remote id not set. Not doing an automatic update."
       | Some _ =>
           if skip_notify then build_logger "Skipping automatic update."
           else match FRONTEND_URL settings with
                | None => build_logger "FRONTEND_URL not set. Not doing an automatic update."
                | Some _ =>
                    build_logger "Doing an automatic update...";;
                    notify_update course
                end
       end.

(** Lines 629-638: the head of the [finally] block. *)
Definition terminal_handling (course : Course) (course_key : string) : M unit :=
  u ← get_update;
  (if bool_decide (status u ≠ SUCCESS) then
     assign (set_status FAILED);;
     if email_on_error course then
       v ← getvalue;
       send_error_mail course ("Course " +:+ course_key +:+ " build failed") v;;
       mret ()
     else mret ()
   else mret ());;
  v ← getvalue;
  assign (set_log (Some v));;
  w ← get_world;
  assign (set_updated_time (Some (now X w)));;
  write_table CourseUpdate_save.

(** Lines 640-660: the working tree is cleaned and the log saved once more. *)
Definition cleanup (course : Course) (build_path : string) : M unit :=
  try_except_else_finally
    (meta ← call (load_meta X build_path);
     exclude_patterns ←
       match meta with
       | Some m =>
           match shlex_split X (default "" (m !! "exclude_patterns")) with
           | Some l => mret l
           | None => do_raise (OtherError "ValueError")
           end
       | None => do_raise (OtherError "AttributeError")
       end;
     clean_status ←
       call (clean X build_path (git_origin course) (git_branch course) exclude_patterns);
     if negb clean_status
     then build_logger (banner "Failed to clean repository");; do_return
     else mret ())
    (λ e, build_logger ("Clean failed." +:+ Py.nl);;
          build_logger (format_exc X e +:+ Py.nl))
    (mret ())
    (build_logger (Py.nl +:+ "Time taken for each step in seconds:");;
     w ← get_world;
     build_logger (perfmonitor_formatted X w);;
     v ← getvalue;
     assign (set_log (Some v));;
     write_table CourseUpdate_save_log).

(** Lines 499-660: the run of the selected update. *)
Definition run_update (course : Course) (course_key : string)
    (skip_git skip_build skip_notify rebuild_all : bool)
    (build_image build_command : option string) : M unit :=
  let build_path :=
    path_to X course_key (if skip_build_failsafes course then PUBLISH else BUILD) in
  try_except_else_finally
    (try_body course course_key skip_git skip_build rebuild_all build_image build_command)
    except_handler
    (else_block course skip_notify)
    (terminal_handling course course_key;;
     cleanup course build_path).

(** What a call of [build_course] leaves behind. *)
Record Run := {
  final_world : W;
  final_table : Table;
  final_log : string;
  final_trace : list Event;
  final_flow : Flow unit;
}.

(** [build_course]; [courses] is the table of courses, [w] and [t] the
    world and the table of updates at the call. *)
Definition build_course (courses : list Course) (course_key : string)
    (skip_git skip_build skip_notify rebuild_all : bool)
    (build_image build_command : option string) (w : W) (t : Table) : Run :=
  match List.find (λ c, bool_decide (key c = course_key)) courses with
  | None =>
      {| final_world := w; final_table := t; final_log := "";
         final_trace := []; final_flow := Raise DoesNotExist |}
  | Some course =>
      let t := prune course t in
      let updates := pending_updates course t in
      match last updates with
      | None =>
          {| final_world := w; final_table := t; final_log := "";
             final_trace := []; final_flow := Return |}
      | Some update =>
          let t := skip_updates updates t in
          let '(s, r) :=
            run_update course course_key skip_git skip_build skip_notify rebuild_all
              build_image build_command
              {| world := w; table := t; update := update; log_stream := ""; trace := [] |} in
          {| final_world := world s; final_table := table s; final_log := log_stream s;
             final_trace := trace s;
             final_flow := match r with Next _ => Return | r => r end |}
      end
  end.

(** *** [push_event] *)

(** How the task ends: with the run of [build_course], or with the
    [RetryTask] that makes huey try again later. *)
Inductive Pushed :=
| Built (run : Run)
| RetryTask.

(** [push_event]; [locked] tells whether another task holds the lock
    [build-<course_key>], in which case [lock_task] raises
    [TaskLockedException]. *)
Definition push_event (locked : bool) (courses : list Course) (course_key : string)
    (skip_git skip_build skip_notify rebuild_all : bool)
    (build_image build_command : option string) (w : W) (t : Table) : Pushed :=
  if locked then RetryTask
  else Built (build_course courses course_key skip_git skip_build skip_notify rebuild_all
                build_image build_command w t).

End Pipeline.

(** *** [publish] *)

(** What [publish] leaves to observe: a configuration loaded from a
    stage, and the calls of the collaborators, in order. *)
Inductive PublishEvent :=
| Loaded (source : ConfigSource)
| Renames (pairs : list (string * string))
| Save_to_cache (source : ConfigSource)
| Copys_async (pairs : list (string * string))
| Symbolic_link
| Publish_graders.

(** The files [publish] reads and moves: what lies at a path (the text of
    a file; for a directory, its content as the configuration loader
    reads it).  [queued] holds the copies handed to [copys_async] that
    have not run yet. *)
Record PublishState := {
  fs : gmap string string;
  queued : list (list (string * string));
  ptrace : list PublishEvent;
}.

Section Publish.
Context {Config : Type}.

(** [CourseConfig.file_paths(course_key, source)]: the course directory,
    the exercise-defaults file and the version-id file of a stage. *)
Variable file_paths : string → ConfigSource → string * string * string.

(** The configuration loader on the content of a course directory (the
    message of the [ConfigError], or the configuration), and
    [builder.configure.publish_graders]. *)
Variable load_config : string → string + Config.
Variable publish_graders : Config → list string.

#[local] Abbreviation PM := (M PublishState).

Definition with_fs (f : gmap string string) (s : PublishState) : PublishState :=
  {| fs := f; queued := queued s; ptrace := ptrace s |}.

Definition get_fs : PM (gmap string string) := λ s, (s, Next (fs s)).

Definition pemit (ev : PublishEvent) : PM unit :=
  λ s, ({| fs := fs s; queued := queued s; ptrace := ptrace s ++ [ev] |}, Next ()).

Definition modify_fs (g : gmap string string → gmap string string) : PM unit :=
  λ s, (with_fs (g (fs s)) s, Next ()).

Definition enqueue (pairs : list (string * string)) : PM unit :=
  λ s, ({| fs := fs s; queued := queued s ++ [pairs]; ptrace := ptrace s |}, Next ()).

(** [os.path.exists(p)] and [Path(p).exists()] *)
Definition path_exists (f : gmap string string) (p : string) : bool :=
  bool_decide (is_Some (f !! p)).

(** Modelled from the spec: [CourseConfig.get] is not among the sources.
    It loads and validates the configuration of a stage from the course
    directory of that stage; when that fails, and when the directory is
    not there, it raises a [ConfigError]. *)
Definition CourseConfig_get_from (course_key : string) (source : ConfigSource) : PM Config :=
  f ← get_fs;
  match f !! (file_paths course_key source).1.1 with
  | Some content =>
      match load_config content with
      | inr config => pemit (Loaded source);; mret config
      | inl msg => do_raise (ConfigError msg)
      end
  | None => do_raise (ConfigError "No such course directory")
  end.

(** Modelled from the spec: [util.files.renames] is not among the sources.
    Each source path is renamed onto its destination: the destination
    takes what lay at the source, and nothing is left at the source.  A
    source that does not exist is left out. *)
Definition rename_path (f : gmap string string) (p : string * string) : gmap string string :=
  match f !! p.1 with
  | Some content => <[p.2 := content]> (delete p.1 f)
  | None => f
  end.
Definition renames (pairs : list (string * string)) : PM unit :=
  pemit (Renames pairs);;
  modify_fs (λ f, foldl rename_path f pairs).

(** Modelled from the spec: [util.files.copys_async] is not among the
    sources.  The copies are queued; when the queue runs, each
    destination receives a copy of what lies at its source. *)
Definition copy_path (f : gmap string string) (p : string * string) : gmap string string :=
  match f !! p.1 with
  | Some content => <[p.2 := content]> f
  | None => f
  end.
Definition copys_async (pairs : list (string * string)) : PM unit :=
  pemit (Copys_async pairs);;
  enqueue pairs.

(** The queued copies run to their end. *)
Definition run_queued (s : PublishState) : PublishState :=
  {| fs := foldl (foldl copy_path) (fs s) (queued s); queued := []; ptrace := ptrace s |}.

(** Line 385: the version-id files differ, or one of them is missing. *)
Definition versions_differ (f : gmap string string) (prod_version_path store_version_path : string)
    : bool :=
  negb (path_exists f prod_version_path)
  || negb (path_exists f store_version_path)
  || negb (bool_decide (f !! prod_version_path = f !! store_version_path)).

Definition publish (course_key : string) : PM (list string) :=
  let '(prod_path, prod_defaults_path, prod_version_path) := file_paths course_key PUBLISH in
  let '(store_path, store_defaults_path, store_version_path) := file_paths course_key STORE in
  f ← get_fs;
  '(config, errors) ←
    (if path_exists f store_path then
       if versions_differ f prod_version_path store_version_path then
         r ← catch (CourseConfig_get_from course_key STORE);
         match r with
         | Fail (ConfigError e) =>
             mret (None, ["Failed to load newly built course for this reason: " +:+ e])
         | Fail e => do_raise e
         | Ok config =>
             renames [(store_path, prod_path);
                      (store_defaults_path, prod_defaults_path);
                      (store_version_path, prod_version_path)];;
             pemit (Save_to_cache PUBLISH);;
             copys_async [(prod_path, store_path);
                          (prod_defaults_path, store_defaults_path);
                          (prod_version_path, store_version_path)];;
             mret (Some config, [])
         end
       else mret (None, [])
     else mret (None, []));
  f ← get_fs;
  '(config, errors) ←
    match config with
    | None =>
        if path_exists f prod_path then
          r ← catch (CourseConfig_get_from course_key PUBLISH);
          match r with
          | Fail (ConfigError e) =>
              mret (None, errors ++ ["Failed to load already published config: " +:+ e])
          | Fail e => do_raise e
          | Ok config => mret (Some config, errors)
          end
        else mret (None, errors)
    | Some _ => mret (config, errors)
    end;
  match config with
  | None =>
      match errors with
      | _ :: _ => do_raise (OtherError (Py.join Py.nl errors))
      | [] => do_raise (OtherError ("Course directory not found for " +:+ course_key
                                      +:+ " - the course probably has not been built"))
      end
  | Some config =>
      pemit Symbolic_link;;
      pemit Publish_graders;;
      mret (errors ++ publish_graders config)
  end.

End Publish.

End Builder.

(** ** [builder/views.py]: the git hook *)

Module Views.
Import Models.

(** [aplus_auth.payload.Permission] *)
Inductive Permission := READ | WRITE.

(** The parts of the Django request the hook reads. *)
Record Request := {
  method : string;
  is_authenticated : bool;
  req_META : gmap string string;
  headers : gmap string string;
  body : string;
  content_type : string;
  POST : gmap string string;
  GET : gmap string string;
}.

(** What the view answers: a response with a status, a redirect to a
    named view, the 404 of [get_object_or_404], or an exception that
    nothing handles. *)
Inductive Answer :=
| HttpResponse (content : string) (status : Z)
| Redirect (view arg : string)
| Http404
| Unhandled (exn : string).

(** What the view does besides answering. *)
Inductive Effect :=
| Log_warning (msg : string)
| Create_update (course_key : string) (request_ip : option string)
| Push_event (key : string) (flags : list (string * bool))
    (build_image build_command : option string).

(** [d.get(k)] followed by a truth test. *)
Definition get_truthy (d : gmap string string) (k : string) : option string :=
  match d !! k with
  | Some v => if Py.truthy v then Some v else None
  | None => None
  end.

(** [s.split(',')[0]] *)
Fixpoint split_comma_head (s : string) : string :=
  match s with
  | EmptyString => EmptyString
  | String a s' => if bool_decide (a = ","%char) then EmptyString else String a (split_comma_head s')
  end.

Definition get_client_ip (request : Request) : option string :=
  match get_truthy (req_META request) "HTTP_X_FORWARDED_FOR" with
  | Some x_forwarded_for => Some (split_comma_head x_forwarded_for)
  | None => req_META request !! "REMOTE_ADDR"
  end.

Definition with_webhook_secret (secret : option string) (c : Course) : Course :=
  {| key := key c; remote_id := remote_id c; git_origin := git_origin c;
     git_branch := git_branch c; email_on_error := email_on_error c;
     update_automatically := update_automatically c;
     skip_build_failsafes := skip_build_failsafes c; webhook_secret := secret |}.

Definition with_headers (h : gmap string string) (r : Request) : Request :=
  {| method := method r; is_authenticated := is_authenticated r; req_META := req_META r;
     headers := h; body := body r; content_type := content_type r;
     POST := POST r; GET := GET r |}.

Section Hook.

(** [util.login_required.has_access], the hexadecimal HMAC-SHA256 digest
    of a body under a key, and [json.loads] on an object of strings
    ([None] for a [ValueError]). *)
Variable has_access : Request → Permission → Z → bool.
Variable hmac_sha256_hexdigest : string → string → string.
Variable json_loads : string → option (gmap string string).

(** [Course.has_access] of [models.py] *)
Definition Course_has_access (c : Course) (request : Request) (permission : Permission)
    (default : bool) : bool :=
  match remote_id c with
  | None => default
  | Some rid => has_access request permission rid
  end.

Definition verify_hmac (received_signature secret body : string) : bool :=
  bool_decide (received_signature = "sha256=" +:+ hmac_sha256_hexdigest secret body).

(** The two verifications.  The outer [None] is the [TypeError] that a
    secret of [None] would raise. *)
Definition try_verify_github (request : Request) (course : Course) : option (option string) :=
  match get_truthy (headers request) "X-Hub-Signature-256" with
  | None => Some (Some "No X-Hub-Signature-256 header")
  | Some received_signature =>
      match webhook_secret course with
      | None => None
      | Some secret =>
          if negb (verify_hmac received_signature secret (body request))
          then Some (Some "Signatures didn't match")
          else Some None
      end
  end.

Definition try_verify_gitlab (request : Request) (course : Course) : option (option string) :=
  match get_truthy (headers request) "X-Gitlab-Token" with
  | None => Some (Some "No X-Gitlab-Token header")
  | Some secret =>
      match webhook_secret course with
      | None => None
      | Some s =>
          if negb (bool_decide (s = secret))
          then Some (Some "Secrets didn't match")
          else Some None
      end
  end.

(** [get_post_data]: the outer [None] is the [TypeError] of
    [json.loads(None)] when the form has no [payload]. *)
Definition get_post_data (request : Request) : option (option (gmap string string)) :=
  if bool_decide (content_type request = "application/x-www-form-urlencoded")
  then match POST request !! "payload" with
       | Some json_data => Some (json_loads json_data)
       | None => None
       end
  else Some (json_loads (body request)).

(** Lines 246-256 and 258-268 of [hook], the same for both services but
    for the verification: the secret is verified unless it is [None], then
    the branch is read from the posted data.  The result is the answer
    that ends the request, or the branch. *)
Definition verify_and_read_branch
    (try_verify : Request → Course → option (option string))
    (request : Request) (course : Course) (key : string)
    : list Effect * (Answer + option string) :=
  let '(effects, refused) :=
    match webhook_secret course with
    | None =>
        ([Log_warning ("webhook secret for course '" +:+ key
                         +:+ "' is None. Skipping secret verification.")], None)
    | Some _ =>
        match try_verify request course with
        | None => ([], Some (Unhandled "TypeError"))
        | Some (Some error) =>
            ([Log_warning ("Hook verification failed: " +:+ error)],
             Some (HttpResponse error 403))
        | Some None => ([], None)
        end
    end in
  match refused with
  | Some answer => (effects, inl answer)
  | None =>
      match get_post_data request with
      | None => (effects, inl (Unhandled "TypeError"))
      | Some data =>
          match data with
          | Some d =>
              if bool_decide (d = ∅) then (effects, inr None)
              else (effects, inr (Some (Py.rpartition_tail "/"%char (default "" (d !! "ref")))))
          | None =>
              (effects ++ [Log_warning "Invalid json data or unknown content type to webhook."],
               inr None)
          end
      end
  end.

(** Lines 279-298: the update is created and the build enqueued. *)
Definition create_and_push (request : Request) (course : Course) (key : string)
    : list Effect * Answer :=
  let request_params := GET request ∪ POST request in
  let flags :=
    omap (λ k, (λ v, (k, bool_decide (v = "on") || bool_decide (v = "true")))
                 <$> request_params !! k)
         ["skip_git"; "skip_build"; "skip_notify"] in
  ([Create_update (Models.key course) (get_client_ip request);
    Push_event key flags (get_truthy request_params "build_image")
      (get_truthy request_params "build_command")],
   match get_truthy (req_META request) "HTTP_REFERER" with
   | Some _ => Redirect "manager-updates" (Models.key course)
   | None => HttpResponse "ok" 200
   end).

(** Lines 240-298 of [hook], for the course found under the key. *)
Definition hook_course (request : Request) (course : Course) (key : string)
    : list Effect * Answer :=
  let '(effects, gate) :=
    if is_authenticated request then
      if negb (Course_has_access course request WRITE false)
      then ([], Some (HttpResponse ("No access to course " +:+ key) 403))
      else ([], None)
    else
      let '(effects, r) :=
        match get_truthy (req_META request) "HTTP_X_GITLAB_EVENT" with
        | Some _ => verify_and_read_branch try_verify_gitlab request course key
        | None =>
            match get_truthy (req_META request) "HTTP_X_GITHUB_EVENT" with
            | Some _ => verify_and_read_branch try_verify_github request course key
            | None =>
                ([Log_warning "Unknown git service"],
                 inl (HttpResponse "Unknown git service" 400))
            end
        end in
      match r with
      | inl answer => (effects, Some answer)
      | inr branch =>
          match branch with
          | Some b =>
              if negb (bool_decide (b = git_branch course))
              then (effects,
                    Some (HttpResponse ("Ignored. Update to '" +:+ b
                                          +:+ "', but expected '" +:+ git_branch course
                                          +:+ "'") 400))
              else (effects, None)
          | None => (effects, None)
          end
      end in
  match gate with
  | Some answer => (effects, answer)
  | None =>
      let '(effects', answer) := create_and_push request course key in
      (effects ++ effects', answer)
  end.

(** [hook(request, key)]; [courses] is the table of courses. *)
Definition hook (courses : list Course) (request : Request) (key : string)
    : list Effect * Answer :=
  if negb (bool_decide (method request = "POST")) then ([], HttpResponse "" 405)
  else
    match List.find (λ c, bool_decide (Models.key c = key)) courses with
    | None => ([], Http404)
    | Some course => hook_course request course key
    end.

(** The verification the hook applies to the service of the request. *)
Definition verifier (request : Request) : Request → Course → option (option string) :=
  match get_truthy (req_META request) "HTTP_X_GITLAB_EVENT" with
  | Some _ => try_verify_gitlab
  | None => try_verify_github
  end.

(** The effects other than the log records. *)
Definition acts (effects : list Effect) : list Effect :=
  List.filter (λ e, match e with Log_warning _ => false | _ => true end) effects.

End Hook.

(** *** [EditCourse]: the settings of a course over the API *)

(** What the methods of [EditCourse] answer: a [JsonResponse] that
    carries an error, the errors of the form or the settings of a
    course; a plain response with a status; the 404 of
    [get_object_or_404]; an exception that nothing handles. *)
Inductive ApiAnswer :=
| Json_error (error : string)
| Json_form_errors (errors : string)
| Json_object (obj : gmap string string)
| Api_response (content : string) (status : Z)
| Api_404
| Api_unhandled (exn : string).

Section EditCourse.

(** [settings.APLUS_AUTH["DISABLE_LOGIN_CHECKS"]], [has_access] of
    [util.login_required], whether [request.auth] is set, [int] on a
    string ([None] when it raises), [model_to_dict] for the fields of the
    form, the absolute address of the git hook of a key, the body of a
    PUT as [QueryDict] reads it, and [CourseForm]: the errors of the
    data, or the course that [form.save()] stores for them. *)
Variable DISABLE_LOGIN_CHECKS : bool.
Variable has_access : Request → Permission → Z → bool.
Variable has_auth : Request → bool.
Variable int_of_str : string → option Z.
Variable model_to_dict : Course → gmap string string.
Variable git_hook_url : Request → string → string.
Variable QueryDict : string → gmap string string.
Variable CourseForm : gmap string string → option Course → string + Course.

(** [Course.has_write_access] and [Course.has_read_access] of
    [models.py] *)
Definition Course_has_write_access (c : Course) (request : Request) (default : bool) : bool :=
  Course_has_access has_access c request WRITE default.
Definition Course_has_read_access (c : Course) (request : Request) (default : bool) : bool :=
  Course_has_access has_access c request READ default.

(** [EditCourse._check_access]: [None], or the response that refuses. *)
Definition _check_access (request : Request) (require_remote_id : bool) : option ApiAnswer :=
  if negb DISABLE_LOGIN_CHECKS then
    match POST request !! "remote_id" with
    | Some remote_id =>
        match int_of_str remote_id with
        | None => Some (Json_error "remote_id is not an integer")
        | Some instance_id =>
            if negb (has_auth request) then Some (Json_error "No JWT payload")
            else if negb (has_access request WRITE instance_id)
            then Some (Json_error ("No access to instance " +:+ pretty instance_id))
            else None
        end
    | None =>
        if require_remote_id then Some (Json_error "No remote_id in POST parameters")
        else None
    end
  else None.

(** [EditCourse._get]: the settings of the course as a dictionary;
    [None] is the [KeyError] of [del] for a key that is not there. *)
Definition _get (request : Request) (course : Course) : option (gmap string string) :=
  let obj := <["git_hook" := git_hook_url request (key course)]> (model_to_dict course) in
  if negb (Course_has_access has_access course request WRITE false) then
    match obj !! "webhook_secret" with
    | Some _ => Some (delete "webhook_secret" obj)
    | None => None
    end
  else Some obj.

(** [JsonResponse(self._get(request, course))] *)
Definition respond (request : Request) (course : Course) : ApiAnswer :=
  match _get request course with
  | Some obj => Json_object obj
  | None => Api_unhandled "KeyError"
  end.

(** [form.save()] for a form without instance and for a form with the
    instance [old]: the table of courses gains a row, or the row of the
    instance is replaced. *)
Definition save_new (course : Course) (courses : list Course) : list Course :=
  courses ++ [course].
Fixpoint save_instance (old new : Course) (courses : list Course) : list Course :=
  match courses with
  | [] => []
  | c :: courses' =>
      if bool_decide (key c = key old) then new :: courses'
      else c :: save_instance old new courses'
  end.

(** [EditCourse.get], [post] and [put], for a request that has passed
    [login_required_method]; [courses] is the table of courses, and the
    result of [post] and [put] holds the table as they leave it. *)
Definition EditCourse_get (courses : list Course) (request : Request) (key : string)
    : ApiAnswer :=
  match List.find (λ c, bool_decide (Models.key c = key)) courses with
  | None => Api_404
  | Some course =>
      if negb (Course_has_access has_access course request READ false)
      then Json_error ("No access to instance " +:+ Py.str_opt_int (remote_id course))
      else respond request course
  end.

Definition EditCourse_post (courses : list Course) (request : Request) (key : string)
    : list Course * ApiAnswer :=
  if bool_decide (POST request = ∅)
  then (courses, Json_error "No POST parameters given")
  else if existsb (λ c, bool_decide (Models.key c = key)) courses
  then (courses, Api_response "Course already exists" 400)
  else
    match _check_access request true with
    | Some response => (courses, response)
    | None =>
        if negb (bool_decide (POST request !! "key" = Some key))
        then (courses, Api_response "Key in POST params does not match key in URL" 400)
        else
          match CourseForm (POST request) None with
          | inr course => (save_new course courses, respond request course)
          | inl errors => (courses, Json_form_errors errors)
          end
    end.

Definition EditCourse_put (courses : list Course) (request : Request) (key : string)
    : list Course * ApiAnswer :=
  let data := QueryDict (body request) in
  if bool_decide (data = ∅)
  then (courses, Json_error "No POST parameters given")
  else
    match List.find (λ c, bool_decide (Models.key c = key)) courses with
    | None => (courses, Api_404)
    | Some course =>
        if negb (Course_has_access has_access course request WRITE false)
        then (courses,
              Json_error ("No access to instance " +:+ Py.str_opt_int (remote_id course)))
        else
          match _check_access request false with
          | Some response => (courses, response)
          | None =>
              match CourseForm data (Some course) with
              | inr course' => (save_instance course course' courses, respond request course')
              | inl errors => (courses, Json_form_errors errors)
              end
          end
    end.

End EditCourse.

End Views.

(** ** From the hook to the build *)

Module Tasks.
Import Models Builder Views.

(** The value of a keyword argument of [push_event(key, **params)] that
    defaults to [False]. *)
Definition kwarg (params : list (string * bool)) (k : string) : bool :=
  match List.find (λ p, bool_decide (p.1 = k)) params with
  | Some p => p.2
  | None => false
  end.

(** The task that a call [push_event(key, **params)] of the hook
    enqueues, when a worker runs it: [rebuild_all] keeps its default. *)
Definition run_task {W Config : Type} (X : Collaborators W Config) (settings : Settings)
    (locked : bool) (courses : list Course) (w : W) (t : Table) (e : Effect)
    : option (Pushed (W := W)) :=
  match e with
  | Push_event key params build_image build_command =>
      Some (push_event X settings locked courses key
              (kwarg params "skip_git") (kwarg params "skip_build")
              (kwarg params "skip_notify") false build_image build_command w t)
  | _ => None
  end.

End Tasks.

(** ** [builder/migrations/0013_course_webhook_secret.py] and the
    secrets of [models.py] *)

Module Migration.
Import Models Builder.

Section Secrets.
Context {W : Type}.

(** [secrets.token_hex(32)], on the state [W] of the generator. *)
Variable token_hex : W → W * string.






End Secrets.

End Migration.


(** ** Sample data

    A small deployment on which the properties below are instantiated:
    a world without state, collaborators that answer at once. *)

Module Sample.
Import Models Builder.

Definition settings : Settings :=
  {| DEFAULT_IMAGE := "apluslms/compile-rst:1.6";
     DEFAULT_CMD := "legacy_build";
     FRONTEND_URL := Some "https://plus.example.org/";
     LOCAL_COURSE_SOURCE_PATH := "";
     META := "apps.meta" |}.

Definition course : Course :=
  {| key := "def"; remote_id := Some 1%Z; git_origin := "git@example.org:def.git";
     git_branch := "master"; email_on_error := true; update_automatically := true;
     skip_build_failsafes := false; webhook_secret := None |}.

(** The same course before it is linked to a course instance of the
    frontend. *)
Definition unlinked_course : Course :=
  {| key := "def"; remote_id := None; git_origin := "git@example.org:def.git";
     git_branch := "master"; email_on_error := true; update_automatically := true;
     skip_build_failsafes := false; webhook_secret := None |}.

(** Collaborators that succeed, but for the build module, which answers
    [build_ok]; [meta] is the manifest of the course. *)
Definition collaborators (meta : Meta) (build_ok : bool) : Collaborators unit unit :=
  {| clone_if_doesnt_exist := λ _ _ _ w, (w, "", Ok None);
     checkout := λ _ _ _ w, (w, "", Ok true);
     diff_names := λ _ _ w, (w, "", Ok (None, Some ["index.rst"]));
     get_commit_metadata := λ _ w, (w, "", Ok (true, "commit 1a2b3c"));
     get_commit_hash := λ _ w, (w, "", Ok "1a2b3c");
     get_commit_hash_or_none := λ _ w, (w, "", Ok (Some "1a2b3c"));
     random_choices := λ w, (w, "", Ok "Zx81");
     clean := λ _ _ _ _ w, (w, "", Ok true);
     load_meta := λ _ w, (w, "", Ok meta);
     build_module_build := λ _ _ _ _ _ w, (w, "building", Ok build_ok);
     copy_local_source := λ _ _ w, (w, "", Ok ());
     write_file := λ _ _ w, (w, "", Ok ());
     CourseConfig_get := λ _ _ w, (w, "", Ok ());
     store_files := λ _ w, (w, "", Ok true);
     post := λ _ _ w, (w, "", Ok {| status_code := 200; text := ""; reason := "OK" |});
     scan := λ _ _, Walk.Dir [("index.yaml", Walk.File)];
     resolve := λ _ p, p;
     is_subpath := λ _ _, true;
     now := λ _, 1641300000%Z;
     perfmonitor_formatted := λ _, "";
     shlex_split := λ c, Some (String.words c);
     static_url_path := λ k, "/static/" +:+ k;
     static_url := λ k, "https://grader.example.org/static/" +:+ k;
     path_to := λ k source,
       match source with
       | BUILD => "/srv/build/" +:+ k
       | STORE => "/srv/store/" +:+ k
       | PUBLISH => "/srv/courses/" +:+ k
       end;
     local_source_path_to := λ k, "/srv/local/" +:+ k;
     version_id_path := λ k source,
       match source with
       | BUILD => "/srv/build/" +:+ k +:+ ".version"
       | STORE => "/srv/store/" +:+ k +:+ ".version"
       | PUBLISH => "/srv/courses/" +:+ k +:+ ".version"
       end;
     urljoin := λ base url, default "" base +:+ url;
     json_loads_notify := λ _, Some (true, []);
     validation_error_str := λ m, m;
     validation_warning_str := λ _, "";
     format_exc := Exn_str |}.

Definition update (n : nat) (t : Z) (s : Status) : CourseUpdate :=
  {| pk := n; Models.course := "def"; request_ip := Some "192.0.2.7"; request_time := t;
     updated_time := None; commit_hash := None; status := s; log := None |}.

(** The state at the start of the run of update 1. *)
Definition state : St unit :=
  {| world := (); table := {[ 1%nat := update 1 10 PENDING ]}; Builder.update := update 1 10 PENDING;
     log_stream := ""; trace := [] |}.


(** The three paths of each stage, a loader that refuses the content
    [broken], and graders that report nothing. *)
Definition file_paths (k : string) (source : ConfigSource) : string * string * string :=
  let root :=
    match source with
    | BUILD => "/srv/build/"
    | STORE => "/srv/store/"
    | PUBLISH => "/srv/courses/"
    end in
  (root +:+ k, root +:+ k +:+ ".defaults.json", root +:+ k +:+ ".version").

Definition load_config (content : string) : string + string :=
  if bool_decide (content = "broken") then inl "index.yaml: syntax error" else inr content.

Definition publish_graders (config : string) : list string := [].

(** A course stored at commit 1a2b3c over a published commit 0f0f0f. *)
Definition stored : PublishState :=
  {| fs := {[ "/srv/store/def" := "index of 1a2b3c";
              "/srv/store/def.defaults.json" := "{}";
              "/srv/store/def.version" := "1a2b3c";
              "/srv/courses/def" := "index of 0f0f0f";
              "/srv/courses/def.defaults.json" := "{}";
              "/srv/courses/def.version" := "0f0f0f" ]};
     queued := [];
     ptrace := [] |}.

(** The same with a STORE that does not load. *)
Definition stored_broken : PublishState :=
  {| fs := {[ "/srv/store/def" := "broken";
              "/srv/store/def.defaults.json" := "{}";
              "/srv/store/def.version" := "1a2b3c";
              "/srv/courses/def" := "index of 0f0f0f";
              "/srv/courses/def.defaults.json" := "{}";
              "/srv/courses/def.version" := "0f0f0f" ]};
     queued := [];
     ptrace := [] |}.

(** A push notification of GitLab for the branch of the sample course. *)
Definition gitlab_push : Views.Request :=
  {| Views.method := "POST"; Views.is_authenticated := false;
     Views.req_META := {[ "HTTP_X_GITLAB_EVENT" := "Push Hook" ]};
     Views.headers := {[ "X-Gitlab-Token" := "guess" ]};
     Views.body := "{}"; Views.content_type := "application/json";
     Views.POST := ∅; Views.GET := ∅ |}.

(** The sample course with one pending update. *)
Definition one_pending : Table := {[ 1%nat := Sample.update 1 10 PENDING ]}.

(** The build of the sample course fails, for the course as it is and
    for the course without remote id. *)
Definition failing_run (course : Course) : Run :=
  build_course (Sample.collaborators None false) Sample.settings [course] "def"
    true false true false None None () one_pending.

(** Eleven pending updates of the sample course, requested at the times
    1 to 11. *)
Definition eleven_pending : Table :=
  list_to_map ((λ n, (n, Sample.update n (Z.of_nat n) PENDING)) <$> seq 1 11).

Definition eleven_run : Run :=
  build_course (Sample.collaborators None true) Sample.settings [Sample.course] "def"
    false false true false None None () eleven_pending.


(** The sample course with a webhook secret, and with a branch that has
    a slash in its name. *)
Definition secured_course : Course :=
  {| key := "def"; remote_id := Some 1%Z; git_origin := "git@example.org:def.git";
     git_branch := "master"; email_on_error := true; update_automatically := true;
     skip_build_failsafes := false; webhook_secret := Some "s3cr3t" |}.


(** A push notification of GitLab that carries the secret, came through
    a proxy, and has parameters in the query string and in the form. *)
Definition gitlab_push_with_token : Views.Request :=
  {| Views.method := "POST"; Views.is_authenticated := false;
     Views.req_META := {[ "HTTP_X_GITLAB_EVENT" := "Push Hook";
                          "HTTP_X_FORWARDED_FOR" := "203.0.113.5, 10.0.0.1";
                          "REMOTE_ADDR" := "10.0.0.1" ]};
     Views.headers := {[ "X-Gitlab-Token" := "s3cr3t" ]};
     Views.body := "{}"; Views.content_type := "application/json";
     Views.POST := {[ "skip_git" := "no"; "skip_notify" := "off"; "build_image" := "" ]};
     Views.GET := {[ "skip_git" := "on"; "build_command" := "make html" ]} |}.


(** A deployment in which the build directory holds [tree], the
    configuration loads as [config] and the frontend answers
    [response]; the rest is as in [collaborators], without manifest and
    with a build that succeeds. *)
Definition deployment (tree : Walk.node) (config : Outcome unit) (response : Outcome Response)
    : Collaborators unit unit :=
  {| clone_if_doesnt_exist := λ _ _ _ w, (w, "", Ok None);
     checkout := λ _ _ _ w, (w, "", Ok true);
     diff_names := λ _ _ w, (w, "", Ok (None, Some ["index.rst"]));
     get_commit_metadata := λ _ w, (w, "", Ok (true, "commit 1a2b3c"));
     get_commit_hash := λ _ w, (w, "", Ok "1a2b3c");
     get_commit_hash_or_none := λ _ w, (w, "", Ok (Some "1a2b3c"));
     random_choices := λ w, (w, "", Ok "Zx81");
     clean := λ _ _ _ _ w, (w, "", Ok true);
     load_meta := λ _ w, (w, "", Ok None);
     build_module_build := λ _ _ _ _ _ w, (w, "building", Ok true);
     copy_local_source := λ _ _ w, (w, "", Ok ());
     write_file := λ _ _ w, (w, "", Ok ());
     CourseConfig_get := λ _ _ w, (w, "", config);
     store_files := λ _ w, (w, "", Ok true);
     post := λ _ _ w, (w, "", response);
     scan := λ _ _, tree;
     resolve := λ _ p, p;
     is_subpath := λ _ _, true;
     now := λ _, 1641300000%Z;
     perfmonitor_formatted := λ _, "";
     shlex_split := λ c, Some (String.words c);
     static_url_path := λ k, "/static/" +:+ k;
     static_url := λ k, "https://grader.example.org/static/" +:+ k;
     path_to := λ k source,
       match source with
       | BUILD => "/srv/build/" +:+ k
       | STORE => "/srv/store/" +:+ k
       | PUBLISH => "/srv/courses/" +:+ k
       end;
     local_source_path_to := λ k, "/srv/local/" +:+ k;
     version_id_path := λ k source,
       match source with
       | BUILD => "/srv/build/" +:+ k +:+ ".version"
       | STORE => "/srv/store/" +:+ k +:+ ".version"
       | PUBLISH => "/srv/courses/" +:+ k +:+ ".version"
       end;
     urljoin := λ base url, default "" base +:+ url;
     json_loads_notify := λ _, Some (true, []);
     validation_error_str := λ m, m;
     validation_warning_str := λ _, "";
     format_exc := Exn_str |}.

Definition plain_tree : Walk.node := Walk.Dir [("index.yaml", Walk.File)].


Definition accepted : Response := {| status_code := 200; text := ""; reason := "OK" |}.
Definition unavailable : Response :=
  {| status_code := 503; text := "try later"; reason := "Service Unavailable" |}.

(** The sample course after a first successful update at the commit
    0f0f0f, with a second update pending. *)
Definition built_before : Table :=
  {[ 1%nat := set_commit_hash (Some "0f0f0f") (update 1 10 SUCCESS);
     2%nat := update 2 20 PENDING ]}.

(** The settings of a course as the API shows them, and the address of
    its hook. *)
Definition model_to_dict (c : Course) : gmap string string :=
  {[ "key" := key c; "git_origin" := git_origin c; "git_branch" := git_branch c;
     "webhook_secret" := default "" (webhook_secret c) ]}.

Definition git_hook_url (_ : Views.Request) (k : string) : string :=
  "https://manager.example.org/" +:+ k +:+ "/hook".


End Sample.


(** * Properties *)

(** ** The string helpers on examples *)

Module PyFacts.

Example strip_blanks : Py.strip (" foo/bar:1.0 " +:+ Py.nl) = "foo/bar:1.0".
Proof. reflexivity. Qed.

Example strip_only_blanks : Py.truthy (Py.strip "   ") = false.
Proof. reflexivity. Qed.

Example rpartition_ref : Py.rpartition_tail "/" "refs/heads/master" = "master".
Proof. reflexivity. Qed.

Example rpartition_no_separator : Py.rpartition_tail "/" "master" = "master".
Proof. reflexivity. Qed.

Example join_lines : Py.join Py.nl ["a.rst"; "b.rst"] = "a.rst" +:+ Py.nl +:+ "b.rst".
Proof. reflexivity. Qed.

Example walk_descends :
  Walk.walk "/c" (Walk.Dir [("a", Walk.File);
                            ("d", Walk.Dir [("l", Walk.Symlink "../a" false)]);
                            ("e", Walk.Symlink "d" true)])
  = [("/c", [("d", Walk.Dir [("l", Walk.Symlink "../a" false)]); ("e", Walk.Symlink "d" true)],
      [("a", Walk.File)]);
     ("/c/d", [], [("l", Walk.Symlink "../a" false)])].
Proof. reflexivity. Qed.

End PyFacts.

(** ** The build stage resolves its image and command *)

Module BuildFacts.
Import Models Builder.

Section Resolve.
Context {W Config : Type}.
Variable X : Collaborators W Config.
Variable settings : Settings.



(** What [build] does once the manifest is loaded, in terms of the
    resolved image and command. *)
Lemma build_trace (course : Course) (path : string) (image command : option string)
    (changed_files : list string) (s : St W) (w : W) (out : string) (meta : Meta) :
  load_meta X path (world s) = (w, out, Ok meta) →
  let '(build_image, build_command, _) := resolve_image_command settings meta image command in
  trace (build X settings course path image command changed_files s).1 =
    trace s ++ Called_build image command changed_files ::
      (if Py.truthy (Py.strip build_image)
       then match build_command with
            | Some c =>
                match shlex_split X c with
                | Some tokens =>
                    [Execute (Py.strip build_image) (Some tokens) (build_env X course changed_files)]
                | None => []
                end
            | None => [Execute (Py.strip build_image) None (build_env X course changed_files)]
            end
       else []).
Proof.
  intros Hmeta.
  destruct (resolve_image_command settings meta image command) as [[bi bc] msgs] eqn:Hres.
  unfold build, mbind, M_bind, emit, call. simpl. rewrite Hmeta. simpl. rewrite Hres.
  set (s0 := with_log_stream _ _).
  assert (Hlogs : ∀ (l : list string) (s1 : St W),
             ∃ s2, build_logger_all l s1 = (s2, Next ()) ∧ trace s2 = trace s1).
  { induction l as [|m l IH]; intros s1; simpl.
    - by exists s1.
    - unfold mbind, M_bind, build_logger at 1. simpl.
      destruct (IH (with_log_stream (log_stream s1 +:+ m +:+ Py.nl) s1)) as (s2 & -> & Htr).
      by exists s2. }
  destruct (Hlogs msgs s0) as (s2 & Hrun & Htr).
  rewrite Hrun.
  assert (Htr0 : trace s2 = trace s ++ [Called_build image command changed_files]).
  { by rewrite Htr. }
  destruct (Py.truthy (Py.strip bi)); simpl.
  - destruct bc as [c|]; simpl.
    + destruct (shlex_split X c) as [tokens|]; simpl.
      * destruct (build_module_build X _ _ _ _ _ _) as [[w' out'] r]. simpl.
        rewrite Htr0, <- app_assoc. done.
      * by rewrite Htr0.
    + destruct (build_module_build X _ _ _ _ _ _) as [[w' out'] r]. simpl.
      rewrite Htr0, <- app_assoc. done.
  - by rewrite Htr0.
Qed.


(** C2, as the code has it.  With no override image and no manifest, the
    image is the default image of the settings, but the command is the
    override command, and unset when there is none: the default command
    of the settings is not used, and the build module is invoked with
    the default image and no command. *)
Theorem no_manifest_uses_no_default_command (course : Course) (path : string)
    (changed_files : list string) (s : St W) (w : W) (out : string) (meta : Meta) :
  load_meta X path (world s) = (w, out, Ok meta) →
  meta_truthy meta = false →
  (∀ command, (resolve_image_command settings meta None command).1
              = (DEFAULT_IMAGE settings, command)) ∧
  trace (build X settings course path None None changed_files s).1 =
    trace s ++ Called_build None None changed_files ::
      (if Py.truthy (Py.strip (DEFAULT_IMAGE settings))
       then [Execute (Py.strip (DEFAULT_IMAGE settings)) None (build_env X course changed_files)]
       else []).
Proof.
  intros Hload Hmeta.
  assert (Hres : ∀ command, (resolve_image_command settings meta None command).1
                            = (DEFAULT_IMAGE settings, command)).
  { intros command. unfold resolve_image_command. by rewrite Hmeta. }
  split; [done|].
  pose proof (build_trace course path None None changed_files s w out meta Hload) as Htr.
  specialize (Hres None).
  destruct (resolve_image_command settings meta None None) as [[bi bc] msgs].
  simpl in Hres. injection Hres as -> ->. done.
Qed.





End Resolve.



Lemma no_manifest_uses_no_default_command_witness :
  (∀ command, (resolve_image_command Sample.settings None None command).1
              = ("apluslms/compile-rst:1.6", command)) ∧
  trace (build (Sample.collaborators None true) Sample.settings Sample.course
           "/srv/build/def" None None ["*"] Sample.state).1 =
    trace Sample.state ++ Called_build None None ["*"] ::
      (if Py.truthy (Py.strip (DEFAULT_IMAGE Sample.settings))
       then [Execute (Py.strip (DEFAULT_IMAGE Sample.settings)) None
               (build_env (Sample.collaborators None true) Sample.course ["*"])]
       else []).
Proof.
  apply (no_manifest_uses_no_default_command (Sample.collaborators None true)
           Sample.settings Sample.course "/srv/build/def" ["*"] Sample.state () "" None);
    reflexivity.
Defined.

(** The failing input of C2 evaluated: a course without manifest, built
    with no override, reaches the build module with the default image
    and no command, although the settings have the default command
    [legacy_build]. *)
Example no_manifest_build_runs_without_command :
  trace (build (Sample.collaborators None true) Sample.settings Sample.course
           "/srv/build/def" None None ["*"] Sample.state).1
  = [Called_build None None ["*"];
     Execute "apluslms/compile-rst:1.6" None
       [("COURSE_KEY", "def"); ("COURSE_ID", "1"); ("STATIC_URL_PATH", "/static/def");
        ("STATIC_CONTENT_HOST", "https://grader.example.org/static/def");
        ("CHANGED_FILES", "*")]].
Proof. vm_compute. reflexivity. Qed.



(** The override command [make latex] of the request loses against the
    command [make html] of the manifest. *)
Example manifest_command_wins :
  trace (build (Sample.collaborators (Some {[ "build_command" := "make html" ]}) true)
           Sample.settings Sample.course "/srv/build/def" None (Some "make latex") ["*"]
           Sample.state).1
  = [Called_build None (Some "make latex") ["*"];
     Execute "apluslms/compile-rst:1.6" (Some ["make"; "html"])
       [("COURSE_KEY", "def"); ("COURSE_ID", "1"); ("STATIC_URL_PATH", "/static/def");
        ("STATIC_CONTENT_HOST", "https://grader.example.org/static/def");
        ("CHANGED_FILES", "*")]].
Proof. vm_compute. reflexivity. Qed.

End BuildFacts.

(** ** The self-containment check *)

Module WalkFacts.
Import Walk.

Section Checks.
Variable resolve : string → string.
Variable is_subpath : string → string → bool.




(** C7, the failing input evaluated.  A course directory whose only
    entry is a symbolic link to the directory [/etc]: the walk lists the
    link among the directories, not among the files, and does not
    descend into it, so the check passes, whatever the paths resolve to. *)
Theorem directory_symlink_not_examined :
  walk "/srv/build/def" (Dir [("escape", Symlink "/etc" true)])
    = [("/srv/build/def", [("escape", Symlink "/etc" true)], [])] ∧
  is_self_contained resolve is_subpath "/srv/build/def"
    (Dir [("escape", Symlink "/etc" true)]) = (true, None).
Proof. split; reflexivity. Qed.

(** The same link to a file is examined and refused. *)
Example file_symlink_refused :
  is_self_contained resolve (λ _ _, true) "/srv/build/def"
    (Dir [("escape", Symlink "/etc/passwd" false)])
  = (false, Some "/srv/build/def/escape is an absolute symlink: this will break the course").
Proof. reflexivity. Qed.





End Checks.

End WalkFacts.

(** ** The git hook and a course without secret *)

Module ViewsFacts.
Import Models Views.

Section HookFacts.
Variable has_access : Request → Permission → Z → bool.
Variable hmac_sha256_hexdigest : string → string → string.
Variable json_loads : string → option (gmap string string).

Lemma verify_and_read_branch_no_secret try_verify try_verify' request course key h :
  webhook_secret course = None →
  verify_and_read_branch json_loads try_verify (with_headers h request) course key
  = verify_and_read_branch json_loads try_verify' request course key.
Proof. intros Hs. unfold verify_and_read_branch. by rewrite Hs. Qed.

Lemma verify_and_read_branch_verified try_verify request course key secret :
  webhook_secret course = None →
  try_verify request (with_webhook_secret (Some secret) course) = Some None →
  ∃ effects,
    verify_and_read_branch json_loads try_verify request course key
    = (Log_warning ("webhook secret for course '" +:+ key
                      +:+ "' is None. Skipping secret verification.") :: effects,
       (verify_and_read_branch json_loads try_verify request
          (with_webhook_secret (Some secret) course) key).2) ∧
    (verify_and_read_branch json_loads try_verify request
       (with_webhook_secret (Some secret) course) key).1 = effects.
Proof.
  intros Hs Hv. unfold verify_and_read_branch. rewrite Hs. simpl. rewrite Hv.
  destruct (get_post_data json_loads request) as [[d|]|]; simpl; eauto.
  destruct (bool_decide (d = ∅)); eauto.
Qed.

(** C10.  An unauthenticated POST with a GitLab or GitHub event header,
    for a course whose secret is [None]: the answer and the effects of
    the hook do not depend on the headers that would carry the token or
    the signature, and, log records apart, they are those of the same
    request to the same course with a secret that the request passes. *)
Theorem hook_without_secret_skips_verification (courses : list Course) (request : Request)
    (key : string) (course : Course) :
  method request = "POST" →
  is_authenticated request = false →
  List.find (λ c, bool_decide (Models.key c = key)) courses = Some course →
  webhook_secret course = None →
  is_Some (get_truthy (req_META request) "HTTP_X_GITLAB_EVENT")
    ∨ is_Some (get_truthy (req_META request) "HTTP_X_GITHUB_EVENT") →
  (∀ h, hook has_access hmac_sha256_hexdigest json_loads courses (with_headers h request) key
        = hook has_access hmac_sha256_hexdigest json_loads courses request key) ∧
  (∀ secret,
     verifier hmac_sha256_hexdigest request request (with_webhook_secret (Some secret) course)
       = Some None →
     let unverified := hook has_access hmac_sha256_hexdigest json_loads courses request key in
     let verified :=
       hook_course has_access hmac_sha256_hexdigest json_loads request
         (with_webhook_secret (Some secret) course) key in
     acts unverified.1 = acts verified.1 ∧ unverified.2 = verified.2).
Proof.
  intros Hm Hauth Hfind Hs Hev. split.
  - intros h. unfold hook. simpl. rewrite Hm, Hfind. simpl.
    unfold hook_course. simpl. rewrite Hauth.
    destruct (get_truthy (req_META request) "HTTP_X_GITLAB_EVENT") as [ev|].
    + by rewrite (verify_and_read_branch_no_secret _ try_verify_gitlab _ _ _ h Hs).
    + destruct (get_truthy (req_META request) "HTTP_X_GITHUB_EVENT") as [ev|].
      * by rewrite (verify_and_read_branch_no_secret
                      _ (try_verify_github hmac_sha256_hexdigest) _ _ _ h Hs).
      * destruct Hev as [[? ?]|[? ?]]; done.
  - intros secret Hv. unfold hook. rewrite Hm, Hfind. simpl.
    unfold hook_course, verifier in *. rewrite Hauth.
    destruct (get_truthy (req_META request) "HTTP_X_GITLAB_EVENT") as [ev|].
    + destruct (verify_and_read_branch_verified try_verify_gitlab request course key secret Hs Hv)
        as (effects & -> & Heff).
      destruct (verify_and_read_branch json_loads try_verify_gitlab request
                  (with_webhook_secret (Some secret) course) key) as [effects' r].
      simpl in Heff. subst effects'. simpl.
      destruct r as [answer|[b|]]; simpl; try done.
      * destruct (bool_decide (b = git_branch course)); simpl; done.
    + destruct (get_truthy (req_META request) "HTTP_X_GITHUB_EVENT") as [ev|].
      * destruct (verify_and_read_branch_verified (try_verify_github hmac_sha256_hexdigest)
                    request course key secret Hs Hv) as (effects & -> & Heff).
        destruct (verify_and_read_branch json_loads (try_verify_github hmac_sha256_hexdigest)
                    request (with_webhook_secret (Some secret) course) key) as [effects' r].
        simpl in Heff. subst effects'. simpl.
        destruct r as [answer|[b|]]; simpl; try done.
        destruct (bool_decide (b = git_branch course)); simpl; done.
      * destruct Hev as [[? ?]|[? ?]]; done.
Qed.

End HookFacts.


Lemma hook_without_secret_skips_verification_witness :
  let has_access := λ (_ : Request) (_ : Permission) (_ : Z), false in
  let hmac := λ k b : string, k +:+ b in
  let json_loads := λ _ : string, Some ({[ "ref" := "refs/heads/master" ]} : gmap string string) in
  (∀ h, hook has_access hmac json_loads [Sample.course] (with_headers h Sample.gitlab_push) "def"
        = hook has_access hmac json_loads [Sample.course] Sample.gitlab_push "def") ∧
  (∀ secret,
     verifier hmac Sample.gitlab_push Sample.gitlab_push (with_webhook_secret (Some secret) Sample.course)
       = Some None →
     let unverified := hook has_access hmac json_loads [Sample.course] Sample.gitlab_push "def" in
     let verified :=
       hook_course has_access hmac json_loads Sample.gitlab_push
         (with_webhook_secret (Some secret) Sample.course) "def" in
     acts unverified.1 = acts verified.1 ∧ unverified.2 = verified.2).
Proof.
  intros has_access hmac json_loads.
  apply (hook_without_secret_skips_verification has_access hmac json_loads
           [Sample.course] Sample.gitlab_push "def" Sample.course).
  - reflexivity.
  - reflexivity.
  - reflexivity.
  - reflexivity.
  - left. vm_compute. eauto.
Defined.

(** The sample request evaluated: the token [guess] is not looked at, the
    update is created and the build enqueued. *)
Example gitlab_push_accepted :
  hook (λ _ _ _, false) (λ k b, k +:+ b) (λ _, Some {[ "ref" := "refs/heads/master" ]})
    [Sample.course] Sample.gitlab_push "def"
  = ([Log_warning "webhook secret for course 'def' is None. Skipping secret verification.";
      Create_update "def" None;
      Push_event "def" [] None None],
     HttpResponse "ok" 200).
Proof. vm_compute. reflexivity. Qed.


(** *** What the hook lets through *)


Lemma split_comma_head_spec (s : string) :
  (("," : ascii) ∉ String.list_ascii_of_string (split_comma_head s)) ∧
  (s = split_comma_head s ∨ ∃ rest, s = split_comma_head s +:+ "," +:+ rest).
Proof.
  induction s as [|a s [IH1 IH2]]; simpl.
  - split; [apply not_elem_of_nil|by left].
  - case_bool_decide as Ha; simpl.
    + subst a. split; [apply not_elem_of_nil|]. right. by exists s.
    + split.
      * intros [Heq|Hin]%elem_of_cons; done.
      * destruct IH2 as [IH2|[rest IH2]].
        -- left. by rewrite <- IH2.
        -- right. exists rest. by rewrite IH2 at 1.
Qed.

Section HookGuards.
Variable has_access : Request → Permission → Z → bool.
Variable hmac_sha256_hexdigest : string → string → string.
Variable json_loads : string → option (gmap string string).

#[local] Abbreviation hook := (hook has_access hmac_sha256_hexdigest json_loads).



Definition is_log (ev : Effect) : Prop := ∃ msg, ev = Log_warning msg.

Definition refusal (a : Answer) : Prop :=
  a = Unhandled "TypeError" ∨ ∃ content st, a = HttpResponse content st ∧ (st = 403 ∨ st = 400)%Z.

(** What [verify_and_read_branch] lets through and what it refuses. *)
Lemma verify_and_read_branch_spec try_verify request course key :
  let r := verify_and_read_branch json_loads try_verify request course key in
  let verified := webhook_secret course = None ∨ try_verify request course = Some None in
  (∀ ev, ev ∈ r.1 → is_log ev) ∧
  match r.2 with
  | inl answer =>
      refusal answer ∧ ¬ (verified ∧ is_Some (get_post_data json_loads request))
  | inr branch =>
      verified ∧
      match branch with
      | Some b => ∃ d, get_post_data json_loads request = Some (Some d) ∧ d ≠ ∅
                       ∧ b = Py.rpartition_tail "/" (default "" (d !! "ref"))
      | None => get_post_data json_loads request = Some None
                ∨ get_post_data json_loads request = Some (Some ∅)
      end
  end.
Proof.
  cbn zeta. unfold verify_and_read_branch.
  assert (Hnil : ∀ ev : Effect, ev ∈ [] → is_log ev)
    by (intros ev Hin; by apply elem_of_nil in Hin).
  assert (Hone : ∀ (m : string) (ev : Effect), ev ∈ [Log_warning m] → is_log ev)
    by (intros m ev Hin; apply list_elem_of_singleton in Hin; by exists m).
  assert (Htwo : ∀ (m m' : string) (ev : Effect), ev ∈ [Log_warning m] ++ [Log_warning m'] → is_log ev).
  { intros m m' ev [Hin|Hin]%elem_of_app; by eapply Hone. }
  destruct (webhook_secret course) as [secret|].
  - destruct (try_verify request course) as [[error|]|] eqn:Hv; simpl.
    + split; [by eapply Hone|]. split; [right; eauto|]. by intros [[?|?] _].
    + destruct (get_post_data json_loads request) as [[d|]|]; simpl.
      * case_bool_decide as Hd; simpl; (split; [done|]); (split; [by right|]).
        -- right. by subst.
        -- by exists d.
      * split; [by eapply Hone|]. split; [by right|by left].
      * split; [done|]. split; [by left|]. by intros [_ [? ?]].
    + split; [done|]. split; [by left|]. by intros [[?|?] _].
  - destruct (get_post_data json_loads request) as [[d|]|]; simpl.
    + case_bool_decide as Hd; simpl; (split; [by eapply Hone|]); (split; [by left|]).
      * right. by subst.
      * by exists d.
    + split; [by eapply Htwo|]. split; [by left|by left].
    + split; [by eapply Hone|]. split; [by left|]. by intros [_ [? ?]].
Qed.

(** The requests the hook acts on. *)
Definition authorised (request : Request) (course : Course) : Prop :=
  if is_authenticated request
  then ∃ rid, remote_id course = Some rid ∧ has_access request WRITE rid = true
  else
    (is_Some (get_truthy (req_META request) "HTTP_X_GITLAB_EVENT")
     ∨ is_Some (get_truthy (req_META request) "HTTP_X_GITHUB_EVENT")) ∧
    (webhook_secret course = None
     ∨ verifier hmac_sha256_hexdigest request request course = Some None) ∧
    is_Some (get_post_data json_loads request) ∧
    (∀ d, get_post_data json_loads request = Some (Some d) → d ≠ ∅ →
          Py.rpartition_tail "/" (default "" (d !! "ref")) = git_branch course).

(** [hook_course] either refuses, leaving log records only, or goes on
    to [create_and_push] for an authorised request. *)
Lemma hook_course_outcome (request : Request) (course : Course) (key : string) :
  let r := hook_course has_access hmac_sha256_hexdigest json_loads request course key in
  ((∀ ev, ev ∈ r.1 → is_log ev) ∧ refusal r.2 ∧ ¬ authorised request course)
  ∨ (authorised request course ∧
     ∃ logs, (∀ ev, ev ∈ logs → is_log ev) ∧
       r = (logs ++ (create_and_push request course key).1,
            (create_and_push request course key).2)).
Proof.
  cbn zeta. unfold hook_course, authorised, Course_has_access, verifier.
  assert (Hnil : ∀ ev : Effect, ev ∈ [] → is_log ev)
    by (intros ev Hin; by apply elem_of_nil in Hin).
  destruct (is_authenticated request).
  { destruct (remote_id course) as [rid|]; simpl.
    - destruct (has_access request WRITE rid) eqn:Ha; simpl.
      + right. split; [eauto|]. exists []. split; [done|].
        by destruct (create_and_push request course key).
      + left. split; [done|]. split; [right; eauto|].
        intros (rid' & [= <-] & ?). congruence.
    - left. split; [done|]. split; [right; eauto|]. by intros (rid' & ? & ?). }
  assert (Hservice : ∀ try_verify,
    let r := verify_and_read_branch json_loads try_verify request course key in
    let r' :=
      match
        match r.2 with
        | inl answer => (r.1, Some answer)
        | inr (Some b) =>
            if negb (bool_decide (b = git_branch course))
            then (r.1,
                  Some (HttpResponse ("Ignored. Update to '" +:+ b +:+ "', but expected '"
                                        +:+ git_branch course +:+ "'") 400))
            else (r.1, None)
        | inr None => (r.1, None)
        end
      with
      | (effects, Some answer) => (effects, answer)
      | (effects, None) =>
          let '(effects', answer) := create_and_push request course key in
          (effects ++ effects', answer)
      end in
    let ok := (webhook_secret course = None ∨ try_verify request course = Some None) ∧
              is_Some (get_post_data json_loads request) ∧
              (∀ d, get_post_data json_loads request = Some (Some d) → d ≠ ∅ →
                    Py.rpartition_tail "/" (default "" (d !! "ref")) = git_branch course) in
    ((∀ ev, ev ∈ r'.1 → is_log ev) ∧ refusal r'.2 ∧ ¬ ok)
    ∨ (ok ∧ ∃ logs, (∀ ev, ev ∈ logs → is_log ev) ∧
         r' = (logs ++ (create_and_push request course key).1,
               (create_and_push request course key).2))).
  { intros try_verify. cbn zeta.
    pose proof (verify_and_read_branch_spec try_verify request course key) as [Hlogs Hr].
    cbn zeta in Hlogs, Hr.
    destruct (verify_and_read_branch json_loads try_verify request course key)
      as [effects [answer|[b|]]]; cbn [fst snd] in *.
    - destruct Hr as [Hans Hnot]. left. split; [done|]. split; [done|].
      intros (? & ? & ?). by apply Hnot.
    - destruct Hr as [Hver (d & Hd & Hne & ->)].
      case_bool_decide as Hb; simpl.
      + right. split.
        { split; [done|]. split; [by rewrite Hd|]. intros d' Hd' _. congruence. }
        exists effects. split; [done|]. by destruct (create_and_push request course key).
      + left. split; [done|]. split; [right; eauto|].
        intros (_ & _ & Hbranch). apply Hb. by apply Hbranch.
    - right. split.
      { destruct Hr as [Hver Hd]. split; [done|].
        destruct Hd as [Hd|Hd]; rewrite Hd; (split; [done|]); intros d' [= <-]; done. }
      exists effects. split; [done|]. by destruct (create_and_push request course key). }
  destruct (get_truthy (req_META request) "HTTP_X_GITLAB_EVENT") as [ev|] eqn:Hgl.
  { specialize (Hservice try_verify_gitlab). cbn zeta in Hservice.
    destruct (verify_and_read_branch json_loads try_verify_gitlab request course key)
      as [effects r]; cbn [fst snd] in Hservice.
    destruct Hservice as [(? & ? & Hnot)|(Hok & ?)]; [left|right].
    - split; [done|]. split; [done|]. intros (_ & ?). by apply Hnot.
    - split; [|done]. split; [left; eauto|done]. }
  destruct (get_truthy (req_META request) "HTTP_X_GITHUB_EVENT") as [ev|] eqn:Hgh.
  { specialize (Hservice (try_verify_github hmac_sha256_hexdigest)). cbn zeta in Hservice.
    destruct (verify_and_read_branch json_loads (try_verify_github hmac_sha256_hexdigest)
                request course key) as [effects r]; cbn [fst snd] in Hservice.
    destruct Hservice as [(? & ? & Hnot)|(Hok & ?)]; [left|right].
    - split; [done|]. split; [done|]. intros (_ & ?). by apply Hnot.
    - split; [|done]. split; [right; eauto|done]. }
  left. simpl. split.
  { intros e Hin. apply list_elem_of_singleton in Hin. by eexists. }
  split; [right; eauto|]. intros ([[? ?]|[? ?]] & _); done.
Qed.

Lemma acts_logs (logs : list Effect) : (∀ ev, ev ∈ logs → is_log ev) → acts logs = [].
Proof.
  induction logs as [|ev logs IH]; intros Hl; [done|].
  destruct (Hl ev ltac:(by left)) as [msg ->]. simpl. apply IH.
  intros ev' Hin. apply Hl. by right.
Qed.

Lemma acts_create_and_push (request : Request) (course : Course) (key : string) :
  acts (create_and_push request course key).1 = (create_and_push request course key).1.
Proof. done. Qed.


(** a request that the hook refuses leaves nothing but log records;
    a request that it accepts creates one update, for the course of the
    key and with the address of the client, and enqueues one build. *)
Theorem hook_effects_shape (courses : list Course) (request : Request) (key : string) :
  let r := hook courses request key in
  (acts r.1 = [] ∧
   match r.2 with
   | HttpResponse _ st => (st = 405 ∨ st = 403 ∨ st = 400)%Z
   | Http404 | Unhandled _ => True
   | Redirect _ _ => False
   end)
  ∨ (∃ flags image command,
       acts r.1 = [Create_update key (get_client_ip request);
                   Push_event key flags image command] ∧
       (r.2 = HttpResponse "ok" 200 ∨ r.2 = Redirect "manager-updates" key)).
Proof.
  cbn zeta. unfold Views.hook. case_bool_decide as Hm; simpl; [|left; split; [done|by left]].
  destruct (List.find _ courses) as [course|] eqn:Hfind; [|by left].
  assert (Hkey : Models.key course = key).
  { apply find_some in Hfind as [_ Hk]. by apply bool_decide_eq_true in Hk. }
  destruct (hook_course_outcome request course key)
    as [(Hlogs & Hans & _)|(_ & logs & Hlogs & ->)].
  - left. split; [by apply acts_logs|].
    destruct Hans as [->|(content & st & -> & Hst)]; [done|]. tauto.
  - right. cbn [fst snd]. unfold acts. rewrite List.filter_app. fold (acts logs). rewrite (acts_logs _ Hlogs).
    unfold create_and_push. simpl. rewrite Hkey. do 3 eexists. split; [done|].
    destruct (get_truthy (req_META request) "HTTP_REFERER"); [by right|by left].
Qed.


(** the parameters of the build that the hook enqueues.  A flag is
    passed on for each of the three names that the request carries, true
    for the values [on] and [true] only; the image and the command are
    passed on when they are not empty; a parameter of the query string
    takes precedence over the same parameter of the form. *)
Theorem hook_parameters (courses : list Course) (request : Request) (key key' : string)
    (flags : list (string * bool)) (image command : option string) :
  Push_event key' flags image command ∈ (hook courses request key).1 →
  let param := λ k, match GET request !! k with
                    | Some v => Some v
                    | None => POST request !! k
                    end in
  key' = key ∧
  (∀ k b, (k, b) ∈ flags ↔
          k ∈ ["skip_git"; "skip_build"; "skip_notify"] ∧
          ∃ v, param k = Some v ∧ b = bool_decide (v = "on" ∨ v = "true")) ∧
  (∀ i, image = Some i ↔ param "build_image" = Some i ∧ i ≠ "") ∧
  (∀ c, command = Some c ↔ param "build_command" = Some c ∧ c ≠ "").
Proof.
  unfold Views.hook. case_bool_decide as Hm; simpl; [|by intros ?%elem_of_nil].
  destruct (List.find _ courses) as [course|]; [|by intros ?%elem_of_nil].
  destruct (hook_course_outcome request course key)
    as [(Hlogs & _ & _)|(_ & logs & Hlogs & ->)].
  { intros Hin. by destruct (Hlogs _ Hin). }
  cbn [fst]. intros [Hin|Hin]%elem_of_app; [by destruct (Hlogs _ Hin)|].
  unfold create_and_push in Hin. cbn [fst] in Hin.
  set (fl := omap _ _) in Hin.
  set (im := get_truthy _ "build_image") in Hin.
  set (cm := get_truthy _ "build_command") in Hin.
  apply elem_of_cons in Hin as [Hin|Hin]; [done|]. apply list_elem_of_singleton in Hin.
  assert (key' = key ∧ flags = fl ∧ image = im ∧ command = cm) as (-> & -> & -> & ->)
    by (by injection Hin).
  clear Hin.
  assert (Hparam : ∀ k, (GET request ∪ POST request) !! k
                        = match GET request !! k with
                          | Some v => Some v
                          | None => POST request !! k
                          end).
  { intros k. rewrite lookup_union. destruct (GET request !! k), (POST request !! k); done. }
  assert (Htruthy : ∀ v, Py.truthy v = true ↔ v ≠ "") by (intros [|]; done).
  split; [done|]. split; [|split].
  - intros k b. unfold fl. rewrite list_elem_of_omap. split.
    + intros (k' & Hk' & Hv). rewrite Hparam in Hv.
      destruct (match GET request !! k' with Some v => Some v | None => POST request !! k' end)
        as [v|] eqn:Hp; [|done].
      simpl in Hv. injection Hv as -> <-. split; [done|]. exists v. split; [done|].
      apply eq_true_iff_eq. rewrite orb_true_iff, !bool_decide_eq_true. done.
    + intros (Hk & v & Hv & ->). exists k. split; [done|]. rewrite Hparam, Hv. simpl.
      do 2 f_equal. apply eq_true_iff_eq. rewrite orb_true_iff, !bool_decide_eq_true. done.
  - intros i. unfold im, get_truthy. rewrite Hparam.
    destruct (match GET request !! "build_image" with Some v => Some v | None => _ end) as [v|];
      [|by split; [|intros [? _]]].
    destruct (Py.truthy v) eqn:Hv.
    + apply Htruthy in Hv. split; [intros [= <-]; done|by intros [[= <-] _]].
    + split; [done|]. intros [[= <-] Hne]. apply Htruthy in Hne. congruence.
  - intros c. unfold cm, get_truthy. rewrite Hparam.
    destruct (match GET request !! "build_command" with Some v => Some v | None => _ end) as [v|];
      [|by split; [|intros [? _]]].
    destruct (Py.truthy v) eqn:Hv.
    + apply Htruthy in Hv. split; [intros [= <-]; done|by intros [[= <-] _]].
    + split; [done|]. intros [[= <-] Hne]. apply Htruthy in Hne. congruence.
Qed.

End HookGuards.

(** the address recorded for a request that went through proxies is
    the first entry of [X-Forwarded-For], the text before its first
    comma, whatever [REMOTE_ADDR] holds. *)
Theorem get_client_ip_first_forwarded (request : Request) (x : string) :
  req_META request !! "HTTP_X_FORWARDED_FOR" = Some x → x ≠ "" →
  ∃ ip, get_client_ip request = Some ip ∧
        (("," : ascii) ∉ String.list_ascii_of_string ip) ∧
        (x = ip ∨ ∃ rest, x = ip +:+ "," +:+ rest).
Proof.
  intros Hx Hne. unfold get_client_ip, get_truthy. rewrite Hx.
  destruct x as [|a x]; [done|]. cbn [Py.truthy].
  exists (split_comma_head (String a x)). split; [done|]. apply split_comma_head_spec.
Qed.



Lemma hook_parameters_witness :
  let has_access := λ (_ : Request) (_ : Permission) (_ : Z), false in
  let hmac := λ k b : string, k +:+ b in
  let json_loads := λ _ : string, Some ({[ "ref" := "refs/heads/master" ]} : gmap string string) in
  let request := Sample.gitlab_push_with_token in
  let param := λ k, match GET request !! k with
                    | Some v => Some v
                    | None => POST request !! k
                    end in
  "def" = "def" ∧
  (∀ k b, (k, b) ∈ [("skip_git", true); ("skip_notify", false)] ↔
          k ∈ ["skip_git"; "skip_build"; "skip_notify"] ∧
          ∃ v, param k = Some v ∧ b = bool_decide (v = "on" ∨ v = "true")) ∧
  (∀ i, None = Some i ↔ param "build_image" = Some i ∧ i ≠ "") ∧
  (∀ c, Some "make html" = Some c ↔ param "build_command" = Some c ∧ c ≠ "").
Proof.
  intros has_access hmac json_loads.
  apply (hook_parameters has_access hmac json_loads [Sample.secured_course]
           Sample.gitlab_push_with_token "def" "def"
           [("skip_git", true); ("skip_notify", false)] None (Some "make html")).
  vm_compute. right. by left.
Defined.

Lemma get_client_ip_first_forwarded_witness :
  ∃ ip, get_client_ip Sample.gitlab_push_with_token = Some ip ∧
        (("," : ascii) ∉ String.list_ascii_of_string ip) ∧
        ("203.0.113.5, 10.0.0.1" = ip ∨ ∃ rest, "203.0.113.5, 10.0.0.1" = ip +:+ "," +:+ rest).
Proof.
  apply (get_client_ip_first_forwarded Sample.gitlab_push_with_token "203.0.113.5, 10.0.0.1").
  - reflexivity.
  - discriminate.
Defined.

(** The sample request with its token: the update records the first
    forwarded address, and the query string overrides the form. *)
Example gitlab_push_with_token_accepted :
  hook (λ _ _ _, false) (λ k b, k +:+ b) (λ _, Some {[ "ref" := "refs/heads/master" ]})
    [Sample.secured_course] Sample.gitlab_push_with_token "def"
  = ([Create_update "def" (Some "203.0.113.5");
      Push_event "def" [("skip_git", true); ("skip_notify", false)] None (Some "make html")],
     HttpResponse "ok" 200).
Proof. vm_compute. reflexivity. Qed.


(** *** The settings of a course over the API *)

Section ApiFacts.
Variable DISABLE_LOGIN_CHECKS : bool.
Variable has_access : Request → Permission → Z → bool.
Variable has_auth : Request → bool.
Variable int_of_str : string → option Z.
Variable model_to_dict : Course → gmap string string.
Variable git_hook_url : Request → string → string.
Variable QueryDict : string → gmap string string.
Variable CourseForm : gmap string string → option Course → string + Course.

#[local] Abbreviation respond := (respond has_access model_to_dict git_hook_url).
#[local] Abbreviation EditCourse_get :=
  (EditCourse_get has_access model_to_dict git_hook_url).
#[local] Abbreviation EditCourse_post :=
  (EditCourse_post DISABLE_LOGIN_CHECKS has_access has_auth int_of_str model_to_dict
     git_hook_url CourseForm).
#[local] Abbreviation EditCourse_put :=
  (EditCourse_put DISABLE_LOGIN_CHECKS has_access has_auth int_of_str model_to_dict
     git_hook_url QueryDict CourseForm).

Lemma respond_secret (request : Request) (course : Course) (obj : gmap string string) :
  respond request course = Json_object obj →
  is_Some (obj !! "webhook_secret") →
  ∃ rid, remote_id course = Some rid ∧ has_access request WRITE rid = true.
Proof.
  unfold Views.respond, _get, Course_has_access.
  destruct (remote_id course) as [rid|]; simpl.
  - destruct (has_access request WRITE rid) eqn:Ha; simpl; [eauto|].
    destruct (_ !! "webhook_secret"); [|done].
    intros [= <-]. rewrite lookup_delete_eq. by intros [? ?].
  - destruct (_ !! "webhook_secret"); [|done].
    intros [= <-]. rewrite lookup_delete_eq. by intros [? ?].
Qed.

(** The settings that [get], [post] and [put] answer with hold the
    webhook secret only for a requester with write access to the
    instance of the course they describe; those of a course without
    remote id never hold it. *)
Theorem secret_only_for_writers (courses : list Course) (request : Request) (key : string)
    (obj : gmap string string) :
  EditCourse_get courses request key = Json_object obj
  ∨ (EditCourse_post courses request key).2 = Json_object obj
  ∨ (EditCourse_put courses request key).2 = Json_object obj →
  is_Some (obj !! "webhook_secret") →
  ∃ course rid,
    respond request course = Json_object obj ∧
    remote_id course = Some rid ∧ has_access request WRITE rid = true.
Proof.
  intros Hanswer Hsecret.
  assert (Hcourse : ∃ course, respond request course = Json_object obj).
  { destruct Hanswer as [Hget|[Hpost|Hput]].
    - revert Hget. unfold Views.EditCourse_get.
      destruct (List.find _ courses) as [course|]; [|done].
      destruct (negb _); [done|]. eauto.
    - revert Hpost. unfold Views.EditCourse_post.
      case_bool_decide; [done|]. destruct (existsb _ _); [done|].
      destruct (_check_access _ _ _ _ _ _) as [response|] eqn:Hcheck.
      { simpl. revert Hcheck. unfold _check_access.
        destruct (negb DISABLE_LOGIN_CHECKS); [|done].
        destruct (POST request !! "remote_id"); [|by intros [= <-]].
        destruct (int_of_str _); [|by intros [= <-]].
        destruct (negb (has_auth request)); [by intros [= <-]|].
        destruct (negb (has_access request WRITE _)); [by intros [= <-]|done]. }
      destruct (negb _); [done|].
      destruct (CourseForm _ _) as [errors|course]; [done|]. simpl. eauto.
    - revert Hput. unfold Views.EditCourse_put. cbn zeta.
      case_bool_decide; [done|].
      destruct (List.find _ courses) as [course|]; [|done].
      destruct (negb (Course_has_access _ _ _ _ _)); [done|].
      destruct (_check_access _ _ _ _ _ _) as [response|] eqn:Hcheck.
      { simpl. revert Hcheck. unfold _check_access.
        destruct (negb DISABLE_LOGIN_CHECKS); [|done].
        destruct (POST request !! "remote_id"); [|done].
        destruct (int_of_str _); [|by intros [= <-]].
        destruct (negb (has_auth request)); [by intros [= <-]|].
        destruct (negb (has_access request WRITE _)); [by intros [= <-]|done]. }
      destruct (CourseForm _ _) as [errors|course']; [done|]. simpl. eauto. }
  destruct Hcourse as [course Hcourse].
  destruct (respond_secret request course obj Hcourse Hsecret) as (rid & ? & ?).
  by exists course, rid.
Qed.

(** A course without remote id is out of reach of the API: [get] and
    [put] answer that the requester has no access, whoever asks, and
    [put] saves nothing. *)
Theorem unlinked_course_out_of_reach (courses : list Course) (request : Request)
    (key : string) (course : Course) :
  List.find (λ c, bool_decide (Models.key c = key)) courses = Some course →
  remote_id course = None →
  EditCourse_get courses request key = Json_error "No access to instance None" ∧
  (EditCourse_put courses request key).1 = courses ∧
  ((EditCourse_put courses request key).2 = Json_error "No access to instance None"
   ∨ (EditCourse_put courses request key).2 = Json_error "No POST parameters given"
      ∧ QueryDict (body request) = ∅).
Proof.
  intros Hfind Hrid.
  unfold Views.EditCourse_get, Views.EditCourse_put, Course_has_access.
  rewrite Hfind, Hrid. simpl. split; [done|].
  case_bool_decide; simpl; [split; [done|by right]|split; [done|by left]].
Qed.

(** [post] leaves the table of courses as it is or adds one course to
    it, the one of the form.  It adds it only when no course has the key
    of the address, the form names that key and, unless the login checks
    are disabled, the form names the remote id of an instance that the
    requester, who carries a payload, has write access to. *)
Theorem post_creates_only_authorised (courses : list Course) (request : Request)
    (key : string) :
  let r := EditCourse_post courses request key in
  r.1 = courses ∨
  ∃ course,
    r.1 = courses ++ [course] ∧ r.2 = respond request course ∧
    CourseForm (POST request) None = inr course ∧
    (∀ c, c ∈ courses → Models.key c ≠ key) ∧
    POST request !! "key" = Some key ∧
    (DISABLE_LOGIN_CHECKS = true ∨
     ∃ remote_id instance_id,
       POST request !! "remote_id" = Some remote_id ∧
       int_of_str remote_id = Some instance_id ∧
       has_auth request = true ∧ has_access request WRITE instance_id = true).
Proof.
  cbn zeta. unfold Views.EditCourse_post.
  case_bool_decide; [by left|].
  destruct (existsb _ courses) eqn:Hexists; [by left|].
  destruct (_check_access _ _ _ _ _ _) as [response|] eqn:Hcheck; [by left|].
  case_bool_decide as Hkey; simpl; [|by left].
  destruct (CourseForm _ _) as [errors|course] eqn:Hform; [by left|].
  right. exists course. split; [done|]. split; [done|]. split; [done|]. split; [|split; [done|]].
  - intros c Hc Heq.
    assert (existsb (λ c, bool_decide (Models.key c = key)) courses = true); [|congruence].
    apply existsb_exists. exists c. split; [by apply list_elem_of_In|].
    by apply bool_decide_eq_true.
  - revert Hcheck. unfold _check_access.
    destruct DISABLE_LOGIN_CHECKS; [by left|]. simpl.
    destruct (POST request !! "remote_id") as [rid|]; [|done].
    destruct (int_of_str rid) as [n|] eqn:Hint; [|done].
    destruct (has_auth request); [|done]. simpl.
    destruct (has_access request WRITE n) eqn:Ha; [|done].
    intros _. right. by exists rid, n.
Qed.

End ApiFacts.

(** Whether [put] saves the form does not depend on the access of the
    requester to another instance than the one of the course as it is:
    the check of the remote id reads [request.POST], not the data of the
    body, and passes when [request.POST] names no remote id. *)
Theorem put_saves_without_access_to_new_instance
    (DISABLE_LOGIN_CHECKS : bool) (has_access has_access' : Request → Permission → Z → bool)
    (has_auth : Request → bool) (int_of_str : string → option Z)
    (model_to_dict : Course → gmap string string) (git_hook_url : Request → string → string)
    (QueryDict : string → gmap string string)
    (CourseForm : gmap string string → option Course → string + Course)
    (courses : list Course) (request : Request) (key : string) (course : Course) (rid : Z) :
  List.find (λ c, bool_decide (Models.key c = key)) courses = Some course →
  remote_id course = Some rid →
  has_access request WRITE rid = has_access' request WRITE rid →
  POST request !! "remote_id" = None →
  (EditCourse_put DISABLE_LOGIN_CHECKS has_access has_auth int_of_str model_to_dict
     git_hook_url QueryDict CourseForm courses request key).1
  = (EditCourse_put DISABLE_LOGIN_CHECKS has_access' has_auth int_of_str model_to_dict
       git_hook_url QueryDict CourseForm courses request key).1.
Proof.
  intros Hfind Hrid Hsame Hpost. unfold EditCourse_put, Course_has_access, _check_access.
  cbn zeta. rewrite Hfind, Hrid, Hpost, Hsame.
  case_bool_decide; [done|].
  destruct (negb (has_access' request WRITE rid)); [done|].
  destruct (negb DISABLE_LOGIN_CHECKS); by destruct (CourseForm _ _).
Qed.

Lemma secret_only_for_writers_witness :
  let has_access := λ (_ : Request) (_ : Permission) (_ : Z), true in
  let obj := <["git_hook" := Sample.git_hook_url Sample.gitlab_push "def"]>
               (Sample.model_to_dict Sample.secured_course) in
  ∃ course rid,
    respond has_access Sample.model_to_dict Sample.git_hook_url Sample.gitlab_push course
    = Json_object obj ∧
    remote_id course = Some rid ∧ has_access Sample.gitlab_push WRITE rid = true.
Proof.
  intros has_access obj.
  apply (secret_only_for_writers false has_access (λ _, true) (λ _, Some 1%Z)
           Sample.model_to_dict Sample.git_hook_url (λ _, ∅) (λ _ _, inl "invalid")
           [Sample.secured_course] Sample.gitlab_push "def" obj).
  - left. vm_compute. reflexivity.
  - vm_compute. eauto.
Defined.

Lemma unlinked_course_out_of_reach_witness :
  let has_access := λ (_ : Request) (_ : Permission) (_ : Z), true in
  let put :=
    EditCourse_put false has_access (λ _, true) (λ _, Some 1%Z) Sample.model_to_dict
      Sample.git_hook_url (λ _, {[ "git_branch" := "main" ]}) (λ _ _, inl "invalid")
      [Sample.unlinked_course] Sample.gitlab_push "def" in
  EditCourse_get has_access Sample.model_to_dict Sample.git_hook_url
    [Sample.unlinked_course] Sample.gitlab_push "def"
  = Json_error "No access to instance None" ∧
  put.1 = [Sample.unlinked_course] ∧
  (put.2 = Json_error "No access to instance None"
   ∨ put.2 = Json_error "No POST parameters given"
      ∧ ({[ "git_branch" := "main" ]} : gmap string string) = ∅).
Proof.
  intros has_access.
  apply (unlinked_course_out_of_reach false has_access (λ _, true) (λ _, Some 1%Z)
           Sample.model_to_dict Sample.git_hook_url (λ _, {[ "git_branch" := "main" ]})
           (λ _ _, inl "invalid") [Sample.unlinked_course] Sample.gitlab_push "def"
           Sample.unlinked_course); reflexivity.
Defined.

(** The requester has write access to the instance 1 of the course and
    to no other: the course is saved with the remote id 2 of the body. *)
Lemma put_saves_without_access_to_new_instance_witness :
  let moved := {| key := "def"; remote_id := Some 2%Z; git_origin := "";
                  git_branch := "master"; email_on_error := true;
                  update_automatically := true; skip_build_failsafes := false;
                  webhook_secret := Some "s3cr3t" |} in
  let put := λ has_access,
    EditCourse_put false has_access (λ _, true) (λ _, Some 2%Z) Sample.model_to_dict
      Sample.git_hook_url (λ _, {[ "remote_id" := "2" ]}) (λ _ _, inr moved)
      [Sample.secured_course] Sample.gitlab_push "def" in
  (put (λ _ _ rid, bool_decide (rid = 1%Z))).1 = (put (λ _ _ _, true)).1.
Proof.
  intros moved put.
  apply (put_saves_without_access_to_new_instance false
           (λ _ _ rid, bool_decide (rid = 1%Z)) (λ _ _ _, true) (λ _, true) (λ _, Some 2%Z)
           Sample.model_to_dict Sample.git_hook_url (λ _, {[ "remote_id" := "2" ]})
           (λ _ _, inr moved) [Sample.secured_course] Sample.gitlab_push "def"
           Sample.secured_course 1%Z); reflexivity.
Defined.

Example put_moves_course_to_foreign_instance :
  let moved := {| key := "def"; remote_id := Some 2%Z; git_origin := "";
                  git_branch := "master"; email_on_error := true;
                  update_automatically := true; skip_build_failsafes := false;
                  webhook_secret := Some "s3cr3t" |} in
  (EditCourse_put false (λ _ _ rid, bool_decide (rid = 1%Z)) (λ _, true) (λ _, Some 2%Z)
     Sample.model_to_dict Sample.git_hook_url (λ _, {[ "remote_id" := "2" ]})
     (λ _ _, inr moved) [Sample.secured_course] Sample.gitlab_push "def").1 = [moved].
Proof. vm_compute. reflexivity. Qed.

End ViewsFacts.

(** ** The secrets that [populate_secrets] gives *)

Module MigrationFacts.
Import Models Builder Views Migration.

Section Secrets.
Context {W : Type}.
Variable token_hex : W → W * string.



End Secrets.


End MigrationFacts.

(** ** Publishing *)

Module PublishFacts.
Import Models Builder.

Section PublishFacts.
Context {Config : Type}.
Variable file_paths : string → ConfigSource → string * string * string.
Variable load_config : string → string + Config.
Variable publish_graders : Config → list string.

#[local] Abbreviation publish := (publish file_paths load_config publish_graders).

(** [publish] in one piece: what it does as a function of the files. *)
Definition publish_from_prod (course_key : string) (errors : list string) (s : PublishState)
    : PublishState * Flow (list string) :=
  let no_config :=
    λ errors : list string,
      match errors with
      | _ :: _ => Raise (OtherError (Py.join Py.nl errors))
      | [] => Raise (OtherError ("Course directory not found for " +:+ course_key
                                   +:+ " - the course probably has not been built"))
      end in
  match fs s !! (file_paths course_key PUBLISH).1.1 with
  | Some content =>
      match load_config content with
      | inr config =>
          ({| fs := fs s; queued := queued s;
              ptrace := ((ptrace s ++ [Loaded PUBLISH]) ++ [Symbolic_link]) ++ [Publish_graders] |},
           Next (errors ++ publish_graders config))
      | inl e =>
          (s, no_config (errors ++ ["Failed to load already published config: " +:+ e]))
      end
  | None => (s, no_config errors)
  end.

Definition promotion_pairs (course_key : string) : list (string * string) :=
  [((file_paths course_key STORE).1.1, (file_paths course_key PUBLISH).1.1);
   ((file_paths course_key STORE).1.2, (file_paths course_key PUBLISH).1.2);
   ((file_paths course_key STORE).2, (file_paths course_key PUBLISH).2)].

Definition copy_back_pairs (course_key : string) : list (string * string) :=
  [((file_paths course_key PUBLISH).1.1, (file_paths course_key STORE).1.1);
   ((file_paths course_key PUBLISH).1.2, (file_paths course_key STORE).1.2);
   ((file_paths course_key PUBLISH).2, (file_paths course_key STORE).2)].

Definition publish_summary (course_key : string) (s : PublishState)
    : PublishState * Flow (list string) :=
  match fs s !! (file_paths course_key STORE).1.1 with
  | Some content =>
      if versions_differ (fs s) (file_paths course_key PUBLISH).2 (file_paths course_key STORE).2
      then
        match load_config content with
        | inr config =>
            ({| fs := foldl rename_path (fs s) (promotion_pairs course_key);
                queued := queued s ++ [copy_back_pairs course_key];
                ptrace := (((((ptrace s ++ [Loaded STORE])
                              ++ [Renames (promotion_pairs course_key)])
                             ++ [Save_to_cache PUBLISH])
                            ++ [Copys_async (copy_back_pairs course_key)])
                           ++ [Symbolic_link]) ++ [Publish_graders] |},
             Next ([] ++ publish_graders config))
        | inl e =>
            publish_from_prod course_key
              ["Failed to load newly built course for this reason: " +:+ e] s
        end
      else publish_from_prod course_key [] s
  | None => publish_from_prod course_key [] s
  end.

Lemma publish_eq (course_key : string) (s : PublishState) :
  publish course_key s = publish_summary course_key s.
Proof.
  unfold Builder.publish, publish_summary, publish_from_prod, promotion_pairs, copy_back_pairs,
    CourseConfig_get_from, renames, copys_async.
  destruct (file_paths course_key PUBLISH) as [[pp pd] pv].
  destruct (file_paths course_key STORE) as [[sp sd] sv].
  unfold mbind, M_bind, mret, M_ret, get_fs, catch, pemit, modify_fs, enqueue, do_raise,
    path_exists, with_fs.
  cbn [fst snd fs queued ptrace].
  destruct (fs s !! sp) as [content|] eqn:Hs; cbn.
  - destruct (versions_differ (fs s) pv sv); cbn.
    + rewrite ?Hs. destruct (load_config content) as [e|config] eqn:Hl; cbn; try done.
      destruct (fs s !! pp) as [content'|] eqn:Hp; cbn; rewrite ?Hp; [|done].
      destruct (load_config content') as [e'|config] eqn:Hl'; cbn; done.
    + destruct (fs s !! pp) as [content'|] eqn:Hp; cbn; rewrite ?Hp; [|done].
      destruct (load_config content') as [e'|config] eqn:Hl'; cbn; done.
  - destruct (fs s !! pp) as [content'|] eqn:Hp; cbn; rewrite ?Hp; [|done].
    destruct (load_config content') as [e'|config] eqn:Hl'; cbn; done.
Qed.

(** C5.  When the version-id files call for a promotion and the
    configuration of STORE fails to load, nothing is renamed or queued
    for copying and no file changes; the error is the first of the
    returned errors, or the first line of the message of the raised
    exception. *)
Theorem publish_store_config_error (course_key : string) (s : PublishState)
    (content e : string) :
  fs s !! (file_paths course_key STORE).1.1 = Some content →
  versions_differ (fs s) (file_paths course_key PUBLISH).2 (file_paths course_key STORE).2 = true →
  load_config content = inl e →
  let r := publish course_key s in
  let error := "Failed to load newly built course for this reason: " +:+ e in
  fs r.1 = fs s ∧
  queued r.1 = queued s ∧
  (∃ events, ptrace r.1 = ptrace s ++ events ∧
             ∀ pairs, (Renames pairs ∉ events) ∧ (Copys_async pairs ∉ events)) ∧
  (∃ rest, r.2 = Next (error :: rest)
           ∨ r.2 = Raise (OtherError (Py.join Py.nl (error :: rest)))).
Proof.
  intros Hstore Hdiff Hload. cbn zeta. rewrite publish_eq.
  unfold publish_summary. rewrite Hstore, Hdiff, Hload.
  unfold publish_from_prod.
  destruct (fs s !! (file_paths course_key PUBLISH).1.1) as [content'|].
  - destruct (load_config content') as [e'|config]; cbn [fst snd fs queued ptrace app].
    + split; [done|]. split; [done|]. split.
      * exists []. rewrite app_nil_r. split; [done|]. intros. split; apply not_elem_of_nil.
      * exists ["Failed to load already published config: " +:+ e']. by right.
    + split; [done|]. split; [done|]. split.
      * eexists. rewrite <- !app_assoc. split; [done|].
        intros pairs. split; intros Hin; repeat (apply elem_of_cons in Hin as [?|Hin]; [done|]);
          by apply elem_of_nil in Hin.
      * exists (publish_graders config). by left.
  - cbn [fst snd fs queued ptrace app]. split; [done|]. split; [done|]. split.
    + exists []. rewrite app_nil_r. split; [done|]. intros. split; apply not_elem_of_nil.
    + exists []. by right.
Qed.






(** [publish] raises the error of a course that has not been built,
    [Course directory not found], exactly when the directory of PUBLISH
    does not exist and there is nothing to promote: the directory of
    STORE does not exist either, or the version-id files of the two
    stages are there with the same content.  It then leaves the files
    and the queue as they are. *)
Theorem publish_not_built (course_key : string) (s : PublishState) :
  let r := publish course_key s in
  let not_built :=
    OtherError ("Course directory not found for " +:+ course_key
                  +:+ " - the course probably has not been built") in
  (r.2 = Raise not_built ↔
   fs s !! (file_paths course_key PUBLISH).1.1 = None ∧
   (fs s !! (file_paths course_key STORE).1.1 = None
    ∨ versions_differ (fs s) (file_paths course_key PUBLISH).2 (file_paths course_key STORE).2
      = false)) ∧
  (r.2 = Raise not_built → r.1 = s).
Proof.
  cbn zeta. rewrite publish_eq. unfold publish_summary.
  assert (Hmsg : ∀ (e : string) (rest : list string),
    Py.join Py.nl (("Failed to load " +:+ e) :: rest)
    ≠ "Course directory not found for " +:+ course_key
        +:+ " - the course probably has not been built").
  { intros e rest. unfold Py.join. by destruct rest. }
  assert (Hprod : ∀ errors,
    (errors = [] ∨ ∃ e rest, errors = ("Failed to load " +:+ e) :: rest) →
    let r := publish_from_prod course_key errors s in
    let not_built :=
      OtherError ("Course directory not found for " +:+ course_key
                    +:+ " - the course probably has not been built") in
    (r.2 = Raise not_built ↔
     errors = [] ∧ fs s !! (file_paths course_key PUBLISH).1.1 = None) ∧
    (r.2 = Raise not_built → r.1 = s)).
  { intros errors Herr. cbn zeta. unfold publish_from_prod.
    destruct (fs s !! (file_paths course_key PUBLISH).1.1) as [content|].
    - destruct (load_config content) as [e|config]; cbn [fst snd].
      + split; [|done]. split; [|by intros [_ ?]].
        destruct errors as [|e0 rest]; cbn [app].
        * intros [= He]; try by apply (Hmsg ("already published config: " +:+ e) []) in He.
        * destruct Herr as [?|(e1 & rest1 & [= -> ->])]; [done|].
          intros [= He]; try by apply Hmsg in He.
      + split; [|done]. split; [done|by intros [_ ?]].
    - cbn [fst snd]. split; [|done]. destruct errors as [|e0 rest].
      + done.
      + destruct Herr as [?|(e1 & rest1 & [= -> ->])]; [done|].
        split; [|by intros [? _]]. intros [= He]; try by apply Hmsg in He. }
  destruct (fs s !! (file_paths course_key STORE).1.1) as [content|].
  2:{ destruct (Hprod [] ltac:(by left)) as [Hiff Hsame]. split; [|done].
      rewrite Hiff. split; [intros [_ ?]; eauto|]. by intros [? _]. }
  destruct (versions_differ _ _ _).
  2:{ destruct (Hprod [] ltac:(by left)) as [Hiff Hsame]. split; [|done].
      rewrite Hiff. split; [intros [_ ?]; eauto|]. by intros [? _]. }
  destruct (load_config content) as [e|config].
  - destruct (Hprod ["Failed to load newly built course for this reason: " +:+ e])
      as [Hiff Hsame].
    { right. by exists ("newly built course for this reason: " +:+ e), []. }
    split; [|done]. rewrite Hiff. split; [by intros [? _]|]. by intros [_ [?|?]].
  - cbn [fst snd]. split; [|done]. split; [done|]. by intros [_ [?|?]].
Qed.


(** A promotion, step by step.  When STORE holds its three files, the
    version-id files call for a promotion and the configuration of
    STORE loads, [publish] moves the three files of STORE to PUBLISH and
    returns the errors of the graders; once the queued copies have run,
    STORE and PUBLISH both hold the three files that STORE held.  No
    other path changes. *)
Theorem publish_promotes_store (course_key : string) (s : PublishState)
    (content : string) (config : Config) :
  let paths := (promotion_pairs course_key).*1 ++ (promotion_pairs course_key).*2 in
  NoDup paths →
  queued s = [] →
  (∀ p, p ∈ (promotion_pairs course_key).*1 → is_Some (fs s !! p)) →
  fs s !! (file_paths course_key STORE).1.1 = Some content →
  versions_differ (fs s) (file_paths course_key PUBLISH).2 (file_paths course_key STORE).2 = true →
  load_config content = inr config →
  let r := publish course_key s in
  r.2 = Next (publish_graders config) ∧
  (∀ p q, (p, q) ∈ promotion_pairs course_key →
          fs r.1 !! p = None ∧ fs r.1 !! q = fs s !! p ∧
          fs (run_queued r.1) !! p = fs s !! p ∧ fs (run_queued r.1) !! q = fs s !! p) ∧
  (∀ p, p ∉ paths → fs r.1 !! p = fs s !! p ∧ fs (run_queued r.1) !! p = fs s !! p).
Proof.
  intros paths Hnd Hq Hfiles Hstore Hdiff Hload. cbn zeta. rewrite publish_eq.
  unfold publish_summary. rewrite Hstore, Hdiff, Hload. cbn [fst snd fs app].
  split; [done|].
  unfold run_queued. cbn [fs queued]. rewrite Hq. cbn [app foldl].
  unfold paths, promotion_pairs, copy_back_pairs in *. clear paths.
  set (sp := (file_paths course_key STORE).1.1) in *.
  set (sd := (file_paths course_key STORE).1.2) in *.
  set (sv := (file_paths course_key STORE).2) in *.
  set (pp := (file_paths course_key PUBLISH).1.1) in *.
  set (pd := (file_paths course_key PUBLISH).1.2) in *.
  set (pv := (file_paths course_key PUBLISH).2) in *.
  cbn [fmap list_fmap fst snd app] in Hnd, Hfiles |- *.
  assert (Hne : sp ≠ pp ∧ sp ≠ pd ∧ sp ≠ pv ∧ sp ≠ sd ∧ sp ≠ sv ∧ sd ≠ sv ∧ sd ≠ pp ∧ sd ≠ pd
                ∧ sd ≠ pv ∧ sv ≠ pp ∧ sv ≠ pd ∧ sv ≠ pv ∧ pp ≠ pd ∧ pp ≠ pv ∧ pd ≠ pv).
  { repeat match goal with
           | H : NoDup (_ :: _) |- _ => apply NoDup_cons in H as [? H]
           end.
    set_solver. }
  destruct Hne as (? & ? & ? & ? & ? & ? & ? & ? & ? & ? & ? & ? & ? & ? & ?).
  destruct (Hfiles sd ltac:(set_solver)) as [d Hd].
  destruct (Hfiles sv ltac:(set_solver)) as [v Hv].
  cbn [foldl]. unfold rename_path, copy_path. cbn [fst snd].
  rewrite Hstore. rewrite lookup_insert_ne, lookup_delete_ne, Hd by done.
  rewrite lookup_insert_ne, lookup_delete_ne, lookup_insert_ne, lookup_delete_ne, Hv by done.
  repeat (rewrite ?lookup_insert_eq, ?lookup_insert_ne, ?lookup_delete_ne by done;
          cbn [fst snd]).
  split.
  - intros p q Hin.
    repeat (apply elem_of_cons in Hin as [[= -> ->]|Hin]; [by simplify_map_eq|]).
    by apply elem_of_nil in Hin.
  - intros p Hp.
    assert (p ≠ sp ∧ p ≠ sd ∧ p ≠ sv ∧ p ≠ pp ∧ p ≠ pd ∧ p ≠ pv) as (?&?&?&?&?&?)
      by set_solver.
    by simplify_map_eq.
Qed.

End PublishFacts.

#[local] Abbreviation sample_publish :=
  (publish Sample.file_paths Sample.load_config Sample.publish_graders "def").

Lemma publish_store_config_error_witness :
  let r := sample_publish Sample.stored_broken in
  let error := "Failed to load newly built course for this reason: index.yaml: syntax error" in
  fs r.1 = fs Sample.stored_broken ∧
  queued r.1 = queued Sample.stored_broken ∧
  (∃ events, ptrace r.1 = ptrace Sample.stored_broken ++ events ∧
             ∀ pairs, (Renames pairs ∉ events) ∧ (Copys_async pairs ∉ events)) ∧
  (∃ rest, r.2 = Next (error :: rest)
           ∨ r.2 = Raise (OtherError (Py.join Py.nl (error :: rest)))).
Proof.
  apply (publish_store_config_error Sample.file_paths Sample.load_config
           Sample.publish_graders "def" Sample.stored_broken "broken"
           "index.yaml: syntax error"); reflexivity.
Defined.


(** The sample evaluated: the first call promotes, the second one, after
    the copies have run, loads PUBLISH and renames nothing. *)
Example publish_twice :
  ptrace (sample_publish (run_queued (sample_publish Sample.stored).1)).1
  = [Loaded STORE;
     Renames [("/srv/store/def", "/srv/courses/def");
              ("/srv/store/def.defaults.json", "/srv/courses/def.defaults.json");
              ("/srv/store/def.version", "/srv/courses/def.version")];
     Save_to_cache PUBLISH;
     Copys_async [("/srv/courses/def", "/srv/store/def");
                  ("/srv/courses/def.defaults.json", "/srv/store/def.defaults.json");
                  ("/srv/courses/def.version", "/srv/store/def.version")];
     Symbolic_link; Publish_graders;
     Loaded PUBLISH; Symbolic_link; Publish_graders].
Proof. vm_compute. reflexivity. Qed.

Lemma publish_promotes_store_witness :
  let r := sample_publish Sample.stored in
  r.2 = Next [] ∧
  (∀ p q, (p, q) ∈ promotion_pairs Sample.file_paths "def" →
          fs r.1 !! p = None ∧ fs r.1 !! q = fs Sample.stored !! p ∧
          fs (run_queued r.1) !! p = fs Sample.stored !! p ∧
          fs (run_queued r.1) !! q = fs Sample.stored !! p) ∧
  (∀ p, p ∉ (promotion_pairs Sample.file_paths "def").*1
            ++ (promotion_pairs Sample.file_paths "def").*2 →
        fs r.1 !! p = fs Sample.stored !! p ∧ fs (run_queued r.1) !! p = fs Sample.stored !! p).
Proof.
  apply (publish_promotes_store Sample.file_paths Sample.load_config Sample.publish_graders
           "def" Sample.stored "index of 1a2b3c" "index of 1a2b3c").
  - apply (bool_decide_unpack _). vm_compute. reflexivity.
  - reflexivity.
  - intros p Hp. apply (bool_decide_unpack _).
    repeat (apply elem_of_cons in Hp as [->|Hp]; [vm_compute; reflexivity|]).
    by apply elem_of_nil in Hp.
  - vm_compute. reflexivity.
  - vm_compute. reflexivity.
  - vm_compute. reflexivity.
Defined.

End PublishFacts.

(** ** The orchestrator *)

Module PipelineFacts.
Import Models Builder.

Lemma append_assoc (a b c : string) : (a +:+ b) +:+ c = a +:+ b +:+ c.
Proof.
  induction a as [|x a IH]; [done|].
  change (String x ((a +:+ b) +:+ c) = String x (a +:+ b +:+ c)). by rewrite IH.
Qed.

Lemma append_nil_r (a : string) : a +:+ "" = a.
Proof.
  induction a as [|x a IH]; [done|].
  change (String x (a +:+ "") = String x a). by rewrite IH.
Qed.

Section Evolution.
Context {W Config : Type}.
Variable X : Collaborators W Config.
Variable settings : Settings.

#[local] Abbreviation M := (M (St W)).

(** Every run of [m] takes a state to a state related to it by [R]. *)
Definition evolves (R : relation (St W)) {A} (m : M A) : Prop :=
  ∀ s, R s (m s).1.

(** A relation that holds across changes of the world and text added to
    the log. *)
Class Stable (R : relation (St W)) := {
  Stable_preorder :: PreOrder R;
  Stable_world (w : W) (s : St W) : R s (with_world w s);
  Stable_log (more : string) (s : St W) : R s (with_log_stream (log_stream s +:+ more) s);
}.

(** What a relation allows of the three other kinds of step. *)
Definition allows_emit (R : relation (St W)) (ev : Event) : Prop :=
  ∀ s, R s (with_trace (trace s ++ [ev]) s).
Definition allows_assign (R : relation (St W)) (f : CourseUpdate → CourseUpdate) : Prop :=
  ∀ s, R s (with_update (f (update s)) s).
Definition allows_write (R : relation (St W)) (f : CourseUpdate → Table → Table) : Prop :=
  ∀ s, R s (with_table (f (update s) (table s)) s).

Section Rules.
Variable R : relation (St W).
Context `{!Stable R}.

Lemma evolves_ret {A} (a : A) : evolves R (mret a).
Proof. intros s. reflexivity. Qed.

Lemma evolves_bind {A B} (m : M A) (f : A → M B) :
  evolves R m → (∀ a, evolves R (f a)) → evolves R (m ≫= f).
Proof.
  intros Hm Hf s. unfold mbind, M_bind. specialize (Hm s).
  destruct (m s) as [s' [a| |e]]; simpl in *; [|done|done].
  etrans; [done|]. apply Hf.
Qed.

Lemma evolves_return {A} : evolves R (@do_return (St W) A).
Proof. intros s. reflexivity. Qed.

Lemma evolves_raise {A} (e : Exn) : evolves R (@do_raise (St W) A e).
Proof. intros s. reflexivity. Qed.

Lemma evolves_catch {A} (m : M A) : evolves R m → evolves R (catch m).
Proof.
  intros Hm s. unfold catch. specialize (Hm s). by destruct (m s) as [s' [a| |e]].
Qed.

Lemma evolves_try (body : M unit) (handler : Exn → M unit) (orelse final : M unit) :
  evolves R body → (∀ e, evolves R (handler e)) → evolves R orelse → evolves R final →
  evolves R (try_except_else_finally body handler orelse final).
Proof.
  intros Hb Hh He Hf s. unfold try_except_else_finally.
  specialize (Hb s). destruct (body s) as [s' [[]| |e]]; simpl in Hb.
  - specialize (He s'). destruct (orelse s') as [s1 pending]. simpl in He.
    specialize (Hf s1). destruct (final s1) as [s2 [[]| |e]]; simpl in *;
      (etrans; [done|]); (etrans; [done|]); done.
  - specialize (Hf s'). destruct (final s') as [s2 [[]| |e]]; simpl in *;
      (etrans; [done|]); done.
  - specialize (Hh e s'). destruct (handler e s') as [s1 pending]. simpl in Hh.
    specialize (Hf s1). destruct (final s1) as [s2 [[]| |e']]; simpl in *;
      (etrans; [done|]); (etrans; [done|]); done.
Qed.

Lemma evolves_build_logger (msg : string) : evolves R (build_logger msg).
Proof. intros s. apply (Stable_log (msg +:+ Py.nl)). Qed.

Lemma evolves_call {A} (f : W → W * string * Outcome A) : evolves R (call f).
Proof.
  intros s. unfold call. destruct (f (world s)) as [[w out] r]. simpl.
  etrans; [apply (Stable_world w)|]. apply (Stable_log out (with_world w s)).
Qed.

Lemma evolves_get_world : evolves R get_world.
Proof. intros s. reflexivity. Qed.

Lemma evolves_getvalue : evolves R getvalue.
Proof. intros s. reflexivity. Qed.

Lemma evolves_get_update : evolves R get_update.
Proof. intros s. reflexivity. Qed.

Lemma evolves_query {A} (f : Table → A) : evolves R (query f).
Proof. intros s. reflexivity. Qed.

Lemma evolves_emit (ev : Event) : allows_emit R ev → evolves R (emit ev).
Proof. intros H s. apply H. Qed.

Lemma evolves_assign (f : CourseUpdate → CourseUpdate) :
  allows_assign R f → evolves R (assign f).
Proof. intros H s. apply H. Qed.

Lemma evolves_write_table (f : CourseUpdate → Table → Table) :
  allows_write R f → evolves R (write_table f).
Proof. intros H s. apply H. Qed.

Lemma evolves_build_logger_all (msgs : list string) : evolves R (build_logger_all msgs).
Proof.
  induction msgs as [|m msgs IH]; simpl.
  - apply evolves_ret.
  - apply evolves_bind; [apply evolves_build_logger|done].
Qed.

End Rules.

End Evolution.

(** One step of the proof that a block evolves by a relation: the rule
    of the outermost construct, or a case distinction on what a [match]
    inspects. *)
Ltac evolve_step :=
  lazymatch goal with
  | |- evolves _ (mbind _ _) => apply evolves_bind; [apply _| |intros ?]
  | |- evolves _ (mret _) => apply evolves_ret; apply _
  | |- evolves _ do_return => apply evolves_return; apply _
  | |- evolves _ (do_raise _) => apply evolves_raise; apply _
  | |- evolves _ (catch _) => apply evolves_catch
  | |- evolves _ (try_except_else_finally _ _ _ _) =>
      apply evolves_try; [apply _| |intros ?| |]
  | |- evolves _ (build_logger _) => apply evolves_build_logger; apply _
  | |- evolves _ (build_logger_all _) => apply evolves_build_logger_all; apply _
  | |- evolves _ (build_logger_exception _ _ _) => apply evolves_build_logger; apply _
  | |- evolves _ (call _) => apply evolves_call; apply _
  | |- evolves _ get_world => apply evolves_get_world; apply _
  | |- evolves _ getvalue => apply evolves_getvalue; apply _
  | |- evolves _ get_update => apply evolves_get_update; apply _
  | |- evolves _ (query _) => apply evolves_query; apply _
  | |- evolves _ (emit _) => apply evolves_emit
  | |- evolves _ (assign _) => apply evolves_assign
  | |- evolves _ (write_table _) => apply evolves_write_table
  | |- evolves _ (match ?x with _ => _ end) => destruct x
  | |- evolves _ (let (_, _) := ?x in _) => destruct x
  end.

Ltac evolve := repeat evolve_step.

(** The definitions of the stages, unfolded down to the steps. *)
Ltac unfold_pipeline :=
  unfold run_update, try_body, except_handler, else_block, terminal_handling, cleanup,
    git_stage, build_stage, load_config_stage, update_from_git, update_from_git_body,
    log_commit_metadata, log_progress_update, build, _get_version_id, notify_update,
    send_error_mail, store, is_self_contained.

Section Relations.
Context {W Config : Type}.
Variable X : Collaborators W Config.
Variable settings : Settings.

(** *** The run touches one row *)

(** The object in memory keeps its primary key and every other row of
    the table stays as it is. *)
Definition frame (s s' : St W) : Prop :=
  pk (update s') = pk (update s) ∧
  ∀ i, i ≠ pk (update s) → table s' !! i = table s !! i.

#[local] Instance frame_stable : Stable frame.
Proof.
  split.
  - split.
    + intros s. by split.
    + intros s1 s2 s3 [Hk1 Ht1] [Hk2 Ht2]. split; [congruence|].
      intros i Hi. rewrite Ht2, Ht1; [done|done|congruence].
  - intros w s. by split.
  - intros l s. by split.
Qed.

Lemma frame_emit (ev : Event) : allows_emit frame ev.
Proof. intros s. by split. Qed.

Lemma frame_assign (f : CourseUpdate → CourseUpdate) :
  (∀ u, pk (f u) = pk u) → allows_assign frame f.
Proof. intros Hf s. split; [apply Hf|done]. Qed.

Lemma frame_save : allows_write frame CourseUpdate_save.
Proof.
  intros s. split; [done|]. intros i Hi. simpl. unfold CourseUpdate_save.
  by rewrite lookup_insert_ne.
Qed.

Lemma frame_save_log : allows_write frame CourseUpdate_save_log.
Proof.
  intros s. split; [done|]. intros i Hi. simpl. unfold CourseUpdate_save_log.
  by rewrite lookup_alter_ne.
Qed.

Lemma frame_save_commit_hash : allows_write frame CourseUpdate_save_commit_hash.
Proof.
  intros s. split; [done|]. intros i Hi. simpl. unfold CourseUpdate_save_commit_hash.
  by rewrite lookup_alter_ne.
Qed.

Lemma run_update_frame (course : Course) (course_key : string)
    (skip_git skip_build skip_notify rebuild_all : bool)
    (build_image build_command : option string) :
  evolves frame
    (run_update X settings course course_key skip_git skip_build skip_notify rebuild_all
       build_image build_command).
Proof.
  unfold_pipeline. evolve;
    try first [ apply frame_emit | apply frame_save | apply frame_save_log
          | apply frame_save_commit_hash | by apply frame_assign ].
Qed.

(** *** The events a block adds *)

(** The trace grows by events that all satisfy [φ]. *)
Definition extends (φ : Event → Prop) (s s' : St W) : Prop :=
  ∃ evs, trace s' = trace s ++ evs ∧ Forall φ evs.

#[local] Instance extends_stable (φ : Event → Prop) : Stable (extends φ).
Proof.
  split.
  - split.
    + intros s. exists []. by rewrite app_nil_r.
    + intros s1 s2 s3 (e1 & H1 & F1) (e2 & H2 & F2). exists (e1 ++ e2).
      rewrite H2, H1, app_assoc. split; [done|]. by apply Forall_app.
  - intros w s. exists []. by rewrite app_nil_r.
  - intros l s. exists []. by rewrite app_nil_r.
Qed.

Lemma extends_emit (φ : Event → Prop) (ev : Event) : φ ev → allows_emit (extends φ) ev.
Proof. intros H s. exists [ev]. split; [done|]. by constructor. Qed.

Lemma extends_assign (φ : Event → Prop) (f : CourseUpdate → CourseUpdate) :
  allows_assign (extends φ) f.
Proof. intros s. exists []. by rewrite app_nil_r. Qed.

Lemma extends_write (φ : Event → Prop) (f : CourseUpdate → Table → Table) :
  allows_write (extends φ) f.
Proof. intros s. exists []. by rewrite app_nil_r. Qed.

(** *** The status of the update in memory *)

Definition same_status (s s' : St W) : Prop :=
  status (update s') = status (update s).

#[local] Instance same_status_stable : Stable same_status.
Proof.
  split.
  - split; [by intros s|]. intros s1 s2 s3. unfold same_status. congruence.
  - by intros w s.
  - by intros l s.
Qed.

Lemma same_status_emit (ev : Event) : allows_emit same_status ev.
Proof. by intros s. Qed.

Lemma same_status_assign (f : CourseUpdate → CourseUpdate) :
  (∀ u, status (f u) = status u) → allows_assign same_status f.
Proof. intros Hf s. apply Hf. Qed.

Lemma same_status_write (f : CourseUpdate → Table → Table) : allows_write same_status f.
Proof. by intros s. Qed.

(** *** Triples *)

(** From a state in [P], the block [m] falls through in [Q] or leaves by
    [return] or an exception in [I]. *)
Definition triple {A} (P : St W → Prop) (m : M (St W) A) (Q : A → St W → Prop)
    (I : St W → Prop) : Prop :=
  ∀ s, P s → match m s with
             | (s', Next a) => Q a s'
             | (s', _) => I s'
             end.

Lemma triple_bind {A B} (P : St W → Prop) (m : M (St W) A) (f : A → M (St W) B)
    (Q : A → St W → Prop) (Q' : B → St W → Prop) (I : St W → Prop) :
  triple P m Q I → (∀ a, triple (Q a) (f a) Q' I) → triple P (m ≫= f) Q' I.
Proof.
  intros Hm Hf s HP. unfold mbind, M_bind. specialize (Hm s HP).
  destruct (m s) as [s' [a| |e]]; [|done|done]. by apply Hf.
Qed.

Lemma triple_evolves {A} (R : relation (St W)) (P : St W → Prop) (m : M (St W) A)
    (Q : A → St W → Prop) (I : St W → Prop) :
  evolves R m →
  (∀ s s', P s → R s s' → (∀ a, Q a s') ∧ I s') →
  triple P m Q I.
Proof.
  intros Hm HR s HP. specialize (Hm s). destruct (HR s (m s).1 HP Hm) as [HQ HI].
  destruct (m s) as [s' [a| |e]]; simpl in *; auto.
Qed.



(** *** The changed files the build stage is given *)

Section Wildcard.
Variable course : Course.
Variable rebuild_all : bool.


















End Wildcard.


(** *** The way out of the run *)

(** The log only grows. *)
Definition grows (s s' : St W) : Prop :=
  ∃ more, log_stream s' = log_stream s +:+ more.

#[local] Instance grows_stable : Stable grows.
Proof.
  split.
  - split.
    + intros s. exists "". by rewrite append_nil_r.
    + intros s1 s2 s3 [m1 H1] [m2 H2]. exists (m1 +:+ m2).
      by rewrite H2, H1, append_assoc.
  - intros w s. exists "". simpl. by rewrite append_nil_r.
  - intros more s. by exists more.
Qed.

Lemma grows_emit (ev : Event) : allows_emit grows ev.
Proof. intros s. exists "". simpl. by rewrite append_nil_r. Qed.

Lemma grows_assign (f : CourseUpdate → CourseUpdate) : allows_assign grows f.
Proof. intros s. exists "". simpl. by rewrite append_nil_r. Qed.

Lemma grows_write (f : CourseUpdate → Table → Table) : allows_write grows f.
Proof. intros s. exists "". simpl. by rewrite append_nil_r. Qed.

(** Nothing but the world and the log changes. *)
Definition inert (s s' : St W) : Prop :=
  table s' = table s ∧ update s' = update s ∧ trace s' = trace s.

#[local] Instance inert_stable : Stable inert.
Proof.
  split.
  - split; [by intros s|]. intros s1 s2 s3 (?&?&?) (?&?&?). unfold inert. split_and!; congruence.
  - by intros w s.
  - by intros l s.
Qed.

(** The state in which the [finally] block starts, and how it was
    reached. *)
Lemma try_run (body : M (St W) unit) (handler : Exn → M (St W) unit)
    (orelse final : M (St W) unit) (s : St W) :
  ∃ s1 pending,
    ((∃ s', body s = (s', Next ()) ∧ orelse s' = (s1, pending))
     ∨ (body s = (s1, Return) ∧ pending = Return)
     ∨ (∃ s' e, body s = (s', Raise e) ∧ handler e s' = (s1, pending))) ∧
    (try_except_else_finally body handler orelse final s).1 = (final s1).1 ∧
    (try_except_else_finally body handler orelse final s).2
      = match (final s1).2 with Next _ => pending | r => r end.
Proof.
  unfold try_except_else_finally.
  destruct (body s) as [s' [[]| |e]] eqn:Hb.
  - destruct (orelse s') as [s1 pending] eqn:Ho. exists s1, pending.
    split; [left; eauto|]. by destruct (final s1) as [s2 [[]| |e]].
  - exists s', Return. split; [right; left; eauto|].
    by destruct (final s') as [s2 [[]| |e]].
  - destruct (handler e s') as [s1 pending] eqn:Hh. exists s1, pending.
    split; [right; right; eauto|]. by destruct (final s1) as [s2 [[]| |e']].
Qed.

#[local] Abbreviation mail_events := (mail_events X settings).

Lemma send_error_mail_run (course : Course) (subject message : string) (s : St W) :
  ∃ s' b,
    send_error_mail X settings course subject message s = (s', Next b) ∧
    table s' = table s ∧ update s' = update s ∧
    trace s' = trace s ++ mail_events course subject message ∧
    grows s s'.
Proof.
  assert (Hg : grows s (send_error_mail X settings course subject message s).1).
  { revert s. change (evolves grows (send_error_mail X settings course subject message)).
    unfold send_error_mail. evolve; apply grows_emit. }
  revert Hg. unfold send_error_mail, mail_events, mbind, M_bind, emit, catch, call,
    build_logger_exception, build_logger, mret, M_ret. simpl.
  destruct (remote_id course) as [rid|]; simpl.
  - destruct (post X _ _ (world s)) as [[w out] [response|e]]; simpl.
    + destruct (negb _ || _); simpl; intros Hg; eexists _, _;
        (split; [done|]); rewrite <- ?app_assoc; done.
    + intros Hg; eexists _, _; (split; [done|]); rewrite <- ?app_assoc; done.
  - intros Hg; eexists _, _; (split; [done|]); done.
Qed.

(** The status the [finally] block leaves. *)
Definition final_status (u : CourseUpdate) : Status :=
  if bool_decide (status u ≠ SUCCESS) then FAILED else SUCCESS.

Lemma terminal_handling_run (course : Course) (course_key : string) (s : St W) :
  ∃ s1,
    terminal_handling X settings course course_key s = (s1, Next ()) ∧
    update s1 = set_updated_time (Some (now X (world s1)))
                  (set_log (Some (log_stream s1)) (set_status (final_status (update s)) (update s))) ∧
    table s1 = <[pk (update s) := update s1]> (table s) ∧
    trace s1 = trace s ++
      (if bool_decide (status (update s) ≠ SUCCESS) && email_on_error course
       then mail_events course ("Course " +:+ course_key +:+ " build failed") (log_stream s)
       else []) ∧
    grows s s1.
Proof.
  unfold terminal_handling, final_status.
  unfold mbind at 1, M_bind at 1, get_update at 1.
  unfold mbind at 1, M_bind at 1.
  destruct (bool_decide (status (update s) ≠ SUCCESS)) eqn:Hst; simpl.
  - destruct (email_on_error course); simpl.
    + unfold mbind at 1, M_bind at 1, assign at 1.
      unfold mbind at 1, M_bind at 1, getvalue at 1.
      unfold mbind at 1, M_bind at 1.
      destruct (send_error_mail_run course ("Course " +:+ course_key +:+ " build failed")
                  (log_stream s) (with_update (set_status FAILED (update s)) s))
        as (s' & b & Hrun & Ht & Hu & Htr & Hg).
      cbn [log_stream with_update]. rewrite Hrun.
      unfold mbind, M_bind, mret, M_ret, getvalue, assign, get_world, write_table. simpl.
      eexists. split; [done|]. simpl. rewrite Hu, Ht, Htr. simpl.
      split; [done|]. split; [done|]. split; [done|]. exact Hg.
    + unfold mbind, M_bind, mret, M_ret, getvalue, assign, get_world, write_table. simpl.
      eexists. split; [done|]. simpl. rewrite app_nil_r.
      split; [done|]. split; [done|]. split; [done|]. exists "". by rewrite append_nil_r.
  - unfold mbind, M_bind, mret, M_ret, getvalue, assign, get_world, write_table. simpl.
    apply bool_decide_eq_false in Hst. apply dec_stable in Hst.
    eexists. split; [done|]. simpl. rewrite app_nil_r.
    split.
    { destruct (update s). simpl in *. by subst. }
    split; [done|]. split; [done|]. exists "". by rewrite append_nil_r.
Qed.

Lemma cleanup_run (course : Course) (build_path : string) (s : St W) :
  let s2 := (cleanup X course build_path s).1 in
  update s2 = set_log (Some (log_stream s2)) (update s) ∧
  table s2 = alter (set_log (Some (log_stream s2))) (pk (update s)) (table s) ∧
  trace s2 = trace s ∧
  grows s s2.
Proof.
  cbn zeta. unfold cleanup.
  match goal with
  | |- context [try_except_else_finally ?b ?h ?o ?f] =>
      destruct (try_run b h o f s) as (s1 & pending & Hhow & -> & _);
      assert (Hb : evolves inert b ∧ evolves grows b) by (split; evolve);
      assert (Hh : ∀ e, evolves inert (h e) ∧ evolves grows (h e)) by (intros e; split; evolve)
  end.
  assert (H1 : inert s s1 ∧ grows s s1).
  { destruct Hhow as [(s' & Hbody & Ho)|[[Hbody _]|(s' & e & Hbody & Hhandler)]].
    - injection Ho as <- _. destruct Hb as [Hi Hg].
      specialize (Hi s). specialize (Hg s). by rewrite Hbody in Hi, Hg.
    - destruct Hb as [Hi Hg]. specialize (Hi s). specialize (Hg s). by rewrite Hbody in Hi, Hg.
    - destruct Hb as [Hi Hg]. specialize (Hi s). specialize (Hg s). rewrite Hbody in Hi, Hg.
      destruct (Hh e) as [Hi' Hg']. specialize (Hi' s'). specialize (Hg' s').
      rewrite Hhandler in Hi', Hg'. simpl in *. split; etrans; done. }
  destruct H1 as [(Ht & Hu & Htr) Hg].
  unfold mbind, M_bind, build_logger, get_world, getvalue, assign, write_table. simpl.
  rewrite Hu, Ht, Htr. unfold CourseUpdate_save_log. simpl.
  split; [done|]. split; [done|]. split; [done|].
  etrans; [exact Hg|]. eexists. simpl. rewrite append_assoc. done.
Qed.

Lemma status_keep {A} (m : M (St W) A) (st : Status) :
  evolves same_status m →
  triple (λ s, status (update s) = st) m (λ _ s, status (update s) = st)
    (λ s, status (update s) = st).
Proof.
  intros Hm. apply (triple_evolves same_status); [done|].
  intros s s' Hs Hss. unfold same_status in Hss. split; [intros _|]; congruence.
Qed.

Ltac keeps_status :=
  unfold_pipeline; evolve;
  first [ apply same_status_emit | apply same_status_write | by apply same_status_assign ].

Ltac status_step :=
  lazymatch goal with
  | |- triple _ (assign (set_status SUCCESS)) _ _ => intros ? _; reflexivity
  | |- triple _ (mbind _ _) _ _ =>
      eapply (triple_bind _ _ _ (λ _ s, status (update s) = RUNNING));
      [apply status_keep; keeps_status|intros ?]
  | |- triple _ do_return _ _ => intros ? Hs; exact Hs
  | |- triple _ (match ?x with _ => _ end) _ _ => destruct x
  end.

(** The body of the [try] ends with the status SUCCESS when it falls
    through, and with RUNNING when it returns or raises. *)
Lemma try_body_status (course : Course) (course_key : string)
    (skip_git skip_build rebuild_all : bool) (image command : option string) :
  triple (λ _, True)
    (try_body X settings course course_key skip_git skip_build rebuild_all image command)
    (λ _ s, status (update s) = SUCCESS) (λ s, status (update s) = RUNNING).
Proof.
  unfold try_body. cbn zeta.
  eapply (triple_bind _ _ _ (λ _ s, status (update s) = RUNNING)); [by intros s _|intros ?].
  repeat status_step.
Qed.

(** An event other than the mail of a failed build with this subject. *)
Definition not_failure_mail (subject : string) (ev : Event) : Prop :=
  match ev with
  | Called_send_error_mail sub _ => sub ≠ subject
  | _ => True
  end.

Ltac no_mail :=
  unfold_pipeline; evolve;
  first [ apply extends_emit; reflexivity | apply extends_assign | apply extends_write ].

Ltac no_failure_mail :=
  unfold_pipeline; evolve;
  first [ apply extends_emit; simpl; first [exact I | discriminate]
        | apply extends_assign | apply extends_write ].

(** The state [s1] in which the [finally] block of a run starts, and the
    state the run ends in. *)
Lemma run_update_terminal (course : Course) (course_key : string)
    (skip_git skip_build skip_notify rebuild_all : bool)
    (image command : option string) (s : St W) :
  let s2 := (run_update X settings course course_key skip_git skip_build skip_notify
               rebuild_all image command s).1 in
  let subject := "Course " +:+ course_key +:+ " build failed" in
  ∃ s1 w,
    (status (update s1) = SUCCESS ∧ extends (not_failure_mail subject) s s1
     ∨ status (update s1) = RUNNING ∧ extends (λ ev, is_mail ev = false) s s1) ∧
    table s2 !! pk (update s) = Some (update s2) ∧
    status (update s2) = final_status (update s1) ∧
    log (update s2) = Some (log_stream s2) ∧
    updated_time (update s2) = Some (now X w) ∧
    trace s2 = trace s1 ++
      (if bool_decide (status (update s1) ≠ SUCCESS) && email_on_error course
       then mail_events course subject (log_stream s1)
       else []) ∧
    grows s1 s2.
Proof.
  cbn zeta. unfold run_update.
  match goal with
  | |- context [try_except_else_finally ?b ?h ?o ?f] =>
      destruct (try_run b h o f s) as (s1 & pending & Hhow & -> & _)
  end.
  assert (Hframe : pk (update s1) = pk (update s)).
  { assert (Hb : evolves frame (try_body X settings course course_key skip_git skip_build
                                  rebuild_all image command))
      by (unfold_pipeline; evolve;
          first [ apply frame_emit | apply frame_save | apply frame_save_log
                | apply frame_save_commit_hash | by apply frame_assign ]).
    assert (Hh : ∀ e, evolves frame (except_handler X e))
      by (intros e; unfold_pipeline; evolve).
    assert (Ho : evolves frame (else_block X settings course skip_notify))
      by (unfold_pipeline; evolve; apply frame_emit).
    specialize (Hb s).
    destruct Hhow as [(s' & Hbody & Helse)|[[Hbody _]|(s' & e & Hbody & Hhandler)]];
      rewrite Hbody in Hb; simpl in Hb.
    - specialize (Ho s'). rewrite Helse in Ho. simpl in Ho.
      destruct Hb as [Hb _]. destruct Ho as [Ho _]. congruence.
    - by destruct Hb as [Hb _].
    - specialize (Hh e s'). rewrite Hhandler in Hh. simpl in Hh.
      destruct Hb as [Hb _]. destruct Hh as [Hh _]. congruence. }
  assert (Hs1 : status (update s1) = SUCCESS ∧
                  extends (not_failure_mail ("Course " +:+ course_key +:+ " build failed")) s s1
                ∨ status (update s1) = RUNNING ∧ extends (λ ev, is_mail ev = false) s s1).
  { pose proof (try_body_status course course_key skip_git skip_build rebuild_all image command
                  s I) as Hst.
    destruct Hhow as [(s' & Hbody & Helse)|[[Hbody _]|(s' & e & Hbody & Hhandler)]];
      rewrite Hbody in Hst.
    - left.
      assert (Ho : evolves same_status (else_block X settings course skip_notify))
        by keeps_status.
      assert (Hb' : evolves (extends (not_failure_mail ("Course " +:+ course_key +:+ " build failed")))
                      (try_body X settings course course_key skip_git skip_build
                         rebuild_all image command)) by no_failure_mail.
      assert (Ho' : evolves (extends (not_failure_mail ("Course " +:+ course_key +:+ " build failed")))
                      (else_block X settings course skip_notify)) by no_failure_mail.
      specialize (Ho s'). specialize (Hb' s). specialize (Ho' s').
      rewrite Helse in Ho, Ho'. rewrite Hbody in Hb'. simpl in *.
      split; [unfold same_status in Ho; congruence|]. etrans; done.
    - right. split; [done|].
      assert (Hb' : evolves (extends (λ ev, is_mail ev = false))
                      (try_body X settings course course_key skip_git skip_build
                         rebuild_all image command)) by no_mail.
      specialize (Hb' s). by rewrite Hbody in Hb'.
    - right.
      assert (Hh : evolves same_status (except_handler X e)) by keeps_status.
      assert (Hb' : evolves (extends (λ ev, is_mail ev = false))
                      (try_body X settings course course_key skip_git skip_build
                         rebuild_all image command)) by no_mail.
      assert (Hh' : evolves (extends (λ ev, is_mail ev = false)) (except_handler X e))
        by no_mail.
      specialize (Hh s'). specialize (Hb' s). specialize (Hh' s').
      rewrite Hhandler in Hh, Hh'. rewrite Hbody in Hb'. simpl in *.
      split; [unfold same_status in Hh; congruence|]. etrans; done. }
  destruct (terminal_handling_run course course_key s1) as (s1' & Hth & Hu1 & Ht1 & Htr1 & Hg1).
  unfold mbind, M_bind. rewrite Hth.
  match goal with
  | |- context [cleanup X course ?bp s1'] =>
      pose proof (cleanup_run course bp s1') as Hc; cbn zeta in Hc;
      destruct (cleanup X course bp s1') as [s2 r]
  end.
  simpl in Hc |- *. destruct Hc as (Hu2 & Ht2 & Htr2 & Hg2).
  exists s1, (world s1'). split; [exact Hs1|].
  assert (Hk : pk (update s1') = pk (update s)) by (rewrite Hu1; simpl; done).
  split.
  { rewrite Ht2, Hk, Ht1, Hframe, lookup_alter_eq, lookup_insert_eq. simpl. by rewrite Hu2. }
  rewrite Hu2, Hu1, Htr2, Htr1. simpl.
  split; [done|]. split; [done|]. split; [done|]. split; [done|]. etrans; done.
Qed.




(** *** The notification of the frontend *)

Lemma build_logger_run (msg : string) (s : St W) :
  build_logger msg s = (with_log_stream (log_stream s +:+ msg +:+ Py.nl) s, Next ()).
Proof. done. Qed.

(** [notify_update] as the model has it ends by falling through; it
    posts one request, and then calls [send_error_mail] or not. *)
Lemma notify_update_run (course : Course) (s : St W) :
  let url := urljoin X (FRONTEND_URL settings)
               ("api/v2/courses/" +:+ Py.str_opt_int (remote_id course) +:+ "/notify_update/") in
  let data := [("email_on_error", if email_on_error course then "True" else "False")] in
  ∃ s' mails,
    notify_update X settings course s = (s', Next ()) ∧
    table s' = table s ∧ update s' = update s ∧
    trace s' = trace s ++ Called_notify_update :: Post url data :: mails ∧
    (mails = [] ∨
     email_on_error course = true ∧
     ∃ message, mails = mail_events course ("Failed to notify update of " +:+ key course) message).
Proof.
  cbn zeta. unfold notify_update.
  unfold mbind at 1, M_bind at 1, emit at 1.
  unfold mbind at 1, M_bind at 1, catch at 1.
  unfold mbind at 1, M_bind at 1, emit at 1.
  unfold call at 1. cbn [world with_trace with_log_stream with_world].
  set (url := urljoin X _ _). set (data := [(_, _)]).
  destruct (post X url data (world s)) as [[w out] r].
  set (s0 := with_log_stream _ _).
  assert (Hs0 : table s0 = table s ∧ update s0 = update s
                ∧ trace s0 = trace s ++ [Called_notify_update; Post url data]).
  { unfold s0. simpl. by rewrite <- app_assoc. }
  destruct Hs0 as (Ht0 & Hu0 & Htr0).
  assert (Hend : ∀ (success : bool) (errors : list string) s0',
    s0' = s0 →
    ∃ s' mails,
      (let errorstr := Py.join Py.nl errors in
       if success && negb (Py.truthy errorstr) then build_logger "Success."
       else if success && Py.truthy errorstr
       then build_logger "Success with warnings:";; build_logger errorstr
       else
         build_logger "Failed:";;
         build_logger errorstr;;
         if email_on_error course
         then send_error_mail X settings course
                ("Failed to notify update of " +:+ key course)
                ("Build succeeded but notifying the frontend of the update failed:"
                   +:+ Py.nl +:+ errorstr);;
              mret ()
         else mret ()) s0' = (s', Next ()) ∧
      table s' = table s ∧ update s' = update s ∧
      trace s' = trace s ++ Called_notify_update :: Post url data :: mails ∧
      (mails = [] ∨
       email_on_error course = true ∧
       ∃ message, mails = mail_events course ("Failed to notify update of " +:+ key course) message)).
  { intros success errors s0' ->. cbn zeta.
    destruct (success && negb _).
    { eexists _, []. split; [done|]. cbn [table update trace with_log_stream]. eauto. }
    destruct (success && _).
    { eexists _, []. split; [done|]. cbn [table update trace with_log_stream]. eauto. }
    unfold mbind at 1, M_bind at 1. rewrite build_logger_run.
    unfold mbind at 1, M_bind at 1. rewrite build_logger_run.
    destruct (email_on_error course).
    - unfold mbind, M_bind.
      match goal with
      | |- context [send_error_mail X settings course ?sub ?msg ?st] =>
          destruct (send_error_mail_run course sub msg st) as (s' & b & Hrun & Ht & Hu & Htr & _)
      end.
      rewrite Hrun. eexists _, _. split; [done|].
      rewrite Ht, Hu, Htr. cbn [table update trace with_log_stream].
      rewrite Ht0, Hu0, Htr0, <- app_assoc.
      split; [done|]. split; [done|]. split; [done|]. right. eauto.
    - eexists _, []. split; [done|]. cbn [table update trace with_log_stream]. eauto. }
  destruct r as [response|e]; cbn [fst snd].
  - destruct (negb (bool_decide (status_code response = 200%Z))); [by apply Hend|].
    destruct (json_loads_notify X (text response)) as [[success errors]|]; by apply Hend.
  - by apply Hend.
Qed.


(** *** What the blocks of the run are and are not reached with *)

(** [cleanup] swallows what its body raises. *)
Lemma cleanup_flow (course : Course) (build_path : string) (s : St W) :
  (cleanup X course build_path s).2 = Next () ∨ (cleanup X course build_path s).2 = Return.
Proof.
  unfold cleanup.
  match goal with
  | |- context [try_except_else_finally ?b ?h ?o ?f] =>
      destruct (try_run b h o f s) as (s1 & pending & Hhow & _ & ->)
  end.
  unfold mbind at 1 3, M_bind at 1 3. rewrite build_logger_run.
  unfold mbind, M_bind, get_world, build_logger, getvalue, assign, write_table. cbn [snd].
  destruct Hhow as [(s' & Hbody & [= _ <-])|[[_ ->]|(s' & e & _ & Hhandler)]];
    [by left|by right|].
  revert Hhandler. unfold mbind, M_bind. rewrite !build_logger_run. intros [= _ <-]. by left.
Qed.

(** The three ways to the [finally] block of a run, the state [s1] in
    which that block starts and the state [s2] in which the run ends. *)
Lemma run_update_run (course : Course) (course_key : string)
    (skip_git skip_build skip_notify rebuild_all : bool)
    (image command : option string) (s : St W) :
  let body := try_body X settings course course_key skip_git skip_build rebuild_all
                image command in
  let r := run_update X settings course course_key skip_git skip_build skip_notify
             rebuild_all image command s in
  ∃ s1,
    ((∃ s', body s = (s', Next ()) ∧ (else_block X settings course skip_notify s').1 = s1
            ∧ status (update s1) = SUCCESS)
     ∨ (body s = (s1, Return) ∧ status (update s1) = RUNNING)
     ∨ (∃ s' e, body s = (s', Raise e) ∧ (except_handler X e s').1 = s1
                ∧ status (update s1) = RUNNING)) ∧
    table r.1 !! pk (update s) = Some (update r.1) ∧
    status (update r.1) = final_status (update s1) ∧
    trace r.1 = trace s1 ++
      (if bool_decide (status (update s1) ≠ SUCCESS) && email_on_error course
       then mail_events course ("Course " +:+ course_key +:+ " build failed") (log_stream s1)
       else []) ∧
    grows s1 r.1 ∧
    (r.2 = Next () ∨ r.2 = Return).
Proof.
  cbn zeta. unfold run_update.
  match goal with
  | |- context [try_except_else_finally ?b ?h ?o ?f] =>
      destruct (try_run b h o f s) as (s1 & pending & Hhow & -> & ->)
  end.
  pose proof (try_body_status course course_key skip_git skip_build rebuild_all image command
                s I) as Hst.
  assert (Hb : evolves frame (try_body X settings course course_key skip_git skip_build
                                rebuild_all image command))
    by (unfold_pipeline; evolve;
        first [ apply frame_emit | apply frame_save | apply frame_save_log
              | apply frame_save_commit_hash | by apply frame_assign ]).
  assert (Hh : ∀ e, evolves frame (except_handler X e) ∧ evolves same_status (except_handler X e)).
  { intros e; split; [unfold_pipeline; evolve|keeps_status]. }
  assert (Ho : evolves frame (else_block X settings course skip_notify)
               ∧ evolves same_status (else_block X settings course skip_notify)).
  { split; [unfold_pipeline; evolve; apply frame_emit|keeps_status]. }
  assert (Hpending : pending = Next () ∨ pending = Return).
  { destruct Hhow as [(s' & Hbody & Helse)|[[Hbody ->]|(s' & e & Hbody & Hhandler)]];
      [|by right|].
    - revert Helse. unfold else_block.
      destruct (negb (update_automatically course)); [intros [= _ <-]; by left|].
      destruct (remote_id course); [|intros [= _ <-]; by left].
      destruct skip_notify; [intros [= _ <-]; by left|].
      destruct (FRONTEND_URL settings); [|intros [= _ <-]; by left].
      unfold mbind, M_bind. rewrite build_logger_run.
      match goal with
      | |- context [notify_update X settings course ?st] =>
          destruct (notify_update_run course st) as (s2 & mails & -> & _)
      end.
      intros [= _ <-]. by left.
    - revert Hhandler. unfold except_handler, mbind, M_bind. rewrite !build_logger_run.
      intros [= _ <-]. by left. }
  exists s1.
  specialize (Hb s).
  assert (Hway : ((∃ s', try_body X settings course course_key skip_git skip_build rebuild_all
                          image command s = (s', Next ())
                        ∧ (else_block X settings course skip_notify s').1 = s1
                        ∧ status (update s1) = SUCCESS)
                  ∨ (try_body X settings course course_key skip_git skip_build rebuild_all
                       image command s = (s1, Return) ∧ status (update s1) = RUNNING)
                  ∨ (∃ s' e, try_body X settings course course_key skip_git skip_build
                               rebuild_all image command s = (s', Raise e)
                             ∧ (except_handler X e s').1 = s1
                             ∧ status (update s1) = RUNNING))
                 ∧ pk (update s1) = pk (update s)).
  { destruct Hhow as [(s' & Hbody & Helse)|[[Hbody _]|(s' & e & Hbody & Hhandler)]];
      rewrite Hbody in Hst, Hb; simpl in Hb.
    - destruct Ho as [Ho Ho']. specialize (Ho s'). specialize (Ho' s').
      rewrite Helse in Ho, Ho'. cbn [fst] in *. unfold same_status in Ho'.
      split; [|destruct Hb, Ho; congruence].
      left. exists s'. rewrite Helse. split; [done|]. split; [done|congruence].
    - split; [|by destruct Hb]. right; left. done.
    - destruct (Hh e) as [Hh1 Hh2]. specialize (Hh1 s'). specialize (Hh2 s').
      rewrite Hhandler in Hh1, Hh2. cbn [fst] in *. unfold same_status in Hh2.
      split; [|destruct Hb, Hh1; congruence].
      right; right. exists s', e. rewrite Hhandler. split; [done|]. split; [done|congruence]. }
  destruct Hway as [Hway Hframe]. split; [exact Hway|].
  destruct (terminal_handling_run course course_key s1) as (s1' & Hth & Hu1 & Ht1 & Htr1 & Hg1).
  unfold mbind, M_bind. rewrite Hth.
  match goal with
  | |- context [cleanup X course ?bp s1'] =>
      pose proof (cleanup_run course bp s1') as Hc; cbn zeta in Hc;
      destruct (cleanup X course bp s1') as [s2 r] eqn:Hcl
  end.
  simpl in Hc |- *. destruct Hc as (Hu2 & Ht2 & Htr2 & Hg2).
  assert (Hk : pk (update s1') = pk (update s)) by (rewrite Hu1; simpl; done).
  split.
  { rewrite Ht2, Hk, Ht1, Hframe, lookup_alter_eq, lookup_insert_eq. simpl. by rewrite Hu2. }
  rewrite Hu2, Hu1, Htr2, Htr1. simpl.
  split; [done|]. split; [done|]. split; [etrans; done|].
  destruct (cleanup_flow course
              (path_to X course_key (if skip_build_failsafes course then PUBLISH else BUILD)) s1')
    as [Hr|Hr]; rewrite Hcl in Hr; cbn [snd] in Hr; subst r; [done|by right].
Qed.

(** *** The error mail and the notification, as functions *)

(** [send_error_mail] never raises, whatever the request does; it
    answers [True] exactly when the course has a remote id and the
    frontend has answered the request with the status 200 and an empty
    body. *)
Theorem send_error_mail_result (course : Course) (subject message : string) (s : St W) :
  ∃ s' b,
    send_error_mail X settings course subject message s = (s', Next b) ∧
    (b = true ↔
     ∃ rid w out response,
       remote_id course = Some rid ∧
       post X (urljoin X (FRONTEND_URL settings)
                 ("api/v2/courses/" +:+ pretty rid +:+ "/send_mail/"))
         [("subject", subject); ("message", message)] (world s) = (w, out, Ok response) ∧
       status_code response = 200%Z ∧ text response = "").
Proof.
  unfold send_error_mail, mbind, M_bind, emit, catch, call, build_logger_exception,
    build_logger, mret, M_ret. simpl.
  destruct (remote_id course) as [rid|]; simpl.
  2:{ eexists _, _. split; [done|]. split; [done|]. by intros (? & ? & ? & ? & ? & _). }
  destruct (post X _ _ (world s)) as [[w out] [response|e]] eqn:Hpost; simpl.
  2:{ eexists _, _. split; [done|]. split; [done|].
      intros (rid' & w' & out' & response & [= <-] & Hp & _). congruence. }
  destruct (negb (bool_decide (status_code response = 200%Z)) || Py.truthy (text response))
    eqn:Hbad; simpl.
  - eexists _, _. split; [done|]. split; [done|].
    intros (rid' & w' & out' & response' & [= <-] & Hp & Hcode & Htext).
    assert (response' = response) as -> by congruence.
    rewrite Htext, bool_decide_eq_true_2 in Hbad by done. done.
  - eexists _, _. split; [done|]. split; [|done]. intros _.
    apply orb_false_iff in Hbad as [Hcode Htext].
    apply negb_false_iff, bool_decide_eq_true in Hcode.
    exists rid, w, out, response. split; [done|]. split; [done|]. split; [done|].
    by destruct (text response).
Qed.

(** When the request that notifies the frontend raises, or is answered
    with another status than 200, [notify_update] does not raise: it
    logs the failure with the text of the exception or the reason of the
    response and, for a course with [email_on_error], sends the error
    mail that carries it. *)
Theorem notify_update_failure (course : Course) (s : St W) (w : W) (out error : string)
    (r : Outcome Response) :
  let url := urljoin X (FRONTEND_URL settings)
               ("api/v2/courses/" +:+ Py.str_opt_int (remote_id course) +:+ "/notify_update/") in
  let data := [("email_on_error", if email_on_error course then "True" else "False")] in
  post X url data (world s) = (w, out, r) →
  (∃ e, r = Fail e ∧ error = Exn_str e)
  ∨ (∃ response, r = Ok response ∧ status_code response ≠ 200%Z ∧ error = reason response) →
  ∃ s' more,
    notify_update X settings course s = (s', Next ()) ∧
    log_stream s' = log_stream s +:+ out +:+ "Failed:" +:+ Py.nl +:+ error +:+ Py.nl +:+ more ∧
    trace s' = trace s ++ Called_notify_update :: Post url data ::
      (if email_on_error course
       then mail_events course ("Failed to notify update of " +:+ key course)
              ("Build succeeded but notifying the frontend of the update failed:"
                 +:+ Py.nl +:+ error)
       else []).
Proof.
  intros url data Hpost Hr. unfold notify_update.
  unfold mbind at 1, M_bind at 1, emit at 1.
  unfold mbind at 1, M_bind at 1, catch at 1.
  unfold mbind at 1, M_bind at 1, emit at 1.
  unfold call at 1. cbn [world with_trace with_log_stream with_world].
  fold url data. rewrite Hpost.
  set (s0 := with_log_stream _ _).
  assert (Hs0 : trace s0 = trace s ++ [Called_notify_update; Post url data]
                ∧ log_stream s0 = log_stream s +:+ out).
  { unfold s0. simpl. by rewrite <- app_assoc. }
  destruct Hs0 as [Htr0 Hlog0].
  assert (Hend :
    ∃ s' more,
      (let errorstr := Py.join Py.nl [error] in
       if false && negb (Py.truthy errorstr) then build_logger "Success."
       else if false && Py.truthy errorstr
       then build_logger "Success with warnings:";; build_logger errorstr
       else
         build_logger "Failed:";;
         build_logger errorstr;;
         if email_on_error course
         then send_error_mail X settings course
                ("Failed to notify update of " +:+ key course)
                ("Build succeeded but notifying the frontend of the update failed:"
                   +:+ Py.nl +:+ errorstr);;
              mret ()
         else mret ()) s0 = (s', Next ()) ∧
      log_stream s' = log_stream s +:+ out +:+ "Failed:" +:+ Py.nl +:+ error +:+ Py.nl +:+ more ∧
      trace s' = trace s ++ Called_notify_update :: Post url data ::
        (if email_on_error course
         then mail_events course ("Failed to notify update of " +:+ key course)
                ("Build succeeded but notifying the frontend of the update failed:"
                   +:+ Py.nl +:+ error)
         else [])).
  { cbn zeta. cbn [andb]. change (Py.join Py.nl [error]) with error.
    unfold mbind at 1, M_bind at 1. rewrite build_logger_run.
    unfold mbind at 1, M_bind at 1. rewrite build_logger_run.
    destruct (email_on_error course).
    - unfold mbind, M_bind.
      match goal with
      | |- context [send_error_mail X settings course ?sub ?msg ?st] =>
          destruct (send_error_mail_run course sub msg st)
            as (s' & b & Hrun & _ & _ & Htr & [more Hg])
      end.
      rewrite Hrun. exists s', more. split; [done|].
      rewrite Hg, Htr. cbn [trace log_stream with_log_stream]. rewrite Htr0, Hlog0, <- app_assoc.
      split; [|done]. by rewrite !append_assoc.
    - eexists _, "". split; [done|]. cbn [trace log_stream with_log_stream].
      rewrite Htr0, Hlog0. split; [|done]. by rewrite !append_assoc, append_nil_r. }
  destruct Hr as [(e & -> & ->)|(response & -> & Hcode & ->)]; cbn [fst snd].
  - exact Hend.
  - rewrite bool_decide_eq_false_2 by done. exact Hend.
Qed.


(** *** The run as a whole *)

(** The state in which the run of the selected update starts. *)
Definition start (course : Course) (w : W) (t : Table) (u : CourseUpdate) : St W :=
  {| world := w;
     table := skip_updates (pending_updates course (prune course t)) (prune course t);
     update := u; log_stream := ""; trace := [] |}.

Lemma build_course_run (courses : list Course) (course_key : string)
    (skip_git skip_build skip_notify rebuild_all : bool)
    (image command : option string) (w : W) (t : Table) (course : Course) (u : CourseUpdate) :
  List.find (λ c, bool_decide (key c = course_key)) courses = Some course →
  last (pending_updates course (prune course t)) = Some u →
  let r := run_update X settings course course_key skip_git skip_build skip_notify rebuild_all
             image command (start course w t u) in
  build_course X settings courses course_key skip_git skip_build skip_notify rebuild_all
    image command w t
  = {| final_world := world r.1; final_table := table r.1; final_log := log_stream r.1;
       final_trace := trace r.1;
       final_flow := match r.2 with Next _ => Return | f => f end |}.
Proof.
  intros Hfind Hlast. cbn zeta. unfold build_course. rewrite Hfind, Hlast.
  unfold start.
  by destruct (run_update X settings course course_key skip_git skip_build skip_notify
                 rebuild_all image command _) as [s [[]| |e]].
Qed.

(** The events of a call of [build_course] are those of the run of the
    selected update. *)
Lemma build_course_events (φ : Event → Prop) (courses : list Course) (course_key : string)
    (skip_git skip_build skip_notify rebuild_all : bool)
    (image command : option string) (w : W) (t : Table) :
  (∀ course, List.find (λ c, bool_decide (key c = course_key)) courses = Some course →
     evolves (extends φ)
       (run_update X settings course course_key skip_git skip_build skip_notify rebuild_all
          image command)) →
  ∀ ev, ev ∈ final_trace (build_course X settings courses course_key skip_git skip_build
                            skip_notify rebuild_all image command w t) → φ ev.
Proof.
  intros Hrun ev. unfold build_course.
  destruct (List.find _ courses) as [course|]; [|by intros ?%elem_of_nil].
  destruct (last _) as [u|]; [|by intros ?%elem_of_nil].
  specialize (Hrun course eq_refl).
  match goal with
  | |- context [run_update X settings course course_key skip_git skip_build skip_notify
                  rebuild_all image command ?s0] => specialize (Hrun s0); set (st := s0) in *
  end.
  destruct (run_update _ _ _ _ _ _ _ _ _ _ _) as [s r]. cbn [fst final_trace] in *.
  destruct Hrun as (evs & Htr & Hall). rewrite Htr. cbn [trace st app].
  rewrite Forall_forall in Hall. apply Hall.
Qed.

Ltac avoids :=
  unfold_pipeline; evolve;
  first [ apply extends_emit; simpl; by intros | apply extends_assign | apply extends_write ].

Lemma skipped_stages_not_run (courses : list Course) (course_key : string)
    (skip_git skip_build skip_notify rebuild_all : bool)
    (image command : option string) (w : W) (t : Table) :
  let run :=
    build_course X settings courses course_key skip_git skip_build skip_notify rebuild_all
      image command w t in
  (skip_git = true → ∀ ok changed, Returned_update_from_git ok changed ∉ final_trace run) ∧
  (skip_build = true →
   (∀ i c changed, Called_build i c changed ∉ final_trace run)
   ∧ (∀ i c env, Execute i c env ∉ final_trace run)) ∧
  (skip_notify = true → Called_notify_update ∉ final_trace run) ∧
  (∀ course, List.find (λ c, bool_decide (key c = course_key)) courses = Some course →
             skip_build_failsafes course = true → Called_store ∉ final_trace run).
Proof.
  cbn zeta. split; [|split; [|split]].
  - intros -> ok changed Hin.
    assert (Hnone : ∀ ev, ev ∈ final_trace
                            (build_course X settings courses course_key true skip_build
                               skip_notify rebuild_all image command w t) →
                          match ev with Returned_update_from_git _ _ => False | _ => True end).
    { apply build_course_events. intros course _. avoids. }
    apply (Hnone _ Hin).
  - intros ->.
    assert (Hnone : ∀ ev, ev ∈ final_trace
                            (build_course X settings courses course_key skip_git true
                               skip_notify rebuild_all image command w t) →
                          match ev with Called_build _ _ _ | Execute _ _ _ => False | _ => True end).
    { apply build_course_events. intros course _.
      unfold run_update, try_body, build_stage. cbn [negb]. avoids. }
    split; intros ??? Hin; apply (Hnone _ Hin).
  - intros -> Hin.
    apply (build_course_events
             (λ ev, match ev with Called_notify_update => False | _ => True end)) in Hin; [done|].
    intros course _. avoids.
  - intros course Hfind Hskip Hin.
    apply (build_course_events
             (λ ev, match ev with Called_store => False | _ => True end)) in Hin; [done|].
    intros course' Hfind'. assert (course' = course) as -> by congruence.
    unfold run_update, try_body. rewrite Hskip. cbn [negb]. avoids.
Qed.

(** What is switched off is not run: with [skip_git] the repository is
    not updated, with [skip_build] the build is not called, with
    [skip_notify] the frontend is not notified, and for a course that
    skips the failsafes of the build nothing is stored. *)
Theorem skip_flags_honoured (courses : list Course) (course_key : string)
    (skip_git skip_build skip_notify rebuild_all : bool)
    (image command : option string) (w : W) (t : Table) :
  let run :=
    build_course X settings courses course_key skip_git skip_build skip_notify rebuild_all
      image command w t in
  (skip_git = true → ∀ ok changed, Returned_update_from_git ok changed ∉ final_trace run) ∧
  (skip_build = true →
   (∀ i c changed, Called_build i c changed ∉ final_trace run)
   ∧ (∀ i c env, Execute i c env ∉ final_trace run)) ∧
  (skip_notify = true → Called_notify_update ∉ final_trace run) ∧
  (∀ course, List.find (λ c, bool_decide (key c = course_key)) courses = Some course →
             skip_build_failsafes course = true → Called_store ∉ final_trace run).
Proof.
  apply skipped_stages_not_run.
Qed.



Lemma not_in_mail_events (course : Course) (subject message : string) (ev : Event) :
  ev ∈ mail_events course subject message → is_mail ev = true.
Proof.
  unfold mail_events. intros [->|Hin]%elem_of_cons; [done|].
  destruct (remote_id course); [|by apply elem_of_nil in Hin].
  by apply list_elem_of_singleton in Hin as ->.
Qed.

(** What the run adds to the trace once the [finally] block has
    started is the error mail. *)
Lemma final_trace_before_mail (course : Course) (course_key : string) (s1 s2 : St W)
    (ev : Event) :
  trace s2 = trace s1 ++
    (if bool_decide (status (update s1) ≠ SUCCESS) && email_on_error course
     then mail_events course ("Course " +:+ course_key +:+ " build failed") (log_stream s1)
     else []) →
  is_mail ev = false → ev ∈ trace s2 → ev ∈ trace s1.
Proof.
  intros -> Hev [Hin|Hin]%elem_of_app; [done|].
  destruct (_ && _); [|by apply elem_of_nil in Hin].
  apply not_in_mail_events in Hin. congruence.
Qed.

Definition no_notify (ev : Event) : Prop :=
  match ev with Called_notify_update => False | _ => True end.

(** The frontend is notified only of an update that has succeeded, and
    only when the course updates automatically, has a remote id, the
    notification is not skipped and the address of the frontend is
    set. *)
Theorem notify_only_after_success (courses : list Course) (course_key : string)
    (skip_git skip_build skip_notify rebuild_all : bool)
    (image command : option string) (w : W) (t : Table) :
  let run :=
    build_course X settings courses course_key skip_git skip_build skip_notify rebuild_all
      image command w t in
  Called_notify_update ∈ final_trace run →
  ∃ course u row,
    List.find (λ c, bool_decide (key c = course_key)) courses = Some course ∧
    last (pending_updates course (prune course t)) = Some u ∧
    final_table run !! pk u = Some row ∧ status row = SUCCESS ∧
    update_automatically course = true ∧ is_Some (remote_id course) ∧
    skip_notify = false ∧ is_Some (FRONTEND_URL settings).
Proof.
  cbn zeta.
  destruct (List.find (λ c, bool_decide (key c = course_key)) courses) as [course|] eqn:Hfind.
  2:{ unfold build_course. rewrite Hfind. by intros ?%elem_of_nil. }
  destruct (last (pending_updates course (prune course t))) as [u|] eqn:Hlast.
  2:{ unfold build_course. rewrite Hfind, Hlast. by intros ?%elem_of_nil. }
  rewrite (build_course_run _ _ _ _ _ _ _ _ _ _ _ _ Hfind Hlast). cbn [final_trace final_table].
  destruct (run_update_run course course_key skip_git skip_build skip_notify rebuild_all
              image command (start course w t u)) as (s1 & Hway & Hrow & Hst & Htr & _).
  cbn zeta in *. intros Hin.
  apply (final_trace_before_mail _ _ _ _ Called_notify_update Htr eq_refl) in Hin.
  assert (Hbody : evolves (extends no_notify)
                    (try_body X settings course course_key skip_git skip_build rebuild_all
                       image command)) by avoids.
  specialize (Hbody (start course w t u)).
  assert (Hquiet : ∀ s s', extends no_notify s s' → Called_notify_update ∈ trace s' →
                           Called_notify_update ∈ trace s).
  { intros s s' (evs & -> & Hall) [?|Hev]%elem_of_app; [done|].
    rewrite Forall_forall in Hall. by destruct (Hall _ Hev). }
  exists course, u, (update (run_update X settings course course_key skip_git skip_build
                               skip_notify rebuild_all image command (start course w t u)).1).
  destruct Hway as [(s' & Hb & Helse & Hsucc)|[[Hb Hrunning]|(s' & e & Hb & Hh & Hrunning)]];
    rewrite Hb in Hbody; cbn [fst] in Hbody.
  - split; [done|]. split; [done|]. split; [exact Hrow|].
    split; [rewrite Hst; unfold final_status; by rewrite Hsucc|].
    assert (Hno : evolves (extends no_notify) (else_block X settings course skip_notify) →
                  False).
    { intros He. specialize (He s'). rewrite Helse in He.
      apply (Hquiet _ _ He), (Hquiet _ _ Hbody) in Hin. by apply elem_of_nil in Hin. }
    unfold else_block in Hno.
    destruct (update_automatically course); cbn [negb] in Hno; [|exfalso; apply Hno; avoids].
    destruct (remote_id course) as [rid|]; [|exfalso; apply Hno; avoids].
    destruct skip_notify; [exfalso; apply Hno; avoids|].
    destruct (FRONTEND_URL settings) as [url|]; [|exfalso; apply Hno; avoids].
    eauto.
  - exfalso. apply (Hquiet _ _ Hbody) in Hin. by apply elem_of_nil in Hin.
  - exfalso.
    assert (Hhandler : evolves (extends no_notify) (except_handler X e)) by avoids.
    specialize (Hhandler s'). rewrite Hh in Hhandler.
    apply (Hquiet _ _ Hhandler), (Hquiet _ _ Hbody) in Hin. by apply elem_of_nil in Hin.
Qed.


Lemma triple_any {A} (m : M (St W) A) : triple (λ _, True) m (λ _ _, True) (λ _, True).
Proof. intros s _. by destruct (m s) as [s' [a| |e]]. Qed.

Ltac grows_trace :=
  unfold_pipeline; evolve;
  first [ apply extends_emit; exact I | apply extends_assign | apply extends_write ].

(** A property of the trace that more events do not undo, once
    established by a block, holds when the blocks that follow fall
    through. *)
Lemma triple_established {A B} (P : list Event → Prop) (m : M (St W) A) (f : A → M (St W) B) :
  (∀ tr evs, P tr → P (tr ++ evs)) →
  triple (λ _, True) m (λ _ s, P (trace s)) (λ _, True) →
  (∀ a, evolves (extends (λ _, True)) (f a)) →
  triple (λ _, True) (m ≫= f) (λ _ s, P (trace s)) (λ _, True).
Proof.
  intros Hmono Hm Hf. eapply triple_bind; [exact Hm|]. intros a.
  apply (triple_evolves (extends (λ _, True))); [apply Hf|].
  intros s s' HP (evs & -> & _). split; [|done]. intros _. by apply Hmono.
Qed.

Lemma triple_emit_established {B} (P : list Event → Prop) (ev : Event) (f : () → M (St W) B) :
  (∀ tr evs, P tr → P (tr ++ evs)) →
  (∀ tr, P (tr ++ [ev])) →
  (∀ a, evolves (extends (λ _, True)) (f a)) →
  triple (λ _, True) (emit ev ≫= f) (λ _ s, P (trace s)) (λ _, True).
Proof.
  intros Hmono Hev Hf. apply triple_established; [done| |done].
  intros s _. simpl. apply Hev.
Qed.

Ltac skip_step := eapply triple_bind; [apply triple_any|intros ?].

Section Stages.
Variable course : Course.
Variable course_key : string.
Variables skip_git skip_build rebuild_all : bool.
Variables image command : option string.

#[local] Abbreviation body :=
  (try_body X settings course course_key skip_git skip_build rebuild_all image command).

Lemma try_body_fetched :
  skip_git = false → Py.truthy (git_origin course) = true →
  triple (λ _, True) body (λ _ s, ∃ changed, Returned_update_from_git true changed ∈ trace s)
    (λ _, True).
Proof.
  intros -> Horigin. unfold try_body. do 2 skip_step.
  apply (triple_established (λ tr, ∃ changed, Returned_update_from_git true changed ∈ tr)).
  { intros tr evs [changed Hin]. exists changed. apply elem_of_app. by left. }
  2:{ intros changed. grows_trace. }
  unfold git_stage. rewrite Horigin. unfold update_from_git.
  intros s _. unfold mbind, M_bind.
  destruct (update_from_git_body X _ course s) as [s' [[success changed]| |e]]; [|done..].
  simpl. destruct success; simpl; [|done].
  exists changed. apply elem_of_app. right. by left.
Qed.

Lemma try_body_built :
  skip_build = false →
  triple (λ _, True) body (λ _ s, ∃ changed, Called_build image command changed ∈ trace s)
    (λ _, True).
Proof.
  intros ->. unfold try_body. do 7 skip_step.
  apply (triple_established (λ tr, ∃ changed, Called_build image command changed ∈ tr)).
  { intros tr evs [changed Hin]. exists changed. apply elem_of_app. by left. }
  2:{ intros ?. grows_trace. }
  unfold build_stage. cbn [negb].
  destruct (changed_files_for_build rebuild_all _) as [changed msg].
  skip_step. unfold build.
  eapply triple_bind.
  { apply (triple_emit_established (λ tr, ∃ changed, Called_build image command changed ∈ tr)).
    - intros tr evs [changed' Hin]. exists changed'. apply elem_of_app. by left.
    - intros tr. exists changed. apply elem_of_app. right. by left.
    - intros ?. grows_trace. }
  intros status. destruct (negb status); [by intros s ?|by intros s ?].
Qed.

Lemma try_body_stored :
  skip_build_failsafes course = false →
  triple (λ _, True) body (λ _ s, Called_store ∈ trace s) (λ _, True).
Proof.
  intros Hsafe. unfold try_body. do 9 skip_step.
  eapply triple_bind; [apply triple_any|]. intros [value error].
  destruct (negb value); [skip_step; by intros s ?|].
  do 7 skip_step.
  apply (triple_established (λ tr, Called_store ∈ tr)).
  { intros tr evs Hin. apply elem_of_app. by left. }
  2:{ intros ?. grows_trace. }
  rewrite Hsafe. cbn [negb]. unfold store.
  apply (triple_emit_established (λ tr, Called_store ∈ tr)).
  - intros tr evs Hin. apply elem_of_app. by left.
  - intros tr. apply elem_of_app. right. by left.
  - intros ?. grows_trace.
Qed.

End Stages.

(** An update that ends with the status SUCCESS has gone through the
    stages that were not switched off: the repository of a course with
    an origin was updated with success, the build was called with the
    image and the command of the request, and the course was stored. *)
Theorem success_went_through_stages (courses : list Course) (course_key : string)
    (skip_git skip_build skip_notify rebuild_all : bool)
    (image command : option string) (w : W) (t : Table)
    (course : Course) (u row : CourseUpdate) :
  List.find (λ c, bool_decide (key c = course_key)) courses = Some course →
  last (pending_updates course (prune course t)) = Some u →
  let run :=
    build_course X settings courses course_key skip_git skip_build skip_notify rebuild_all
      image command w t in
  final_table run !! pk u = Some row → status row = SUCCESS →
  (skip_git = false → Py.truthy (git_origin course) = true →
   ∃ changed, Returned_update_from_git true changed ∈ final_trace run) ∧
  (skip_build = false → ∃ changed, Called_build image command changed ∈ final_trace run) ∧
  (skip_build_failsafes course = false → Called_store ∈ final_trace run).
Proof.
  intros Hfind Hlast. cbn zeta.
  rewrite (build_course_run _ _ _ _ _ _ _ _ _ _ _ _ Hfind Hlast). cbn [final_trace final_table].
  destruct (run_update_run course course_key skip_git skip_build skip_notify rebuild_all
              image command (start course w t u)) as (s1 & Hway & Hrow & Hst & Htr & _).
  cbn zeta in *. change (pk (update (start course w t u))) with (pk u) in Hrow.
  rewrite Hrow. intros [= <-] Hsucc. rewrite Hst in Hsucc. unfold final_status in Hsucc.
  destruct Hway as [(s' & Hb & Helse & _)|[[_ Hrunning]|(s' & e & _ & _ & Hrunning)]];
    [|rewrite Hrunning in Hsucc; done..].
  assert (Hlater : ∀ ev, ev ∈ trace s' →
            ev ∈ trace (run_update X settings course course_key skip_git skip_build skip_notify
                          rebuild_all image command (start course w t u)).1).
  { intros ev Hin. rewrite Htr. apply elem_of_app. left.
    assert (He : evolves (extends (λ _, True)) (else_block X settings course skip_notify))
      by grows_trace.
    destruct (He s') as (evs & Hevs & _). rewrite Helse in Hevs. rewrite Hevs.
    apply elem_of_app. by left. }
  split; [|split].
  - intros Hgit Horigin.
    pose proof (try_body_fetched course course_key skip_git skip_build rebuild_all image command
                  Hgit Horigin (start course w t u) I) as Hp.
    rewrite Hb in Hp. destruct Hp as [changed Hin]. exists changed. by apply Hlater.
  - intros Hbuild.
    pose proof (try_body_built course course_key skip_git skip_build rebuild_all image command
                  Hbuild (start course w t u) I) as Hp.
    rewrite Hb in Hp. destruct Hp as [changed Hin]. exists changed. by apply Hlater.
  - intros Hsafe.
    pose proof (try_body_stored course course_key skip_git skip_build rebuild_all image command
                  Hsafe (start course w t u) I) as Hp.
    rewrite Hb in Hp. by apply Hlater.
Qed.




(** An exception raised in the stages does not leave [build_course]:
    the call returns, the log holds [Build failed.] and the traceback
    after what the stages had logged, and the update fails. *)
Theorem exception_in_stages_is_logged (courses : list Course) (course_key : string)
    (skip_git skip_build skip_notify rebuild_all : bool)
    (image command : option string) (w : W) (t : Table)
    (course : Course) (u : CourseUpdate) (s' : St W) (e : Exn) :
  List.find (λ c, bool_decide (key c = course_key)) courses = Some course →
  last (pending_updates course (prune course t)) = Some u →
  try_body X settings course course_key skip_git skip_build rebuild_all image command
    (start course w t u) = (s', Raise e) →
  let run :=
    build_course X settings courses course_key skip_git skip_build skip_notify rebuild_all
      image command w t in
  final_flow run = Return ∧
  (∃ more, final_log run = log_stream s' +:+ "Build failed." +:+ Py.nl +:+ Py.nl
                             +:+ format_exc X e +:+ Py.nl +:+ Py.nl +:+ more) ∧
  ∃ row, final_table run !! pk u = Some row ∧ status row = FAILED.
Proof.
  intros Hfind Hlast Hraise. cbn zeta.
  rewrite (build_course_run _ _ _ _ _ _ _ _ _ _ _ _ Hfind Hlast).
  cbn [final_flow final_log final_table].
  destruct (run_update_run course course_key skip_git skip_build skip_notify rebuild_all
              image command (start course w t u)) as (s1 & Hway & Hrow & Hst & _ & Hg & Hflow).
  cbn zeta in *. change (pk (update (start course w t u))) with (pk u) in Hrow.
  destruct Hway as [(s0 & Hb & _)|[[Hb _]|(s0 & e0 & Hb & Hh & Hrunning)]];
    [congruence|congruence|].
  assert (s0 = s' ∧ e0 = e) as [-> ->] by (split; congruence).
  split; [by destruct Hflow as [-> | ->]|]. split.
  - destruct Hg as [more Hmore]. exists more. rewrite Hmore, <- Hh.
    unfold except_handler, mbind, M_bind. rewrite !build_logger_run. simpl.
    by rewrite !append_assoc.
  - eexists. split; [exact Hrow|]. rewrite Hst. unfold final_status. by rewrite Hrunning.
Qed.


(** *** Who requested the update, and when *)

Definition same_request (s s' : St W) : Prop :=
  pk (update s') = pk (update s) ∧ Models.course (update s') = Models.course (update s) ∧
  request_ip (update s') = request_ip (update s) ∧
  request_time (update s') = request_time (update s).

#[local] Instance same_request_stable : Stable same_request.
Proof.
  split.
  - split; [by intros s|]. intros s1 s2 s3 (?&?&?&?) (?&?&?&?). unfold same_request.
    split_and!; congruence.
  - by intros w s.
  - by intros l s.
Qed.

Lemma run_update_same_request (course : Course) (course_key : string)
    (skip_git skip_build skip_notify rebuild_all : bool)
    (image command : option string) :
  evolves same_request
    (run_update X settings course course_key skip_git skip_build skip_notify rebuild_all
       image command).
Proof.
  unfold_pipeline. evolve; intros ?; by repeat split.
Qed.


(** *** The status that the table shows during the run *)

(** The row of the update, once it has the status RUNNING, keeps it. *)
Definition stays_running (s s' : St W) : Prop :=
  pk (update s') = pk (update s) ∧
  ((∃ row, table s !! pk (update s) = Some row ∧ status row = RUNNING) →
   ∃ row, table s' !! pk (update s) = Some row ∧ status row = RUNNING).

#[local] Instance stays_running_stable : Stable stays_running.
Proof.
  split.
  - split.
    + intros s. by split.
    + intros s1 s2 s3 [Hk1 H1] [Hk2 H2]. split; [congruence|].
      intros Hrow. rewrite Hk1 in H2. by apply H2, H1.
  - intros w s. by split.
  - intros l s. by split.
Qed.

Lemma stays_running_alter (f : CourseUpdate → CourseUpdate) :
  (∀ u, status (f u) = status u) →
  ∀ s, stays_running s (with_table (alter f (pk (update s)) (table s)) s).
Proof.
  intros Hf s. split; [done|]. intros (row & Hrow & Hst). simpl.
  exists (f row). rewrite lookup_alter_eq, Hrow. split; [done|]. by rewrite Hf.
Qed.

(** While the stages run, and when they have ended, in whatever way,
    the table shows the update as RUNNING: the saves of the progress
    write the log and the commit only, and the status SUCCESS of the
    update in memory is not saved by the stages. *)
Theorem status_running_until_finally (course : Course) (course_key : string)
    (skip_git skip_build rebuild_all : bool) (image command : option string)
    (s s' : St W) (f : Flow ()) :
  try_body X settings course course_key skip_git skip_build rebuild_all image command s
  = (s', f) →
  (∃ row, table s' !! pk (update s) = Some row ∧ status row = RUNNING) ∧
  (f = Next () → status (update s') = SUCCESS).
Proof.
  intros Hrun. split.
  2:{ intros ->.
      pose proof (try_body_status course course_key skip_git skip_build rebuild_all image command
                    s I) as Hst.
      by rewrite Hrun in Hst. }
  revert Hrun. unfold try_body.
  unfold mbind at 1, M_bind at 1, assign at 1.
  unfold mbind at 1, M_bind at 1, write_table at 1.
  cbn [update table with_update with_table].
  set (s0 := with_table _ _).
  match goal with
  | |- ?rest s0 = _ → _ => assert (Hrest : evolves stays_running rest)
  end.
  { unfold_pipeline. evolve;
      first [ by intros ?; split
            | intros ?; apply (stays_running_alter (set_log _)); done
            | intros ?; apply (stays_running_alter (set_commit_hash _)); done ]. }
  intros Hrun. specialize (Hrest s0). rewrite Hrun in Hrest. destruct Hrest as [_ Hrest].
  apply Hrest. exists (set_status RUNNING (update s)). split; [|done].
  unfold s0, CourseUpdate_save. simpl. by rewrite lookup_insert_eq.
Qed.


End Relations.

(** *** Sequencing of the pending updates *)

Section Sequencing.

#[local] Instance time_ge_total : Total time_ge.
Proof. intros u v. unfold time_ge. lia. Qed.
#[local] Instance time_ge_trans : Transitive time_ge.
Proof. intros u v x. unfold time_ge. lia. Qed.
#[local] Instance time_le_total : Total time_le.
Proof. intros u v. unfold time_le. lia. Qed.
#[local] Instance time_le_trans : Transitive time_le.
Proof. intros u v x. unfold time_le. lia. Qed.

Lemma later_than_perm (v : CourseUpdate) (l l' : list CourseUpdate) :
  l ≡ₚ l' → later_than v l = later_than v l'.
Proof. intros H. unfold later_than. by rewrite H. Qed.

Lemma later_than_mono (v v' : CourseUpdate) (l : list CourseUpdate) :
  (request_time v ≤ request_time v')%Z → later_than v' l ≤ later_than v l.
Proof.
  intros Hle. unfold later_than. induction l as [|x l IH]; [done|].
  rewrite !filter_cons. repeat case_decide; simpl; lia.
Qed.

(** In a list in descending order of distinct request times, an update
    stands at the index that counts the updates requested later. *)
Lemma later_than_index (l : list CourseUpdate) (k : nat) (v : CourseUpdate) :
  StronglySorted time_ge l → NoDup (request_time <$> l) → l !! k = Some v →
  later_than v l = k.
Proof.
  intros Hs. revert k. induction Hs as [|x l Hs IH Hx]; intros k Hnd Hk; [done|].
  rewrite fmap_cons in Hnd. apply NoDup_cons in Hnd as [Hnotin Hnd].
  unfold later_than. rewrite filter_cons.
  assert (Hlt : ∀ y, y ∈ l → (request_time y < request_time x)%Z).
  { intros y Hy. rewrite Forall_forall in Hx. specialize (Hx y Hy). unfold time_ge in Hx.
    assert (request_time y ≠ request_time x); [|lia].
    intros Heq. apply Hnotin. rewrite <- Heq. by apply list_elem_of_fmap_2. }
  destruct k as [|k]; simpl in Hk.
  - injection Hk as ->. rewrite decide_False by lia.
    assert (Hnil : filter (λ y, (request_time v < request_time y)%Z) l = []).
    { clear -Hlt. induction l as [|y l IHl]; [done|].
      rewrite filter_cons, decide_False.
      - apply IHl. intros z Hz. apply Hlt. by right.
      - assert (request_time y < request_time v)%Z by (apply Hlt; by left). lia. }
    by rewrite Hnil.
  - assert (Hv : v ∈ l) by (by eapply list_elem_of_lookup_2).
    rewrite decide_True by (by apply Hlt). simpl. f_equal. by apply IH.
Qed.

(** Dropping the first [n] of such a list leaves the updates with at
    least [n] later ones. *)
Lemma elem_of_drop_sorted (l : list CourseUpdate) (n : nat) (v : CourseUpdate) :
  StronglySorted time_ge l → NoDup (request_time <$> l) →
  v ∈ drop n l ↔ v ∈ l ∧ n ≤ later_than v l.
Proof.
  intros Hs Hnd. split.
  - intros Hin. apply list_elem_of_lookup in Hin as [k Hk]. rewrite lookup_drop in Hk.
    split; [by eapply list_elem_of_lookup_2|].
    rewrite (later_than_index l (n + k) v); [lia|done..].
  - intros [Hin Hn]. apply list_elem_of_lookup in Hin as [k Hk].
    rewrite (later_than_index l k v) in Hn by done.
    apply list_elem_of_lookup. exists (k - n). rewrite lookup_drop.
    by replace (n + (k - n)) with k by lia.
Qed.

(** In a list in ascending order the last update is the latest. *)
Lemma last_sorted (l : list CourseUpdate) (u : CourseUpdate) :
  StronglySorted time_le l → last l = Some u →
  ∀ v, v ∈ l → (request_time v ≤ request_time u)%Z.
Proof.
  intros Hs. induction Hs as [|x l Hs IH Hx]; intros Hlast v Hin; [done|].
  destruct l as [|y l].
  - simpl in Hlast. injection Hlast as ->. apply list_elem_of_singleton in Hin as ->. lia.
  - change (last (x :: y :: l)) with (last (y :: l)) in Hlast.
    apply elem_of_cons in Hin as [->|Hin]; [|by apply IH].
    rewrite Forall_forall in Hx.
    assert (Hu : u ∈ y :: l).
    { apply last_Some in Hlast as [l' ->]. apply elem_of_app. right. by left. }
    apply (Hx u Hu).
Qed.

Lemma elem_of_rows (t : Table) (v : CourseUpdate) :
  keyed t → v ∈ rows t ↔ t !! pk v = Some v.
Proof.
  intros Hk. unfold rows. rewrite list_elem_of_fmap. split.
  - intros ([i v'] & -> & Hin). apply elem_of_map_to_list in Hin. simpl.
    by rewrite (Hk _ _ Hin).
  - intros Hv. exists (pk v, v). split; [done|]. by apply elem_of_map_to_list.
Qed.

Lemma foldl_delete_lookup (l : list CourseUpdate) (t : Table) (i : nat) :
  foldl (λ t update, CourseUpdate_delete update t) t l !! i
  = if decide (i ∈ pk <$> l) then None else t !! i.
Proof.
  revert t. induction l as [|x l IH]; intros t; simpl.
  - first [done | rewrite decide_False; [done|apply not_elem_of_nil]].
  - rewrite IH. unfold CourseUpdate_delete.
    destruct (decide (i ∈ pk <$> l)) as [Hin|Hnot].
    + rewrite decide_True; [done|]. by right.
    + destruct (decide (i = pk x)) as [->|Hne].
      * rewrite decide_True by (by left). apply lookup_delete_eq.
      * rewrite decide_False.
        -- by apply lookup_delete_ne.
        -- intros [?|?]%elem_of_cons; done.
Qed.

Lemma foldl_skip_lookup (t0 : Table) (l : list CourseUpdate) (t : Table) (i : nat) :
  (∀ x, x ∈ l → t0 !! pk x = Some x) →
  foldl (λ t update, CourseUpdate_save (set_status SKIPPED update) t) t l !! i
  = if decide (i ∈ pk <$> l) then set_status SKIPPED <$> t0 !! i else t !! i.
Proof.
  revert t. induction l as [|x l IH]; intros t Hl; simpl.
  - first [done | rewrite decide_False; [done|apply not_elem_of_nil]].
  - rewrite IH by (intros y Hy; apply Hl; by right). unfold CourseUpdate_save. simpl.
    destruct (decide (i ∈ pk <$> l)) as [Hin|Hnot].
    + rewrite decide_True; [done|]. by right.
    + destruct (decide (i = pk x)) as [->|Hne].
      * rewrite decide_True by (by left). rewrite lookup_insert_eq.
        rewrite (Hl x) by (by left). done.
      * rewrite decide_False.
        -- by apply lookup_insert_ne.
        -- intros [?|?]%elem_of_cons; done.
Qed.

Context {W Config : Type}.
Variable X : Collaborators W Config.
Variable settings : Settings.

(** What the first lines of [build_course] select and skip, for a table
    keyed by primary key with distinct request times in the course. *)
Lemma sequencing_prefix (course : Course) (t : Table) :
  keyed t →
  NoDup (request_time <$> filter_course course t) →
  let pending := λ v, t !! pk v = Some v ∧ Models.course v = key course ∧ status v = PENDING in
  let t1 := prune course t in
  let updates := pending_updates course t1 in
  (∀ v, pending v → 10 ≤ later_than v (filter_course course t) → t1 !! pk v = None) ∧
  (∀ v, v ∈ updates ↔ pending v ∧ later_than v (filter_course course t) < 10) ∧
  (∀ v, v ∈ updates → t1 !! pk v = Some v) ∧
  (∀ u, last updates = Some u → ∀ v, pending v → (request_time v ≤ request_time u)%Z).
Proof.
  intros Hk Hnd. cbn zeta.
  set (L := filter_course course t) in *.
  set (D := order_by_request_time_desc L).
  assert (HDp : D ≡ₚ L) by apply merge_sort_Permutation.
  assert (HDs : StronglySorted time_ge D) by (apply StronglySorted_merge_sort; apply _).
  assert (HDn : NoDup (request_time <$> D)) by (by rewrite HDp).
  assert (HL : ∀ x, x ∈ L ↔ t !! pk x = Some x ∧ Models.course x = key course).
  { intros x. unfold L, filter_course. rewrite list_elem_of_filter, elem_of_rows by done. tauto. }
  assert (Hdoomed : ∀ x, x ∈ drop 10 D ↔ x ∈ L ∧ 10 ≤ later_than x L).
  { intros x. rewrite elem_of_drop_sorted by done.
    rewrite (later_than_perm x D L HDp).
    split; intros [Hin ?]; (split; [|done]).
    - by rewrite <- HDp.
    - by rewrite HDp. }
  assert (Ht1 : ∀ i, prune course t !! i = if decide (i ∈ pk <$> drop 10 D) then None else t !! i).
  { intros i. unfold prune. apply foldl_delete_lookup. }
  assert (Hpk : ∀ x, t !! pk x = Some x → pk x ∈ pk <$> drop 10 D ↔ x ∈ drop 10 D).
  { intros x Hx. split; [|apply list_elem_of_fmap_2].
    intros (y & Hy & Hin)%list_elem_of_fmap.
    assert (Hyt : t !! pk y = Some y).
    { pose proof Hin as [Hin' _]%Hdoomed. by apply HL in Hin' as [? _]. }
    rewrite <- Hy, Hx in Hyt. by injection Hyt as ->. }
  assert (Hk1 : keyed (prune course t)).
  { intros i v. rewrite Ht1. case_decide; [done|]. apply Hk. }
  assert (HP : ∀ v, v ∈ pending_updates course (prune course t) ↔
                    (t !! pk v = Some v ∧ Models.course v = key course ∧ status v = PENDING)
                    ∧ later_than v L < 10).
  { intros v. unfold pending_updates, order_by_request_time, filter_course_status.
    rewrite merge_sort_Permutation, list_elem_of_filter, elem_of_rows by done.
    rewrite Ht1. split.
    - intros [[Hc Hs] Hv]. case_decide as Hin; [done|].
      split; [done|]. rewrite Hpk in Hin by done.
      destruct (decide (later_than v L < 10)) as [|Hge]; [done|].
      exfalso. apply Hin, Hdoomed. split; [by apply HL|lia].
    - intros [(Hv & Hc & Hs) Hlt]. split; [done|].
      rewrite decide_False; [done|]. rewrite Hpk by done.
      intros [_ Hge]%Hdoomed. lia. }
  split; [|split; [exact HP|split]].
  - intros v (Hv & Hc & Hs) Hge. rewrite Ht1, decide_True; [done|].
    apply Hpk; [done|]. apply Hdoomed. split; [by apply HL|done].
  - intros v [(Hv & Hc & Hs) Hlt]%HP. rewrite Ht1, decide_False; [done|].
    rewrite Hpk by done. intros [_ Hge]%Hdoomed. lia.
  - intros u Hlast v (Hv & Hc & Hs).
    assert (Hu : u ∈ pending_updates course (prune course t)).
    { apply last_Some in Hlast as [l' ->]. apply elem_of_app. right. by left. }
    pose proof Hu as [(Hut & Huc & Hus) Hult]%HP.
    destruct (decide (request_time v ≤ request_time u)%Z) as [|Hgt]; [done|].
    exfalso.
    assert (Hvin : v ∈ pending_updates course (prune course t)).
    { apply HP. split; [done|].
      pose proof (later_than_mono u v L ltac:(lia)). lia. }
    assert (Hsorted : StronglySorted time_le (pending_updates course (prune course t)))
      by (apply StronglySorted_merge_sort; apply _).
    pose proof (last_sorted _ u Hsorted Hlast v Hvin). lia.
Qed.

Lemma NoDup_fmap_eq {A B} (f : A → B) (l : list A) (x y : A) :
  NoDup (f <$> l) → x ∈ l → y ∈ l → f x = f y → x = y.
Proof.
  induction l as [|z l IH]; intros Hnd Hx Hy Hf; [by apply elem_of_nil in Hx|].
  rewrite fmap_cons in Hnd. apply NoDup_cons in Hnd as [Hz Hnd].
  apply elem_of_cons in Hx as [->|Hx]; apply elem_of_cons in Hy as [->|Hy]; [done|..].
  - exfalso. apply Hz. rewrite Hf. by apply list_elem_of_fmap_2.
  - exfalso. apply Hz. rewrite <- Hf. by apply list_elem_of_fmap_2.
  - by apply IH.
Qed.

(** C1, as the code has it.  In a table keyed by primary key in which
    the updates of the course have distinct request times, one call of
    [build_course] treats each pending update [v] of the course by the
    number of updates of the course requested later than [v]: with ten
    or more, the row of [v] is deleted; with fewer, [v] is run (its row
    ends SUCCESS or FAILED) when it is the latest pending update, and its
    row is saved as SKIPPED when it is not. *)
Theorem pending_updates_sequenced (courses : list Course) (course_key : string)
    (skip_git skip_build skip_notify rebuild_all : bool)
    (build_image build_command : option string) (w : W) (t : Table) (course : Course) :
  List.find (λ c, bool_decide (key c = course_key)) courses = Some course →
  keyed t →
  NoDup (request_time <$> filter_course course t) →
  let run :=
    build_course X settings courses course_key skip_git skip_build skip_notify rebuild_all
      build_image build_command w t in
  let pending := λ v, t !! pk v = Some v ∧ Models.course v = key course ∧ status v = PENDING in
  ∀ v, pending v →
    let later := later_than v (filter_course course t) in
    let latest := ∀ v', pending v' → (request_time v' ≤ request_time v)%Z in
    (10 ≤ later → final_table run !! pk v = None) ∧
    (later < 10 → latest →
     ∃ row, final_table run !! pk v = Some row ∧ (status row = SUCCESS ∨ status row = FAILED)) ∧
    (later < 10 → ¬ latest → final_table run !! pk v = Some (set_status SKIPPED v)).
Proof.
  intros Hfind Hk Hnd. cbn zeta. intros v Hv.
  destruct (sequencing_prefix course t Hk Hnd) as (Hpruned & HP & HPt1 & Hlatest).
  unfold build_course. rewrite Hfind.
  set (t1 := prune course t) in *. set (updates := pending_updates course t1) in *.
  destruct (last updates) as [u|] eqn:Hlast; cbn [final_table].
  2:{ apply last_None in Hlast.
      split; [by apply Hpruned|].
      split; intros Hlt; exfalso; assert (Hin : v ∈ updates) by (by apply HP);
        rewrite Hlast in Hin; by apply elem_of_nil in Hin. }
  specialize (Hlatest u eq_refl).
  set (s0 := {| world := w; table := skip_updates updates t1; update := u;
                log_stream := ""; trace := [] |}).
  pose proof (run_update_frame X settings course course_key skip_git skip_build skip_notify
                rebuild_all build_image build_command s0) as [_ Hframe].
  pose proof (run_update_terminal X settings course course_key skip_git skip_build skip_notify
                rebuild_all build_image build_command s0) as Hterm.
  cbn zeta in Hterm.
  destruct (run_update X settings course course_key skip_git skip_build skip_notify rebuild_all
              build_image build_command s0) as [s2 r].
  cbn [fst final_table] in *.
  destruct Hterm as (s1 & w' & _ & Hrow & Hst & _).
  change (update s0) with u in *. change (table s0) with (skip_updates updates t1) in Hframe.
  pose proof Hlast as [l' Hupd]%last_Some.
  assert (Hothers : take (length updates - 1) updates = l').
  { rewrite Hupd, length_app. simpl. replace (length l' + 1 - 1) with (length l') by lia.
    by rewrite take_app_length. }
  assert (Ht2 : ∀ i, skip_updates updates t1 !! i
                     = if decide (i ∈ pk <$> l') then set_status SKIPPED <$> t1 !! i else t1 !! i).
  { intros i. unfold skip_updates. rewrite Hothers. apply foldl_skip_lookup.
    intros x Hx. apply HPt1. rewrite Hupd. apply elem_of_app. by left. }
  assert (Hu : u ∈ updates) by (rewrite Hupd; apply elem_of_app; right; by left).
  assert (Hut1 : t1 !! pk u = Some u) by (by apply HPt1).
  pose proof Hu as [Hupending _]%HP.
  split; [|split].
  - intros Hge. specialize (Hpruned v Hv Hge).
    assert (pk v ≠ pk u) by (intros Heq; rewrite Heq in Hpruned; congruence).
    rewrite Hframe, Ht2, Hpruned by done. by case_decide.
  - intros Hlt Hmax.
    assert (v = u) as ->.
    { assert (Hvin : v ∈ updates) by (by apply HP).
      pose proof (Hlatest v Hv). pose proof (Hmax u Hupending).
      apply (NoDup_fmap_eq request_time (filter_course course t)); [done|..|lia].
      - unfold filter_course. rewrite list_elem_of_filter, elem_of_rows by done.
        destruct Hv as (?&?&?). done.
      - unfold filter_course. rewrite list_elem_of_filter, elem_of_rows by done.
        destruct Hupending as (?&?&?). done. }
    exists (update s2). split; [done|]. rewrite Hst. unfold final_status.
    case_bool_decide; [by right|by left].
  - intros Hlt Hnot.
    assert (Hvin : v ∈ updates) by (by apply HP).
    assert (Hvt1 : t1 !! pk v = Some v) by (by apply HPt1).
    assert (Hne : v ≠ u).
    { intros ->. apply Hnot. intros v' Hv'. by apply Hlatest. }
    assert (Hpkne : pk v ≠ pk u) by (intros Heq; rewrite Heq in Hvt1; congruence).
    assert (Hvl : v ∈ l').
    { rewrite Hupd in Hvin. apply elem_of_app in Hvin as [|Hin]; [done|].
      by apply list_elem_of_singleton in Hin. }
    rewrite Hframe, Ht2 by done. rewrite decide_True by (by apply list_elem_of_fmap_2).
    by rewrite Hvt1.
Qed.

(** *** The table after the call *)

(** The updates that the pruning deletes. *)
Definition doomed (course : Course) (t : Table) : list CourseUpdate :=
  drop 10 (order_by_request_time_desc (filter_course course t)).

Lemma elem_of_filter_course (course : Course) (t : Table) (v : CourseUpdate) :
  keyed t → v ∈ filter_course course t ↔ t !! pk v = Some v ∧ Models.course v = key course.
Proof.
  intros Hk. unfold filter_course. rewrite list_elem_of_filter, elem_of_rows by done. tauto.
Qed.

Lemma doomed_rows (course : Course) (t : Table) (v : CourseUpdate) :
  keyed t → v ∈ doomed course t → t !! pk v = Some v ∧ Models.course v = key course.
Proof.
  intros Hk Hin. apply elem_of_filter_course; [done|].
  unfold doomed, order_by_request_time_desc in Hin.
  apply list_elem_of_lookup in Hin as [k Hv]. rewrite lookup_drop in Hv.
  apply list_elem_of_lookup_2 in Hv. by rewrite merge_sort_Permutation in Hv.
Qed.

Lemma prune_lookup (course : Course) (t : Table) (i : nat) :
  prune course t !! i = if decide (i ∈ pk <$> doomed course t) then None else t !! i.
Proof. unfold prune. apply foldl_delete_lookup. Qed.

(** What one call makes of each row of the table. *)
Inductive treated (course : Course) (t : Table) (i : nat) (v : CourseUpdate)
    : option CourseUpdate → Prop :=
| treated_other : Models.course v ≠ key course → treated course t i v (Some v)
| treated_pruned :
    Models.course v = key course → i ∈ pk <$> doomed course t → treated course t i v None
| treated_kept :
    Models.course v = key course → i ∉ pk <$> doomed course t → status v ≠ PENDING →
    treated course t i v (Some v)
| treated_skipped :
    Models.course v = key course → i ∉ pk <$> doomed course t → status v = PENDING →
    treated course t i v (Some (set_status SKIPPED v))
| treated_run (row : CourseUpdate) :
    Models.course v = key course → i ∉ pk <$> doomed course t → status v = PENDING →
    status row = SUCCESS ∨ status row = FAILED →
    pk row = pk v → Models.course row = Models.course v →
    request_ip row = request_ip v → request_time row = request_time v →
    treated course t i v (Some row).

Lemma build_course_rows (courses : list Course) (course_key : string)
    (skip_git skip_build skip_notify rebuild_all : bool)
    (build_image build_command : option string) (w : W) (t : Table) (course : Course) :
  List.find (λ c, bool_decide (key c = course_key)) courses = Some course →
  keyed t →
  let run :=
    build_course X settings courses course_key skip_git skip_build skip_notify rebuild_all
      build_image build_command w t in
  ∀ i,
    match t !! i with
    | None => final_table run !! i = None
    | Some v => treated course t i v (final_table run !! i)
    end.
Proof.
  intros Hfind Hk. cbn zeta. intros i.
  pose proof (prune_lookup course t) as Ht1.
  assert (Hdoomed : ∀ v, t !! i = Some v → i ∈ pk <$> doomed course t →
                         Models.course v = key course).
  { intros v Hv (y & -> & Hy)%list_elem_of_fmap.
    apply doomed_rows in Hy as [Hy Hc]; [|done]. congruence. }
  assert (Hk1 : keyed (prune course t)).
  { intros j v. rewrite Ht1. case_decide; [done|]. apply Hk. }
  assert (HP : ∀ v, v ∈ pending_updates course (prune course t) ↔
                    prune course t !! pk v = Some v ∧ Models.course v = key course
                    ∧ status v = PENDING).
  { intros v. unfold pending_updates, order_by_request_time, filter_course_status.
    rewrite merge_sort_Permutation, list_elem_of_filter, elem_of_rows by done. tauto. }
  unfold build_course. rewrite Hfind.
  set (t1 := prune course t) in *. set (updates := pending_updates course t1) in *.
  destruct (last updates) as [u|] eqn:Hlast; cbn [final_table].
  { set (s0 := {| world := w; table := skip_updates updates t1; update := u;
                  log_stream := ""; trace := [] |}).
    pose proof (run_update_frame X settings course course_key skip_git skip_build skip_notify
                  rebuild_all build_image build_command s0) as [_ Hframe].
    pose proof (run_update_terminal X settings course course_key skip_git skip_build skip_notify
                  rebuild_all build_image build_command s0) as Hterm.
    pose proof (run_update_same_request X settings course course_key skip_git skip_build
                  skip_notify rebuild_all build_image build_command s0) as Hreq.
    cbn zeta in Hterm.
    destruct (run_update X settings course course_key skip_git skip_build skip_notify rebuild_all
                build_image build_command s0) as [s2 r].
    cbn [fst final_table] in *.
    destruct Hterm as (s1 & w' & _ & Hrow & Hst & _).
    destruct Hreq as (Hpk & Hcourse & Hip & Htime).
    change (update s0) with u in *. change (table s0) with (skip_updates updates t1) in Hframe.
    pose proof Hlast as [l' Hupd]%last_Some.
    assert (Hothers : take (length updates - 1) updates = l').
    { rewrite Hupd, length_app. simpl. replace (length l' + 1 - 1) with (length l') by lia.
      by rewrite take_app_length. }
    assert (Ht2 : ∀ j, skip_updates updates t1 !! j
                       = if decide (j ∈ pk <$> l') then set_status SKIPPED <$> t1 !! j
                         else t1 !! j).
    { intros j. unfold skip_updates. rewrite Hothers. apply foldl_skip_lookup.
      intros x Hx. apply HP. rewrite Hupd. apply elem_of_app. by left. }
    assert (Hu : u ∈ updates) by (rewrite Hupd; apply elem_of_app; right; by left).
    pose proof Hu as (Hut1 & Huc & Hus)%HP.
    destruct (decide (i = pk u)) as [->|Hne].
    - rewrite Hrow. rewrite Ht1 in Hut1. case_decide as Hd; [done|]. rewrite Hut1.
      apply treated_run; try done.
      rewrite Hst. unfold final_status. case_bool_decide; [by right|by left].
    - rewrite Hframe, Ht2 by done.
      destruct (t !! i) as [v|] eqn:Hv.
      2:{ rewrite Ht1, Hv. by repeat case_decide. }
      destruct (decide (i ∈ pk <$> l')) as [Hin|Hnot].
      + apply list_elem_of_fmap in Hin as (x & -> & Hx).
        assert (Hxu : x ∈ updates) by (rewrite Hupd; apply elem_of_app; by left).
        apply HP in Hxu as (Hxt & Hxc & Hxs). rewrite Hxt. simpl.
        rewrite Ht1 in Hxt. case_decide as Hd; [done|].
        assert (v = x) as -> by congruence. by apply treated_skipped.
      + rewrite Ht1. case_decide as Hd.
        * apply treated_pruned; [by eapply Hdoomed|done].
        * rewrite Hv. destruct (decide (Models.course v = key course)) as [Hc|Hc];
            [|by apply treated_other].
          apply treated_kept; [done..|]. intros Hs.
          assert (Hi : i = pk v) by (symmetry; by apply (Hk i v)). subst i.
          assert (Hvu : v ∈ updates).
          { apply HP. rewrite Ht1, decide_False by done. done. }
          rewrite Hupd in Hvu. apply elem_of_app in Hvu as [Hvl|Hvu].
          -- apply Hnot. by apply list_elem_of_fmap_2.
          -- apply list_elem_of_singleton in Hvu. by subst. }
  apply last_None in Hlast.
  destruct (t !! i) as [v|] eqn:Hv.
  2:{ rewrite Ht1, Hv. by case_decide. }
  rewrite Ht1. case_decide as Hd.
  - apply treated_pruned; [by eapply Hdoomed|done].
  - rewrite Hv. destruct (decide (Models.course v = key course)) as [Hc|Hc];
      [|by apply treated_other].
    apply treated_kept; [done..|]. intros Hs.
    assert (Hi : i = pk v) by (symmetry; by apply (Hk i v)). subst i.
    assert (Hvu : v ∈ updates).
    { apply HP. rewrite Ht1, decide_False by done. done. }
    rewrite Hlast in Hvu. by apply elem_of_nil in Hvu.
Qed.


(** One call of [build_course] leaves the updates of the other courses
    as they are, and creates no update. *)
Theorem other_courses_untouched (courses : list Course) (course_key : string)
    (skip_git skip_build skip_notify rebuild_all : bool)
    (build_image build_command : option string) (w : W) (t : Table) :
  keyed t →
  let run :=
    build_course X settings courses course_key skip_git skip_build skip_notify rebuild_all
      build_image build_command w t in
  ∀ i, (∀ v, t !! i = Some v → Models.course v ≠ course_key) → final_table run !! i = t !! i.
Proof.
  intros Hk. cbn zeta. intros i Hother.
  destruct (List.find (λ c, bool_decide (key c = course_key)) courses) as [course|] eqn:Hfind.
  2:{ unfold build_course. by rewrite Hfind. }
  assert (Hkey : key course = course_key).
  { apply find_some in Hfind as [_ Hc]. by apply bool_decide_eq_true in Hc. }
  pose proof (build_course_rows courses course_key skip_git skip_build skip_notify rebuild_all
                build_image build_command w t course Hfind Hk i) as Hrow.
  cbn zeta in Hrow. destruct (t !! i) as [v|]; [|done].
  specialize (Hother v eq_refl). rewrite <- Hkey in Hother.
  by destruct Hrow.
Qed.

(** Every row that a call leaves in the table was there before, with
    the same key, course, address and time of request. *)
Lemma build_course_fields (courses : list Course) (course_key : string)
    (skip_git skip_build skip_notify rebuild_all : bool)
    (build_image build_command : option string) (w : W) (t : Table) (i : nat)
    (row : CourseUpdate) :
  keyed t →
  final_table (build_course X settings courses course_key skip_git skip_build skip_notify
                 rebuild_all build_image build_command w t) !! i = Some row →
  ∃ v, t !! i = Some v ∧ pk row = pk v ∧ Models.course row = Models.course v ∧
       request_ip row = request_ip v ∧ request_time row = request_time v.
Proof.
  intros Hk.
  destruct (List.find (λ c, bool_decide (key c = course_key)) courses) as [course|] eqn:Hfind.
  2:{ unfold build_course. rewrite Hfind. cbn [final_table]. intros Hrow. by exists row. }
  pose proof (build_course_rows courses course_key skip_git skip_build skip_notify rebuild_all
                build_image build_command w t course Hfind Hk i) as Hrow.
  cbn zeta in Hrow. destruct (t !! i) as [v|]; [|congruence].
  intros Heq. rewrite Heq in Hrow. exists v. split; [done|].
  inversion Hrow; subst; done.
Qed.

Lemma build_course_keyed (courses : list Course) (course_key : string)
    (skip_git skip_build skip_notify rebuild_all : bool)
    (build_image build_command : option string) (w : W) (t : Table) :
  keyed t →
  keyed (final_table (build_course X settings courses course_key skip_git skip_build
                        skip_notify rebuild_all build_image build_command w t)).
Proof.
  intros Hk i row Hrow.
  destruct (build_course_fields _ _ _ _ _ _ _ _ _ _ _ _ Hk Hrow) as (v & Hv & Hpk & _).
  rewrite Hpk. by apply (Hk i v).
Qed.

(** One call of [build_course] keeps the table keyed by primary key;
    every update that it leaves in the table was there before, with the
    same course, the same address and the same time of request. *)
Theorem build_course_keeps_requests (courses : list Course) (course_key : string)
    (skip_git skip_build skip_notify rebuild_all : bool)
    (build_image build_command : option string) (w : W) (t : Table) :
  keyed t →
  let run :=
    build_course X settings courses course_key skip_git skip_build skip_notify rebuild_all
      build_image build_command w t in
  keyed (final_table run) ∧
  ∀ i row, final_table run !! i = Some row →
    ∃ v, t !! i = Some v ∧ Models.course row = Models.course v ∧
         request_ip row = request_ip v ∧ request_time row = request_time v.
Proof.
  intros Hk. cbn zeta. split; [by apply build_course_keyed|].
  intros i row Hrow.
  destruct (build_course_fields _ _ _ _ _ _ _ _ _ _ _ _ Hk Hrow) as (v & Hv & _ & ?).
  by exists v.
Qed.

(** After a call of [build_course] for a course, no update of the
    course is left pending. *)
Theorem no_update_left_pending (courses : list Course) (course_key : string)
    (skip_git skip_build skip_notify rebuild_all : bool)
    (build_image build_command : option string) (w : W) (t : Table) (course : Course) :
  List.find (λ c, bool_decide (key c = course_key)) courses = Some course →
  keyed t →
  let run :=
    build_course X settings courses course_key skip_git skip_build skip_notify rebuild_all
      build_image build_command w t in
  filter_course_status course PENDING (final_table run) = [].
Proof.
  intros Hfind Hk. cbn zeta.
  apply elem_of_nil_inv. intros row. unfold filter_course_status.
  rewrite list_elem_of_filter. intros [[Hc Hs] Hin].
  unfold rows in Hin. apply list_elem_of_fmap in Hin as ([i row'] & -> & Hin).
  apply elem_of_map_to_list in Hin. simpl in *.
  pose proof (build_course_rows courses course_key skip_git skip_build skip_notify rebuild_all
                build_image build_command w t course Hfind Hk i) as Hrow.
  cbn zeta in Hrow. rewrite Hin in Hrow. destruct (t !! i) as [v|]; [|done].
  inversion Hrow; subst; simpl in *; try congruence.
  match goal with H : _ ∨ _ |- _ => destruct H; congruence end.
Qed.


Lemma NoDup_pk_rows (t : Table) : keyed t → NoDup (pk <$> rows t).
Proof.
  intros Hk. unfold rows. rewrite <- list_fmap_compose.
  rewrite (Forall_fmap_ext_1 (pk ∘ snd) fst).
  - apply NoDup_fst_map_to_list.
  - apply Forall_forall. intros [i v] Hin. apply elem_of_map_to_list in Hin. simpl.
    by apply Hk.
Qed.

(** After a call of [build_course] for a course, at most ten updates of
    the course are left. *)
Theorem at_most_ten_updates_left (courses : list Course) (course_key : string)
    (skip_git skip_build skip_notify rebuild_all : bool)
    (build_image build_command : option string) (w : W) (t : Table) (course : Course) :
  List.find (λ c, bool_decide (key c = course_key)) courses = Some course →
  keyed t →
  let run :=
    build_course X settings courses course_key skip_git skip_build skip_notify rebuild_all
      build_image build_command w t in
  length (filter_course course (final_table run)) ≤ 10.
Proof.
  intros Hfind Hk. cbn zeta.
  set (t' := final_table _).
  assert (Hk' : keyed t').
  { by apply build_course_keyed. }
  set (D := order_by_request_time_desc (filter_course course t)).
  assert (Hsub : pk <$> filter_course course t' ⊆+ pk <$> take 10 D).
  { apply NoDup_submseteq.
    - eapply sublist_NoDup; [apply (NoDup_pk_rows t' Hk')|].
      apply fmap_sublist. unfold filter_course. apply sublist_filter.
    - intros i (row & -> & Hrow)%list_elem_of_fmap.
      apply elem_of_filter_course in Hrow as [Hrow Hc]; [|done].
      pose proof (build_course_rows courses course_key skip_git skip_build skip_notify
                    rebuild_all build_image build_command w t course Hfind Hk (pk row)) as Ht.
      cbn zeta in Ht. fold t' in Ht. rewrite Hrow in Ht.
      destruct (t !! pk row) as [v|] eqn:Hv; [|done].
      assert (Hvi : pk v = pk row) by (by apply (Hk (pk row) v)).
      assert (Hlive : Models.course v = key course ∧ pk row ∉ pk <$> doomed course t).
      { inversion Ht; subst; done. }
      destruct Hlive as [Hvc Hlive].
      assert (HvD : v ∈ D).
      { unfold D, order_by_request_time_desc. rewrite merge_sort_Permutation.
        apply elem_of_filter_course; [done|]. by rewrite Hvi. }
      rewrite <- (take_drop 10 D) in HvD. apply elem_of_app in HvD as [Hin|Hin].
      + rewrite <- Hvi. by apply list_elem_of_fmap_2.
      + exfalso. apply Hlive. rewrite <- Hvi. by apply list_elem_of_fmap_2. }
  apply submseteq_length in Hsub. rewrite !length_fmap, length_take in Hsub. lia.
Qed.

(** When no update of the course is pending, a call of [build_course]
    prunes the updates of the course and does nothing else: it returns
    without a call of a collaborator, a log or an event. *)
Theorem nothing_pending_nothing_run (courses : list Course) (course_key : string)
    (skip_git skip_build skip_notify rebuild_all : bool)
    (build_image build_command : option string) (w : W) (t : Table) (course : Course) :
  List.find (λ c, bool_decide (key c = course_key)) courses = Some course →
  filter_course_status course PENDING t = [] →
  build_course X settings courses course_key skip_git skip_build skip_notify rebuild_all
    build_image build_command w t
  = {| final_world := w; final_table := prune course t; final_log := ""; final_trace := [];
       final_flow := Return |}.
Proof.
  intros Hfind Hnone. unfold build_course. rewrite Hfind.
  assert (Hempty : pending_updates course (prune course t) = []).
  { apply elem_of_nil_inv. intros v. unfold pending_updates, order_by_request_time.
    rewrite merge_sort_Permutation. unfold filter_course_status.
    rewrite list_elem_of_filter. intros [Hv Hin].
    assert (Hrow : v ∈ rows t).
    { unfold rows in *. apply list_elem_of_fmap in Hin as ([i v'] & -> & Hin).
      apply elem_of_map_to_list in Hin. rewrite prune_lookup in Hin.
      case_decide; [done|]. apply list_elem_of_fmap. exists (i, v'). split; [done|].
      by apply elem_of_map_to_list. }
    by apply (filter_nil_not_elem_of _ _ v Hnone Hv). }
  by rewrite Hempty.
Qed.


(** *** The changed files that [update_from_git] reports *)

Lemma head_order_desc (l : list CourseUpdate) (v : CourseUpdate) :
  head (order_by_request_time_desc l) = Some v →
  v ∈ l ∧ ∀ v', v' ∈ l → (request_time v' ≤ request_time v)%Z.
Proof.
  unfold order_by_request_time_desc. intros Hhead.
  assert (Hs : StronglySorted time_ge (merge_sort time_ge l))
    by (apply StronglySorted_merge_sort; apply _).
  assert (Hp : merge_sort time_ge l ≡ₚ l) by apply merge_sort_Permutation.
  destruct (merge_sort time_ge l) as [|x D]; [done|]. injection Hhead as ->.
  split; [rewrite <- Hp; by left|].
  intros v'. rewrite <- Hp. intros [->|Hin]%elem_of_cons; [lia|].
  apply StronglySorted_inv in Hs as [_ Hall]. rewrite Forall_forall in Hall.
  apply (Hall v' Hin).
Qed.

(** [update_from_git] changes neither the table nor the update in
    memory.  It reports no changed files when it fails; the files it
    reports are those that [diff_names] has found since the commit of a
    successful update of the course, one that no other successful update
    of the course was requested after. *)
Theorem update_from_git_reports (build_path : string) (course : Course) (s s' : St W)
    (ok : bool) (changed : option (list string)) :
  update_from_git X build_path course s = (s', Next (ok, changed)) →
  table s' = table s ∧ update s' = update s ∧
  trace s' = trace s ++ [Returned_update_from_git ok changed] ∧
  (ok = false → changed = None) ∧
  ∀ files, changed = Some files →
    ∃ v h w0 w1 out error,
      v ∈ filter_course_status course SUCCESS (table s) ∧
      (∀ v', v' ∈ filter_course_status course SUCCESS (table s) →
             (request_time v' ≤ request_time v)%Z) ∧
      commit_hash v = Some h ∧
      diff_names X build_path h w0 = (w1, out, Ok (error, Some files)).
Proof.
  unfold update_from_git, update_from_git_body, log_commit_metadata.
  unfold mbind, M_bind, call, query, emit, build_logger, mret, M_ret. simpl.
  destruct (clone_if_doesnt_exist X _ _ _ _) as [[w1 out1] [[[]|]|e]]; simpl; [| | |done].
  - destruct (get_commit_metadata X _ _) as [[w2 out2] [[[] logstr]|e]]; simpl; [| |done];
      intros [= <- <- <-]; simpl; done.
  - intros [= <- <- <-]. simpl. done.
  - destruct (checkout X _ _ _ _) as [[w2 out2] [[]|e]]; simpl; [| |done].
    2:{ intros [= <- <- <-]. simpl. done. }
    destruct (head (order_by_request_time_desc (filter_course_status course SUCCESS (table s))))
      as [v|] eqn:Hhead; simpl.
    2:{ destruct (get_commit_metadata X _ _) as [[w3 out3] [[[] logstr]|e]]; simpl; [| |done];
          intros [= <- <- <-]; simpl; done. }
    apply head_order_desc in Hhead as [Hv Hmax].
    destruct (commit_hash v) as [h|] eqn:Hh; simpl.
    2:{ destruct (get_commit_metadata X _ _) as [[w3 out3] [[[] logstr]|e]]; simpl; [| |done];
          intros [= <- <- <-]; simpl; done. }
    destruct (diff_names X build_path h w2) as [[w3 out3] [[error files]|e]] eqn:Hdiff;
      simpl; [|done].
    assert (Hfound : ∀ files', files = Some files' →
              ∃ v h w0 w1 out error,
                v ∈ filter_course_status course SUCCESS (table s) ∧
                (∀ v', v' ∈ filter_course_status course SUCCESS (table s) →
                       (request_time v' ≤ request_time v)%Z) ∧
                commit_hash v = Some h ∧
                diff_names X build_path h w0 = (w1, out, Ok (error, Some files'))).
    { intros files' ->. by exists v, h, w2, w3, out3, error. }
    destruct error as [err|]; simpl;
      (destruct (get_commit_metadata X _ _) as [[w4 out4] [[[] logstr]|e]]; simpl; [| |done]);
      intros [= <- <- <-]; simpl; done.
Qed.


End Sequencing.



(** The sample run evaluated: the first update of the course has no
    earlier commit to compare with, [update_from_git] returns [None] for
    the changed files, and the build is called with the wildcard. *)
Example first_build_gets_wildcard :
  final_trace
    (build_course (Sample.collaborators None true) Sample.settings [Sample.course] "def"
       false false true false None None () Sample.one_pending)
  = [Returned_update_from_git true None;
     Called_build None None ["*"];
     Execute "apluslms/compile-rst:1.6" None
       [("COURSE_KEY", "def"); ("COURSE_ID", "1"); ("STATIC_URL_PATH", "/static/def");
        ("STATIC_CONTENT_HOST", "https://grader.example.org/static/def");
        ("CHANGED_FILES", "*")];
     Called_store].
Proof. vm_compute. reflexivity. Qed.



(** The same build for the course with a remote id: the mail is posted,
    with the captured log as its message. *)
Example failed_build_posts_mail :
  List.filter is_mail (final_trace (Sample.failing_run Sample.course))
  = let captured :=
      "Skipping git update." +:+ Py.nl
      +:+ "Failed to detect changed files: setting CHANGED_FILES to *" +:+ Py.nl +:+ Py.nl +:+ Py.nl
      +:+ "No apps.meta file, using the default build image: apluslms/compile-rst:1.6"
      +:+ Py.nl +:+ Py.nl +:+ Py.nl +:+ "building" in
    [Called_send_error_mail "Course def build failed" captured;
     Post "https://plus.example.org/api/v2/courses/1/send_mail/"
       [("subject", "Course def build failed"); ("message", captured)]].
Proof. vm_compute. reflexivity. Qed.

Lemma pending_updates_sequenced_witness :
  let t := Sample.eleven_pending in
  let pending := λ v, t !! pk v = Some v ∧ Models.course v = key Sample.course
                      ∧ status v = PENDING in
  let v := Sample.update 1 1 PENDING in
  let later := later_than v (filter_course Sample.course t) in
  let latest := ∀ v', pending v' → (request_time v' ≤ request_time v)%Z in
  (10 ≤ later → final_table Sample.eleven_run !! pk v = None) ∧
  (later < 10 → latest →
   ∃ row, final_table Sample.eleven_run !! pk v = Some row
          ∧ (status row = SUCCESS ∨ status row = FAILED)) ∧
  (later < 10 → ¬ latest → final_table Sample.eleven_run !! pk v = Some (set_status SKIPPED v)).
Proof.
  apply (pending_updates_sequenced (Sample.collaborators None true) Sample.settings
           [Sample.course] "def" false false true false None None () Sample.eleven_pending
           Sample.course).
  - reflexivity.
  - apply (bool_decide_unpack _). vm_compute. reflexivity.
  - apply (bool_decide_unpack _). vm_compute. reflexivity.
  - split; [vm_compute; reflexivity|]. split; reflexivity.
Defined.

(** C1 as it is stated fails for eleven pending updates: the oldest one
    is pending, is not the one that runs, and is not marked SKIPPED: its
    row is deleted.  Nine updates are skipped, not ten. *)
Lemma eleven_pending_oldest_deleted :
  length (filter_course_status Sample.course PENDING Sample.eleven_pending) = 11 ∧
  Sample.eleven_pending !! 1%nat = Some (Sample.update 1 1 PENDING) ∧
  final_table Sample.eleven_run !! 1%nat = None ∧
  (status <$> final_table Sample.eleven_run !! 11%nat) = Some SUCCESS ∧
  length (filter (λ u, status u = SKIPPED) (rows (final_table Sample.eleven_run))) = 9.
Proof. repeat split; vm_compute; reflexivity. Qed.

(** With ten pending updates the claim holds as stated. *)
Example ten_pending_nine_skipped :
  let t : Table := list_to_map ((λ n, (n, Sample.update n (Z.of_nat n) PENDING)) <$> seq 1 10) in
  let run := build_course (Sample.collaborators None true) Sample.settings [Sample.course] "def"
               false false true false None None () t in
  (status <$> final_table run !! 10%nat) = Some SUCCESS ∧
  length (filter (λ u, status u = SKIPPED) (rows (final_table run))) = 9 ∧
  length (rows (final_table run)) = 10.
Proof. repeat split; vm_compute; reflexivity. Qed.

(** The frontend answers the notification with the status 503: the
    failure is logged, and mailed, since the course has
    [email_on_error]. *)
Lemma notify_update_failure_witness :
  let X := Sample.deployment Sample.plain_tree (Ok ()) (Ok Sample.unavailable) in
  let url := "https://plus.example.org/api/v2/courses/1/notify_update/" in
  let data := [("email_on_error", "True")] in
  ∃ s' more,
    notify_update X Sample.settings Sample.course Sample.state = (s', Next ()) ∧
    log_stream s' = log_stream Sample.state +:+ "" +:+ "Failed:" +:+ Py.nl
                      +:+ "Service Unavailable" +:+ Py.nl +:+ more ∧
    trace s' = trace Sample.state ++ Called_notify_update :: Post url data ::
      mail_events X Sample.settings Sample.course "Failed to notify update of def"
        ("Build succeeded but notifying the frontend of the update failed:"
           +:+ Py.nl +:+ "Service Unavailable").
Proof.
  intros X url data.
  apply (notify_update_failure X Sample.settings Sample.course Sample.state () ""
           "Service Unavailable" (Ok Sample.unavailable)).
  - reflexivity.
  - right. exists Sample.unavailable. split; [reflexivity|]. split; [discriminate|reflexivity].
Defined.

Lemma skip_flags_honoured_witness :
  let run :=
    build_course (Sample.collaborators None true) Sample.settings [Sample.course] "def"
      true true true false None None () Sample.one_pending in
  (∀ ok changed, Returned_update_from_git ok changed ∉ final_trace run) ∧
  (∀ i c changed, Called_build i c changed ∉ final_trace run) ∧
  Called_notify_update ∉ final_trace run.
Proof.
  destruct (skip_flags_honoured (Sample.collaborators None true) Sample.settings
              [Sample.course] "def" true true true false None None () Sample.one_pending)
    as (Hgit & Hbuild & Hnotify & _).
  split; [exact (Hgit eq_refl)|]. split; [exact (proj1 (Hbuild eq_refl))|exact (Hnotify eq_refl)].
Defined.

Lemma notify_only_after_success_witness :
  let run :=
    build_course (Sample.collaborators None true) Sample.settings [Sample.course] "def"
      false false false false None None () Sample.one_pending in
  ∃ course u row,
    List.find (λ c, bool_decide (key c = "def")) [Sample.course] = Some course ∧
    last (pending_updates course (prune course Sample.one_pending)) = Some u ∧
    final_table run !! pk u = Some row ∧ status row = SUCCESS ∧
    update_automatically course = true ∧ is_Some (remote_id course) ∧
    false = false ∧ is_Some (FRONTEND_URL Sample.settings).
Proof.
  apply (notify_only_after_success (Sample.collaborators None true) Sample.settings
           [Sample.course] "def" false false false false None None () Sample.one_pending).
  vm_compute. do 4 right. left.
Defined.

Lemma success_went_through_stages_witness :
  let run :=
    build_course (Sample.collaborators None true) Sample.settings [Sample.course] "def"
      false false true false None None () Sample.one_pending in
  (false = false → Py.truthy (git_origin Sample.course) = true →
   ∃ changed, Returned_update_from_git true changed ∈ final_trace run) ∧
  (false = false → ∃ changed, Called_build None None changed ∈ final_trace run) ∧
  (skip_build_failsafes Sample.course = false → Called_store ∈ final_trace run).
Proof.
  intros run.
  apply (success_went_through_stages (Sample.collaborators None true) Sample.settings
           [Sample.course] "def" false false true false None None () Sample.one_pending
           Sample.course (Sample.update 1 10 PENDING)
           (default (Sample.update 1 10 PENDING) (final_table run !! 1%nat))).
  - reflexivity.
  - vm_compute. reflexivity.
  - vm_compute. reflexivity.
  - vm_compute. reflexivity.
Defined.


(** The configuration does not load: the [ConfigError] is logged and
    the update fails. *)
Lemma exception_in_stages_is_logged_witness :
  let e := ConfigError "index.yaml: syntax error" in
  let X := Sample.deployment Sample.plain_tree (Fail e) (Ok Sample.accepted) in
  let s' := (try_body X Sample.settings Sample.course "def" true true false None None
               (start Sample.course () Sample.one_pending (Sample.update 1 10 PENDING))).1 in
  let run :=
    build_course X Sample.settings [Sample.course] "def"
      true true true false None None () Sample.one_pending in
  final_flow run = Return ∧
  (∃ more, final_log run = log_stream s' +:+ "Build failed." +:+ Py.nl +:+ Py.nl
                             +:+ format_exc X e +:+ Py.nl +:+ Py.nl +:+ more) ∧
  ∃ row, final_table run !! 1%nat = Some row ∧ status row = FAILED.
Proof.
  intros e X s'.
  apply (exception_in_stages_is_logged X Sample.settings [Sample.course] "def"
           true true true false None None () Sample.one_pending
           Sample.course (Sample.update 1 10 PENDING) s' e).
  - reflexivity.
  - vm_compute. reflexivity.
  - vm_compute. reflexivity.
Defined.

Lemma status_running_until_finally_witness :
  let r := try_body (Sample.collaborators None true) Sample.settings Sample.course "def"
             true false false None None Sample.state in
  (∃ row, table r.1 !! pk (update Sample.state) = Some row ∧ status row = RUNNING) ∧
  (r.2 = Next () → status (update r.1) = SUCCESS).
Proof.
  intros r.
  apply (status_running_until_finally (Sample.collaborators None true) Sample.settings
           Sample.course "def" true false false None None Sample.state r.1 r.2).
  vm_compute. reflexivity.
Defined.

(** The sample run evaluated at the end of the stages: the update in
    memory has succeeded, the table still shows it as running. *)
Example succeeded_in_memory_running_in_table :
  let r := try_body (Sample.collaborators None true) Sample.settings Sample.course "def"
             true false false None None Sample.state in
  r.2 = Next () ∧ status (update r.1) = SUCCESS ∧
  (status <$> table r.1 !! 1%nat) = Some RUNNING.
Proof. repeat split; vm_compute; reflexivity. Qed.

Lemma other_courses_untouched_witness :
  let other :=
    {| pk := 12; Models.course := "abc"; request_ip := None; request_time := 5;
       updated_time := None; commit_hash := None; status := PENDING; log := None |} in
  let t := <[12%nat := other]> Sample.eleven_pending in
  let run :=
    build_course (Sample.collaborators None true) Sample.settings [Sample.course] "def"
      false false true false None None () t in
  keyed t ∧ final_table run !! 12%nat = Some other.
Proof.
  intros other t run.
  assert (Hkeyed : keyed t) by (apply (bool_decide_unpack _); vm_compute; reflexivity).
  split; [exact Hkeyed|].
  unfold run.
  rewrite (other_courses_untouched (Sample.collaborators None true) Sample.settings
             [Sample.course] "def" false false true false None None () t Hkeyed 12%nat).
  - vm_compute. reflexivity.
  - intros v Hv.
    assert (Hl : t !! 12%nat = Some other) by (vm_compute; reflexivity).
    rewrite Hl in Hv. injection Hv as <-. discriminate.
Defined.

Lemma build_course_keeps_requests_witness :
  let run := Sample.eleven_run in
  keyed (final_table run) ∧
  ∀ i row, final_table run !! i = Some row →
    ∃ v, Sample.eleven_pending !! i = Some v ∧ Models.course row = Models.course v ∧
         request_ip row = request_ip v ∧ request_time row = request_time v.
Proof.
  apply (build_course_keeps_requests (Sample.collaborators None true) Sample.settings
           [Sample.course] "def" false false true false None None () Sample.eleven_pending).
  apply (bool_decide_unpack _). vm_compute. reflexivity.
Defined.

Lemma no_update_left_pending_witness :
  filter_course_status Sample.course PENDING (final_table Sample.eleven_run) = [].
Proof.
  apply (no_update_left_pending (Sample.collaborators None true) Sample.settings
           [Sample.course] "def" false false true false None None () Sample.eleven_pending
           Sample.course).
  - reflexivity.
  - apply (bool_decide_unpack _). vm_compute. reflexivity.
Defined.

Lemma at_most_ten_updates_left_witness :
  length (filter_course Sample.course (final_table Sample.eleven_run)) ≤ 10.
Proof.
  apply (at_most_ten_updates_left (Sample.collaborators None true) Sample.settings
           [Sample.course] "def" false false true false None None () Sample.eleven_pending
           Sample.course).
  - reflexivity.
  - apply (bool_decide_unpack _). vm_compute. reflexivity.
Defined.

Lemma nothing_pending_nothing_run_witness :
  let t : Table := {[ 1%nat := Sample.update 1 10 SUCCESS ]} in
  build_course (Sample.collaborators None true) Sample.settings [Sample.course] "def"
    false false false false None None () t
  = {| final_world := (); final_table := prune Sample.course t; final_log := "";
       final_trace := []; final_flow := Return |}.
Proof.
  apply (nothing_pending_nothing_run (Sample.collaborators None true) Sample.settings
           [Sample.course] "def" false false false false None None ()
           {[ 1%nat := Sample.update 1 10 SUCCESS ]} Sample.course).
  - reflexivity.
  - vm_compute. reflexivity.
Defined.

(** The course was built before at the commit 0f0f0f: the changed files
    are those that [diff_names] finds since that commit. *)
Lemma update_from_git_reports_witness :
  let X := Sample.collaborators None true in
  let s : St unit :=
    {| world := (); table := Sample.built_before; update := Sample.update 2 20 PENDING;
       log_stream := ""; trace := [] |} in
  let s' := (update_from_git X "/srv/build/def" Sample.course s).1 in
  table s' = table s ∧ update s' = update s ∧
  trace s' = trace s ++ [Returned_update_from_git true (Some ["index.rst"])] ∧
  (true = false → Some ["index.rst"] = None) ∧
  ∀ files, Some ["index.rst"] = Some files →
    ∃ v h w0 w1 out error,
      v ∈ filter_course_status Sample.course SUCCESS (table s) ∧
      (∀ v', v' ∈ filter_course_status Sample.course SUCCESS (table s) →
             (request_time v' ≤ request_time v)%Z) ∧
      commit_hash v = Some h ∧
      diff_names X "/srv/build/def" h w0 = (w1, out, Ok (error, Some files)).
Proof.
  intros X s s'.
  apply (update_from_git_reports X "/srv/build/def" Sample.course s s' true
           (Some ["index.rst"])).
  vm_compute. reflexivity.
Defined.

End PipelineFacts.

(** ** From the hook to the build *)

Module TaskFacts.
Import Models Builder Views Tasks.

Section TaskFacts.
Context {W Config : Type}.
Variable X : Collaborators W Config.
Variable settings : Settings.
Variable has_access : Request → Permission → Z → bool.
Variable hmac_sha256_hexdigest : string → string → string.
Variable json_loads : string → option (gmap string string).

Lemma kwarg_flags (request_params : gmap string string) (k : string) :
  k ∈ ["skip_git"; "skip_build"; "skip_notify"] →
  kwarg (omap (λ k, (λ v, (k, bool_decide (v = "on") || bool_decide (v = "true")))
                      <$> request_params !! k)
              ["skip_git"; "skip_build"; "skip_notify"]) k
  = match request_params !! k with
    | Some v => bool_decide (v = "on") || bool_decide (v = "true")
    | None => false
    end.
Proof.
  intros Hk. unfold kwarg. cbn [omap list_omap].
  repeat (apply elem_of_cons in Hk as [->|Hk]);
    [| | |by apply elem_of_nil in Hk];
    destruct (request_params !! "skip_git"), (request_params !! "skip_build"),
      (request_params !! "skip_notify"); reflexivity.
Qed.

(** The flags of a request reach the build.  When the task that the
    hook has enqueued for a request runs [build_course], a flag that the
    request carries with the value [on] or [true], in its query string or,
    when the query string does not name it, in its form, switches the
    stage off: the repository is not updated, the build is not called,
    the frontend is not notified. *)
Theorem hook_flags_reach_the_build (courses : list Course) (request : Request)
    (key : string) (e : Effect) (locked : bool) (w : W) (t : Table) (run : Run) :
  e ∈ (hook has_access hmac_sha256_hexdigest json_loads courses request key).1 →
  run_task X settings locked courses w t e = Some (Built run) →
  let on := λ k, ∃ v, (GET request ∪ POST request) !! k = Some v ∧ (v = "on" ∨ v = "true") in
  (on "skip_git" → ∀ ok changed, Returned_update_from_git ok changed ∉ final_trace run) ∧
  (on "skip_build" →
   (∀ i c changed, Called_build i c changed ∉ final_trace run)
   ∧ (∀ i c env, Execute i c env ∉ final_trace run)) ∧
  (on "skip_notify" → Called_notify_update ∉ final_trace run).
Proof.
  unfold Views.hook. case_bool_decide as Hm; simpl; [|by intros ?%elem_of_nil].
  destruct (List.find _ courses) as [course|]; [|by intros ?%elem_of_nil].
  destruct (ViewsFacts.hook_course_outcome has_access hmac_sha256_hexdigest json_loads
              request course key) as [(Hlogs & _ & _)|(_ & logs & Hlogs & ->)].
  { intros Hin. destruct (Hlogs _ Hin) as [msg ->]. done. }
  cbn [fst]. intros [Hin|Hin]%elem_of_app; [by destruct (Hlogs _ Hin) as [msg ->]|].
  unfold create_and_push in Hin. cbn [fst] in Hin.
  set (params := GET request ∪ POST request) in *.
  set (flags := omap _ _) in Hin.
  apply elem_of_cons in Hin as [->|Hin]; [done|]. apply list_elem_of_singleton in Hin as ->.
  unfold run_task, push_event. destruct locked; [done|]. intros [= <-]. cbn zeta.
  assert (Hon : ∀ k, k ∈ ["skip_git"; "skip_build"; "skip_notify"] →
                     (∃ v, params !! k = Some v ∧ (v = "on" ∨ v = "true")) →
                     kwarg flags k = true).
  { intros k Hk (v & Hv & Hval). unfold flags. rewrite (kwarg_flags params k Hk), Hv.
    apply orb_true_iff. rewrite !bool_decide_eq_true. done. }
  pose proof (PipelineFacts.skipped_stages_not_run X settings courses key
                (kwarg flags "skip_git") (kwarg flags "skip_build") (kwarg flags "skip_notify")
                false (get_truthy params "build_image") (get_truthy params "build_command") w t)
    as (Hgit & Hbuild & Hnotify & _).
  split; [|split].
  - intros Hk. apply Hgit, Hon; [by left|done].
  - intros Hk. apply Hbuild, Hon; [right; by left|done].
  - intros Hk. apply Hnotify, Hon; [do 2 right; by left|done].
Qed.

End TaskFacts.

Lemma hook_flags_reach_the_build_witness :
  let request := Sample.gitlab_push_with_token in
  let run :=
    build_course (Sample.collaborators None true) Sample.settings [Sample.secured_course]
      "def" true false false false None (Some "make html") () Sample.one_pending in
  let on := λ k, ∃ v, (GET request ∪ POST request) !! k = Some v ∧ (v = "on" ∨ v = "true") in
  (on "skip_git" → ∀ ok changed, Returned_update_from_git ok changed ∉ final_trace run) ∧
  (on "skip_build" →
   (∀ i c changed, Called_build i c changed ∉ final_trace run)
   ∧ (∀ i c env, Execute i c env ∉ final_trace run)) ∧
  (on "skip_notify" → Called_notify_update ∉ final_trace run).
Proof.
  intros request run.
  apply (hook_flags_reach_the_build (Sample.collaborators None true) Sample.settings
           (λ _ _ _, false) (λ k b, k +:+ b) (λ _, Some {[ "ref" := "refs/heads/master" ]})
           [Sample.secured_course] request "def"
           (Push_event "def" [("skip_git", true); ("skip_notify", false)] None
              (Some "make html"))
           false () Sample.one_pending run).
  - vm_compute. right. left.
  - reflexivity.
Defined.

End TaskFacts.
